(** * OCI cloud sizing scripts: a shallow embedding and its properties

    The repository holds two variants of one inventory script:
    - [src/OCI/oci_cs.py] (workloads: instances, object storage; one summary
      row per region and compartment), embedded in [Module OciCs];
    - [src/OCI/CVOracleCloudSizingScript.py] (workloads: instances, object
      storage, DB systems, OKE clusters; one summary row per region),
      embedded in [Module CVOracle].

    Modelling conventions.
    - Python [int]s are [Z]; Python [float]s are the exact rationals [Q] they
      stand for, compared with [Qeq]. [round(x, 2)] is Python 3's rounding:
      to the nearest hundredth, ties to the even hundredth.
    - The OCI SDK, the [oci] command line and [kubectl] are an oracle: a
      record [Cloud] of functions from a request to a result or an exception.
    - The state threaded through the program is the shared [config]
      dictionary, the file system (workbooks and temporary files) and the
      module-level running totals. Statements run in a state-and-exception
      monad; an exception leaves the state as it was when raised.
    - [logging] and [print] output and column widths are not part of the
      state. *)

From Stdlib Require Import ZArith QArith Qround Qabs Lqa Ascii String List Lia.
From stdpp Require Import base option list gmap strings pretty.

Local Open Scope string_scope.
Local Open Scope list_scope.
Local Open Scope Z_scope.

(** ** Numbers *)

(** Nearest integer, ties to even: the rounding of Python 3's [round]. *)
Definition round_half_even (x : Q) : Z :=
  let f := Qfloor x in
  match Qcompare (x - inject_Z f) (1 # 2) with
  | Lt => f
  | Gt => f + 1
  | Eq => if Z.even f then f else f + 1
  end.

(** [round(x, 2)] *)
Definition py_round2 (x : Q) : Q := Qmake (round_half_even (x * 100)) 100.


(** Truth value of a Python number: zero is false. *)
Definition truthy (x : Q) : bool := negb (Qeq_bool x 0).

(** [x if x else 0] *)
Definition or_zero (x : Q) : Q := if truthy x then x else 0%Q.

Definition Qsum (l : list Q) : Q := fold_right Qplus 0%Q l.
Definition Zsum (l : list Z) : Z := fold_right Z.add 0 l.

(** ** Exceptions and results *)

Inductive exn :=
| ServiceError          (* any failure of an SDK call *)
| KeyError
| ValueError
| AttributeError
| FileNotFoundError
| InvalidFileException
| CalledProcessError
| JSONDecodeError
| SystemExit.            (* sys.exit: not an [Exception] *)

(** [FileNotFoundError] is the only subclass of [OSError] here. *)
Definition is_OSError (e : exn) : bool :=
  match e with FileNotFoundError => true | _ => false end.

Inductive result (A : Type) :=
| Ok (a : A)
| Raise (e : exn).
Arguments Ok {A} a.
Arguments Raise {A} e.

Definition is_ok {A} (r : result A) : bool :=
  match r with Ok _ => true | Raise _ => false end.

(** ** Workbooks (openpyxl) *)

(** Tag dictionaries are only ever passed to [str]. *)
Definition tags := list (string * string).

Inductive pyval :=
| VNone
| VStr (s : string)
| VInt (z : Z)
| VFloat (q : Q)
| VRepr (t : tags).      (* str(t) *)

Record cell := mkCell { value : pyval; bold : bool; fill : bool }.

Definition plain (v : pyval) : cell := mkCell v false false.
Definition blank : cell := plain VNone.

Definition row := list cell.
Definition worksheet := list row.

(** Sheets in tab order, by title. *)
Definition workbook := list (string * worksheet).

Inductive file :=
| Xlsx (wb : workbook)
| Plain.

(** [wb[name]] *)
Fixpoint wb_get (wb : workbook) (name : string) : result worksheet :=
  match wb with
  | [] => Raise KeyError
  | (t, ws) :: wb' => if String.eqb t name then Ok ws else wb_get wb' name
  end.

(** The sheet object [wb[name]] is mutated in place. *)
Fixpoint wb_set (wb : workbook) (name : string) (ws : worksheet) : workbook :=
  match wb with
  | [] => []
  | (t, old) :: wb' =>
      if String.eqb t name then (t, ws) :: wb' else (t, old) :: wb_set wb' name ws
  end.

(** [wb.create_sheet(title)]; every title used is new to the workbook. *)
Definition create_sheet (wb : workbook) (title : string) : workbook :=
  wb ++ [(title, [])].

(** [sheet.append(row)] *)
Definition ws_append (ws : worksheet) (values : list pyval) : worksheet :=
  ws ++ [map plain values].

Definition max_column (ws : worksheet) : nat :=
  Nat.max 1 (fold_right Nat.max 0%nat (map (@length cell) ws)).

Definition pad_row (width : nat) (r : row) : row :=
  r ++ replicate (width - length r) blank.

(** [for cell in sheet[n]: f(cell)] with [n = S i]: the cells of row [n] up to
    the sheet's last column, which openpyxl creates when they are missing. *)
Definition ws_style_row (f : cell -> cell) (i : nat) (ws : worksheet) : worksheet :=
  let w := max_column ws in
  match ws !! i with
  | Some r => <[i := map f (pad_row w r)]> ws
  | None => ws ++ replicate (i - length ws) [] ++ [map f (pad_row w [])]
  end.

Definition set_bold (c : cell) : cell := mkCell (value c) true (fill c).
Definition set_bold_fill (c : cell) : cell := mkCell (value c) true true.

(** ** The state and its monad *)

Section Monad.
(** [G]: the module-level totals of the script. *)
Context {G : Type}.

Record state := mkState {
  config : gmap string string;
  fs : gmap string file;
  globals : G
}.

Definition M (A : Type) := state -> result A * state.

Definition ret {A} (a : A) : M A := fun s => (Ok a, s).

Definition bind {A B} (m : M A) (k : A -> M B) : M B :=
  fun s => match m s with
           | (Ok a, s') => k a s'
           | (Raise e, s') => (Raise e, s')
           end.

Definition raise {A} (e : exn) : M A := fun s => (Raise e, s).

(** An expression that may raise and has no effect on the state. *)
Definition call {A} (r : result A) : M A := fun s => (r, s).

Definition get_config : M (gmap string string) := fun s => (Ok (config s), s).

(** [config[k]] *)
Definition config_item (k : string) : M string :=
  fun s => match config s !! k with
           | Some v => (Ok v, s)
           | None => (Raise KeyError, s)
           end.

(** [config[k] = v] *)
Definition config_set (k v : string) : M unit :=
  fun s => (Ok tt, mkState (<[k := v]> (config s)) (fs s) (globals s)).

Definition get_globals : M G := fun s => (Ok (globals s), s).

Definition modify_globals (f : G -> G) : M unit :=
  fun s => (Ok tt, mkState (config s) (fs s) (f (globals s))).

(** [os.path.exists(path)] *)
Definition path_exists (path : string) : M bool :=
  fun s => (Ok (bool_decide (is_Some (fs s !! path))), s).

(** [load_workbook(filename)] *)
Definition load_workbook (filename : string) : M workbook :=
  fun s => match fs s !! filename with
           | Some (Xlsx wb) => (Ok wb, s)
           | Some Plain => (Raise InvalidFileException, s)
           | None => (Raise FileNotFoundError, s)
           end.

(** [wb.save(filename)] *)
Definition save (wb : workbook) (filename : string) : M unit :=
  fun s => (Ok tt, mkState (config s) (<[filename := Xlsx wb]> (fs s)) (globals s)).

(** A subprocess that may have written [path] whatever its exit status. *)
Definition write_file (written : bool) (path : string) : M unit :=
  fun s => (Ok tt,
            if written then mkState (config s) (<[path := Plain]> (fs s)) (globals s)
            else s).

(** [os.remove(path)] *)
Definition os_remove (path : string) : M unit :=
  fun s => match fs s !! path with
           | Some _ => (Ok tt, mkState (config s) (delete path (fs s)) (globals s))
           | None => (Raise FileNotFoundError, s)
           end.

(** [try: body except Exception as e: handler] *)
Definition try_except {A} (body : M A) (handler : exn -> M A) : M A :=
  fun s => match body s with
           | (Ok a, s') => (Ok a, s')
           | (Raise e, s') => handler e s'
           end.

(** [try: body finally: final] *)
Definition try_finally {A} (body : M A) (final : M unit) : M A :=
  fun s => match body s with
           | (r, s') => match final s' with
                        | (Ok _, s'') => (r, s'')
                        | (Raise e, s'') => (Raise e, s'')
                        end
           end.

(** [for x in l: body(x)] with loop-carried local variables [acc]; a
    [continue] ends the body with the variables as they are. *)
Fixpoint for_fold {A S} (l : list A) (acc : S) (body : S -> A -> M S) : M S :=
  match l with
  | [] => ret acc
  | x :: l' => bind (body acc x) (fun acc' => for_fold l' acc' body)
  end.

Definition for_each {A} (l : list A) (body : A -> M unit) : M unit :=
  for_fold l tt (fun _ x => body x).
End Monad.

Arguments state : clear implicits.
Arguments M : clear implicits.

Notation "'let*' x ':=' m 'in' k" := (bind m (fun x => k))
  (at level 10, x pattern, m at level 100, k at level 200).
Notation "m ';;;' k" := (bind m (fun _ => k))
  (at level 100, k at level 200, right associativity).

(** [try: x = e] / [except Exception: ...; continue]: [None] stands for the
    handler having run. *)
Definition attempt {G A} (r : result A) : M G (option A) :=
  try_except (let* a := call r in ret (Some a)) (fun _ => ret None).

(** ** The cloud: what the SDK and the command-line tools answer *)

Record Instance := mkInstance {
  inst_id : string;
  inst_display_name : string;
  inst_availability_domain : string;
  inst_shape : string;
  inst_lifecycle_state : string;
  inst_compartment_id : string;
  inst_defined_tags : tags;
  inst_freeform_tags : tags
}.

Record Volume := mkVolume {
  vol_display_name : string;
  vol_size_in_gbs : Z
}.

Record BucketStats := mkBucketStats {
  st_storage_tier : string;
  st_defined_tags : tags;
  st_freeform_tags : tags;
  st_approximate_size : option Z;
  st_approximate_count : option Z
}.

Record DbSystem := mkDbSystem {
  db_id : string;
  db_display_name : string;
  db_availability_domain : string;
  db_shape : string;
  db_lifecycle_state : string;
  db_node_count : Z;
  db_version : string;
  db_database_edition : string;
  db_data_storage_size_in_gbs : Z;
  db_defined_tags : tags;
  db_freeform_tags : tags
}.

Record Cluster := mkCluster {
  cl_id : string;
  cl_name : string;
  cl_kubernetes_version : string;
  cl_lifecycle_state : string
}.

(** The JSON that [kubectl get pvc -A -o json] prints, after [json.loads];
    [None] is a key that is not there. *)
Record PvcMetadata := mkPvcMetadata {
  pvc_name : option string;
  pvc_namespace : option string
}.
Record PvcRequests := mkPvcRequests { pvc_storage : option string }.
Record PvcResources := mkPvcResources { pvc_requests : option PvcRequests }.
Record PvcSpec := mkPvcSpec { pvc_resources : option PvcResources }.
Record Pvc := mkPvc {
  pvc_metadata : option PvcMetadata;
  pvc_spec : option PvcSpec
}.
Record PvcData := mkPvcData { pvc_items : option (list Pvc) }.

(** The JSON of [kubectl get nodes -o json]: per node, its metadata (if any)
    and there its name (if any). *)
Record NodeData := mkNodeData { node_items : option (list (option (option string))) }.

(** A client is the configuration it was built from. *)
Definition client := gmap string string.

Record Cloud := mkCloud {
  list_region_subscriptions : client -> string -> result (list string);
  list_compartments : client -> string -> result (list string);
  get_namespace : client -> result string;
  list_buckets : client -> string -> string -> result (list string);
  get_bucket : client -> string -> string -> result BucketStats;
  list_instances : client -> string -> result (list Instance);
  list_boot_volume_attachments :
    client -> string -> string -> string -> result (list string);
  get_boot_volume : client -> string -> result Volume;
  list_volume_attachments :
    client -> string -> string -> string -> result (list string);
  get_volume : client -> string -> result Volume;
  list_db_systems : client -> string -> result (list DbSystem);
  list_clusters : client -> string -> result (list Cluster);
  (* tempfile.gettempdir(), with its path separator *)
  tempdir : string;
  (* oci ce cluster create-kubeconfig: cluster id, file, region, profile;
     whether the file was written, and the exit status *)
  create_kubeconfig : string -> string -> string -> string -> bool * result unit;
  (* kubectl --kubeconfig file get pvc / get nodes, and json.loads of it *)
  kubectl_get_pvc : string -> result PvcData;
  kubectl_get_nodes : string -> result NodeData
}.

(** Shared front end of every enumeration function:
    [if not regions: regions = [... list_region_subscriptions(config["tenancy"])]]
    and the same for compartments. *)
Section Resolve.
Context {G : Type} (cloud : Cloud).

Definition resolve_regions (identity_client : client) (regions : list string)
  : M G (list string) :=
  match regions with
  | [] => let* tenancy := config_item "tenancy" in
          call (list_region_subscriptions cloud identity_client tenancy)
  | _ => ret regions
  end.

Definition resolve_compartments (identity_client : client) (compartments : list string)
  : M G (list string) :=
  match compartments with
  | [] => let* tenancy := config_item "tenancy" in
          call (list_compartments cloud identity_client tenancy)
  | _ => ret compartments
  end.
End Resolve.

Definition opt_str (o : option string) : pyval :=
  match o with Some s => VStr s | None => VNone end.
Definition opt_int (o : option Z) : pyval :=
  match o with Some z => VInt z | None => VNone end.

(** * [oci_cs.py] *)

Module OciCs.

Record globals := mkGlobals {
  total_instances : Z;
  total_instance_sizeGB : Z;
  total_instance_sizeTB : Q;
  total_namespaces : Z;
  total_buckets : Z;
  total_storageGB : Q;
  total_storageTB : Q
}.

(** The values of the module-level assignments at import time. *)
Definition globals0 : globals := mkGlobals 0 0 0 0 0 0 0.

Record InstanceInfo := mkInstanceInfo {
  compartment_id : string;
  instance_id : string;
  instance_name : string;
  region : string;
  availability_domain : string;
  shape : string;
  state : string;
  number_of_volumes : Z;
  sizeGB : Z;
  sizeTB : Q;
  defined_tags : tags;
  freeform_tags : tags
}.

Record InstanceSummary := mkInstanceSummary {
  is_region : option string;
  is_compartment_id : option string;
  instance_count : Z;
  total_sizeGB : Z;
  total_sizeTB : Q
}.

Record ObjectStorageInfo := mkObjectStorageInfo {
  os_compartment_id : string;
  os_namespace : string;
  bucket_name : string;
  os_region : string;
  storage_tier : string;
  object_count : option Z;
  os_sizeGB : Q;
  os_sizeTB : Q;
  os_defined_tags : tags;
  os_freeform_tags : tags
}.

Record ObjectStorageSummary := mkObjectStorageSummary {
  oss_region : option string;
  oss_namespace : option string;
  oss_compartment_id : option string;
  bucket_count : Z;
  total_storage_GB : Q;
  total_storage_TB : Q
}.

(** What [dump_info] and [dump_summary] are handed: an object of one of the
    classes. *)
Inductive info :=
| AnInstance (i : InstanceInfo)
| ABucket (b : ObjectStorageInfo).

Inductive summary :=
| AnInstanceSummary (s : InstanceSummary)
| ABucketSummary (s : ObjectStorageSummary).

Definition get_sheet_info (workload : string)
  : result (string * string * list string * list string) :=
  if String.eqb workload "instances" then
    Ok ("InstanceInfo", "InstanceSummary",
        ["Compartment ID"; "Instance ID"; "Instance Name"; "Region";
         "Availability Domain"; "Shape"; "State"; "Number of Volumes";
         "Size (GB)"; "Size (TB)"; "Defined Tags"; "Freeform Tags"],
        ["Region"; "Compartment ID"; "Instance Count"; "Total Size (GB)";
         "Total Size (TB)"])
  else if String.eqb workload "object_storage" then
    Ok ("ObjectStorageInfo", "ObjectStorageSummary",
        ["Namespace"; "Compartment ID"; "Bucket Name"; "Region";
         "Storage Tier"; "Object Count"; "Size (GB)"; "Size (TB)";
         "Defined Tags"; "Freeform Tags"],
        ["Namespace"; "Region"; "Compartment ID"; "Bucket Count";
         "Total Size (GB)"; "Total Size (TB)"])
  else Raise ValueError.

Definition format_sheet (ws : worksheet) : worksheet :=
  ws_style_row set_bold_fill 0 ws.

Definition format_workbook (filename : string) : M globals unit :=
  let* wb := load_workbook filename in
  save (map (fun '(t, ws) => (t, format_sheet ws)) wb) filename.

Definition init_excel (filename workload : string) : M globals unit :=
  let* present := path_exists filename in
  if negb present then
    let wb : workbook := [] in
    let* (info_sheet, summary_sheet, info_headers, summary_headers) :=
      call (get_sheet_info workload) in
    let wb := create_sheet wb info_sheet in
    let wb := create_sheet wb summary_sheet in
    let* sheet := call (wb_get wb info_sheet) in
    let wb := wb_set wb info_sheet (ws_append sheet (map VStr info_headers)) in
    let* sheet := call (wb_get wb summary_sheet) in
    let wb := wb_set wb summary_sheet (ws_append sheet (map VStr summary_headers)) in
    save wb filename
  else ret tt.

Definition instance_row (obj : InstanceInfo) : list pyval :=
  [VStr (compartment_id obj); VStr (instance_id obj); VStr (instance_name obj);
   VStr (region obj); VStr (availability_domain obj); VStr (shape obj);
   VStr (state obj); VInt (number_of_volumes obj); VInt (sizeGB obj);
   VFloat (sizeTB obj); VRepr (defined_tags obj); VRepr (freeform_tags obj)].

Definition bucket_row (obj : ObjectStorageInfo) : list pyval :=
  [VStr (os_namespace obj); VStr (os_compartment_id obj); VStr (bucket_name obj);
   VStr (os_region obj); VStr (storage_tier obj); opt_int (object_count obj);
   VFloat (os_sizeGB obj); VFloat (os_sizeTB obj);
   VRepr (os_defined_tags obj); VRepr (os_freeform_tags obj)].

Definition info_row (workload : string) (obj : info) : result (list pyval) :=
  if String.eqb workload "instances" then
    match obj with
    | AnInstance i => Ok (instance_row i)
    | _ => Raise AttributeError
    end
  else if String.eqb workload "object_storage" then
    match obj with
    | ABucket b => Ok (bucket_row b)
    | _ => Raise AttributeError
    end
  else Raise ValueError.

Definition dump_info (filename workload : string) (object_list : list info)
  : M globals unit :=
  let* (info_sheet, _, _, _) := call (get_sheet_info workload) in
  let* wb := load_workbook filename in
  let* sheet := call (wb_get wb info_sheet) in
  let* sheet := for_fold object_list sheet (fun sheet obj =>
    let* row := call (info_row workload obj) in
    ret (ws_append sheet row)) in
  save (wb_set wb info_sheet sheet) filename.

Definition instance_summary_row (s : InstanceSummary) : list pyval :=
  [opt_str (is_region s); opt_str (is_compartment_id s);
   VInt (instance_count s); VInt (total_sizeGB s); VFloat (total_sizeTB s)].

Definition bucket_summary_row (s : ObjectStorageSummary) : list pyval :=
  [opt_str (oss_namespace s); opt_str (oss_region s); opt_str (oss_compartment_id s);
   VInt (bucket_count s); VFloat (total_storage_GB s); VFloat (total_storage_TB s)].

Definition summary_row (workload : string) (obj : summary) : result (list pyval) :=
  if String.eqb workload "instances" then
    match obj with
    | AnInstanceSummary s => Ok (instance_summary_row s)
    | _ => Raise AttributeError
    end
  else if String.eqb workload "object_storage" then
    match obj with
    | ABucketSummary s => Ok (bucket_summary_row s)
    | _ => Raise AttributeError
    end
  else Raise ValueError.

Definition dump_summary (filename workload : string) (obj : summary)
  : M globals unit :=
  let* (_, summary_sheet, _, _) := call (get_sheet_info workload) in
  let* wb := load_workbook filename in
  let* sheet := call (wb_get wb summary_sheet) in
  let* row := call (summary_row workload obj) in
  save (wb_set wb summary_sheet (ws_append sheet row)) filename.

Definition grand_total_row (workload : string) (g : globals)
  : result (string * list pyval) :=
  if String.eqb workload "instances" then
    Ok ("InstanceSummary",
        [VStr "Grand Total"; VStr ""; VInt (total_instances g);
         VInt (total_instance_sizeGB g); VFloat (total_instance_sizeTB g)])
  else if String.eqb workload "object_storage" then
    Ok ("ObjectStorageSummary",
        [VStr "Grand Total"; VStr ""; VInt (total_buckets g);
         VFloat (total_storageGB g); VFloat (total_storageTB g)])
  else Raise ValueError.

Definition write_grand_total (filename workload : string) : M globals unit :=
  let* wb := load_workbook filename in
  let* g := get_globals in
  let* (sheet_name, row) := call (grand_total_row workload g) in
  let* sheet := call (wb_get wb sheet_name) in
  save (wb_set wb sheet_name (ws_append sheet row)) filename.

(** The [+=] statements on the module-level totals. *)
Definition add_total_instances (n : Z) (g : globals) : globals :=
  mkGlobals (total_instances g + n) (total_instance_sizeGB g) (total_instance_sizeTB g)
            (total_namespaces g) (total_buckets g) (total_storageGB g) (total_storageTB g).
Definition add_total_instance_sizeGB (x : Z) (g : globals) : globals :=
  mkGlobals (total_instances g) (total_instance_sizeGB g + x) (total_instance_sizeTB g)
            (total_namespaces g) (total_buckets g) (total_storageGB g) (total_storageTB g).
Definition add_total_instance_sizeTB (x : Q) (g : globals) : globals :=
  mkGlobals (total_instances g) (total_instance_sizeGB g) (total_instance_sizeTB g + x)
            (total_namespaces g) (total_buckets g) (total_storageGB g) (total_storageTB g).
Definition add_total_buckets (n : Z) (g : globals) : globals :=
  mkGlobals (total_instances g) (total_instance_sizeGB g) (total_instance_sizeTB g)
            (total_namespaces g) (total_buckets g + n) (total_storageGB g) (total_storageTB g).
Definition add_total_storageGB (x : Q) (g : globals) : globals :=
  mkGlobals (total_instances g) (total_instance_sizeGB g) (total_instance_sizeTB g)
            (total_namespaces g) (total_buckets g) (total_storageGB g + x) (total_storageTB g).
Definition add_total_storageTB (x : Q) (g : globals) : globals :=
  mkGlobals (total_instances g) (total_instance_sizeGB g) (total_instance_sizeTB g)
            (total_namespaces g) (total_buckets g) (total_storageGB g) (total_storageTB g + x).

Section Run.
Context (cloud : Cloud).

Definition get_boot_volume_size (config : client)
    (instance_id availability_domain compartment_id : string) : result Z :=
  match list_boot_volume_attachments cloud config instance_id availability_domain
          compartment_id with
  | Ok boot_volumes =>
      match boot_volumes with
      | [] => Ok 0
      | boot_volume_id :: _ =>
          match get_boot_volume cloud config boot_volume_id with
          | Ok boot_volume_info => Ok (vol_size_in_gbs boot_volume_info)
          | Raise _ => Ok 0
          end
      end
  | Raise _ => Ok 0
  end.

Definition get_block_volume_count_and_size (config : client)
    (instance_id availability_domain compartment_id : string) : result (Z * Z) :=
  match list_volume_attachments cloud config instance_id availability_domain
          compartment_id with
  | Ok volume_attachments =>
      match volume_attachments with
      | [] => Ok (0, 0)
      | _ =>
          let total_size :=
            fold_left (fun total_size volume_id =>
                         match get_volume cloud config volume_id with
                         | Ok volume_info => total_size + vol_size_in_gbs volume_info
                         | Raise _ => total_size
                         end) volume_attachments 0 in
          Ok (Z.of_nat (length volume_attachments), total_size)
      end
  | Raise _ => Ok (0, 0)
  end.

(** Body of [for instance in instances] (lines 373-402); the loop carries
    [compartment_summary] and [compartment_instance_list]. *)
Definition instance_step (region compartment : string)
    (acc : InstanceSummary * list InstanceInfo) (instance : Instance)
  : M globals (InstanceSummary * list InstanceInfo) :=
  let (compartment_summary, compartment_instance_list) := acc in
  if String.eqb (inst_lifecycle_state instance) "TERMINATED" then ret acc
  else
    let* config := get_config in
    let* volumes :=
      try_except
        (let* boot_volume_size :=
           call (get_boot_volume_size config (inst_id instance)
                   (inst_availability_domain instance) (inst_compartment_id instance)) in
         let* block :=
           call (get_block_volume_count_and_size config (inst_id instance)
                   (inst_availability_domain instance) (inst_compartment_id instance)) in
         ret (Some (boot_volume_size, block)))
        (fun _ => ret None) in
    match volumes with
    | None => ret acc
    | Some (boot_volume_size, (block_volume_count, block_volume_size)) =>
        let number_of_volumes :=
          (if 0 <? boot_volume_size then 1 else 0) + block_volume_count in
        let sizeGB := boot_volume_size + block_volume_size in
        let sizeTB := py_round2 (inject_Z sizeGB / 1024) in
        let instance_info :=
          mkInstanceInfo compartment (inst_id instance) (inst_display_name instance)
            region (inst_availability_domain instance) (inst_shape instance)
            (inst_lifecycle_state instance) number_of_volumes sizeGB sizeTB
            (inst_defined_tags instance) (inst_freeform_tags instance) in
        let compartment_summary :=
          mkInstanceSummary (is_region compartment_summary)
            (is_compartment_id compartment_summary)
            (instance_count compartment_summary + 1)
            (total_sizeGB compartment_summary + sizeGB)
            (total_sizeTB compartment_summary + sizeTB) in
        let compartment_instance_list := compartment_instance_list ++ [instance_info] in
        modify_globals (add_total_instances 1) ;;;
        modify_globals (add_total_instance_sizeGB sizeGB) ;;;
        modify_globals (add_total_instance_sizeTB sizeTB) ;;;
        ret (compartment_summary, compartment_instance_list)
    end.

Definition get_instance_info (filename : string) (regions compartments : list string)
  : M globals unit :=
  let* identity_client := get_config in
  let* regions := resolve_regions cloud identity_client regions in
  let* compartments := resolve_compartments cloud identity_client compartments in
  for_each regions (fun region =>
    config_set "region" region ;;;
    let* compute_client := get_config in
    for_each compartments (fun compartment =>
      let compartment_summary :=
        mkInstanceSummary (Some region) (Some compartment) 0 0 0 in
      let* instances := call (list_instances cloud compute_client compartment) in
      if (length instances =? 0)%nat then ret tt
      else
        let* (compartment_summary, compartment_instance_list) :=
          for_fold instances (compartment_summary, []) (instance_step region compartment) in
        dump_info filename "instances" (map AnInstance compartment_instance_list) ;;;
        dump_summary filename "instances" (AnInstanceSummary compartment_summary))) ;;;
  write_grand_total filename "instances" ;;;
  format_workbook filename.

(** Body of [for bucket in buckets] (lines 263-291); the loop carries
    [compartment_summary] and [compartment_bucket_list]. *)
Definition bucket_step (object_storage_client : client)
    (region namespace compartment : string)
    (acc : ObjectStorageSummary * list ObjectStorageInfo) (bucket : string)
  : M globals (ObjectStorageSummary * list ObjectStorageInfo) :=
  let (compartment_summary, compartment_bucket_list) := acc in
  let* fetched := attempt (get_bucket cloud object_storage_client namespace bucket) in
  match fetched with
  | None => ret acc
  | Some stats =>
      let sizeGB :=
        match st_approximate_size stats with
        | Some size_in_bytes =>
            if size_in_bytes =? 0 then 0%Q
            else py_round2 (inject_Z size_in_bytes / inject_Z (1024 ^ 3))
        | None => 0%Q
        end in
      let sizeTB := if truthy sizeGB then py_round2 (sizeGB / 1024) else 0%Q in
      let bucket_info :=
        mkObjectStorageInfo compartment namespace bucket region
          (st_storage_tier stats) (st_approximate_count stats) sizeGB sizeTB
          (st_defined_tags stats) (st_freeform_tags stats) in
      let compartment_summary :=
        mkObjectStorageSummary (oss_region compartment_summary)
          (oss_namespace compartment_summary) (oss_compartment_id compartment_summary)
          (bucket_count compartment_summary + 1)
          (total_storage_GB compartment_summary + or_zero sizeGB)
          (total_storage_TB compartment_summary + or_zero sizeTB) in
      let compartment_bucket_list := compartment_bucket_list ++ [bucket_info] in
      modify_globals (add_total_buckets 1) ;;;
      modify_globals (add_total_storageGB (or_zero sizeGB)) ;;;
      modify_globals (add_total_storageTB (or_zero sizeTB)) ;;;
      ret (compartment_summary, compartment_bucket_list)
  end.

Definition get_object_storage_info (filename : string)
    (regions compartments : list string) : M globals unit :=
  let* identity_client := get_config in
  let* regions := resolve_regions cloud identity_client regions in
  let* compartments := resolve_compartments cloud identity_client compartments in
  for_each regions (fun region =>
    config_set "region" region ;;;
    let* object_storage_client := get_config in
    let* fetched := attempt (get_namespace cloud object_storage_client) in
    match fetched with
    | None => ret tt
    | Some namespace =>
        for_each compartments (fun compartment =>
          let compartment_summary :=
            mkObjectStorageSummary (Some region) (Some namespace) (Some compartment)
              0 0 0 in
          let* fetched :=
            attempt (list_buckets cloud object_storage_client namespace compartment) in
          match fetched with
          | None => ret tt
          | Some buckets =>
              if (length buckets =? 0)%nat then ret tt
              else
                let* (compartment_summary, compartment_bucket_list) :=
                  for_fold buckets (compartment_summary, [])
                    (bucket_step object_storage_client region namespace compartment) in
                dump_info filename "object_storage"
                  (map ABucket compartment_bucket_list) ;;;
                dump_summary filename "object_storage"
                  (ABucketSummary compartment_summary)
          end)
    end) ;;;
  write_grand_total filename "object_storage" ;;;
  format_workbook filename.

(** The tail of [__main__], once the arguments are parsed and the workbook
    is named. *)
Definition main (workload filename : string) (regions compartments : list string)
  : M globals unit :=
  if String.eqb workload "instances" then
    init_excel filename workload ;;;
    get_instance_info filename regions compartments
  else if String.eqb workload "object_storage" then
    init_excel filename workload ;;;
    get_object_storage_info filename regions compartments
  else raise SystemExit.
End Run.

End OciCs.

(** * [CVOracleCloudSizingScript.py] *)

(** [s.replace("Gi", "")] *)
Fixpoint remove_Gi (s : string) : string :=
  match s with
  | String "G"%char (String "i"%char rest) => remove_Gi rest
  | String c rest => String c (remove_Gi rest)
  | EmptyString => EmptyString
  end.

Definition digit_of (c : ascii) : option Z :=
  let n := Z.of_nat (nat_of_ascii c) in
  if (48 <=? n) && (n <=? 57) then Some (n - 48) else None.

Fixpoint parse_digits (acc : Z) (s : string) : option Z :=
  match s with
  | EmptyString => Some acc
  | String c rest =>
      match digit_of c with
      | Some d => parse_digits (10 * acc + d) rest
      | None => None
      end
  end.

(** [int(s)] for a string: an optional sign and decimal digits (blanks
    around the number and underscores between digits, which [int] also
    reads, do not occur in a Kubernetes quantity). *)
Definition py_int (s : string) : result Z :=
  match s with
  | EmptyString => Raise ValueError
  | String "-"%char (String c rest) =>
      match parse_digits 0 (String c rest) with
      | Some n => Ok (- n)
      | None => Raise ValueError
      end
  | String "+"%char (String c rest) =>
      match parse_digits 0 (String c rest) with
      | Some n => Ok n
      | None => Raise ValueError
      end
  | _ =>
      match parse_digits 0 s with
      | Some n => Ok n
      | None => Raise ValueError
      end
  end.

(** A list comprehension whose element expression may raise. *)
Fixpoint map_result {A B} (f : A -> result B) (l : list A) : result (list B) :=
  match l with
  | [] => Ok []
  | x :: l' =>
      match f x with
      | Raise e => Raise e
      | Ok y => match map_result f l' with
                | Raise e => Raise e
                | Ok ys => Ok (y :: ys)
                end
      end
  end.

(** [sep.join(l)] *)
Definition join (sep : string) (l : list string) : string := String.concat sep l.

Module CVOracle.

Record globals := mkGlobals {
  total_instances : Z;
  total_instance_sizeGB : Z;
  total_instance_sizeTB : Q;
  total_namespaces : Z;
  total_buckets : Z;
  total_storageGB : Q;
  total_storageTB : Q;
  total_db_systems : Z;
  total_db_system_sizeGB : Z;
  total_db_system_sizeTB : Q;
  total_oke_clusters : Z;
  total_oke_node_count : Z;
  total_oke_pvc_count : Z;
  total_oke_pvc_size_gb : Z;
  total_oke_pvc_size_tb : Q
}.

(** The values of the module-level assignments at import time. *)
Definition globals0 : globals := mkGlobals 0 0 0 0 0 0 0 0 0 0 0 0 0 0 0.

Record InstanceInfo := mkInstanceInfo {
  compartment_id : string;
  instance_id : string;
  instance_name : string;
  region : string;
  availability_domain : string;
  shape : string;
  state : string;
  number_of_volumes : Z;
  sizeGB : Z;
  sizeTB : Q;
  defined_tags : tags;
  freeform_tags : tags;
  boot_volume_name : option string;
  block_volume_names : list string
}.

Record InstanceSummary := mkInstanceSummary {
  is_region : option string;
  instance_count : Z;
  total_sizeGB : Z;
  total_sizeTB : Q
}.

Record ObjectStorageInfo := mkObjectStorageInfo {
  os_compartment_id : string;
  os_namespace : string;
  bucket_name : string;
  os_region : string;
  storage_tier : string;
  object_count : option Z;
  os_sizeGB : Q;
  os_sizeTB : Q;
  os_defined_tags : tags;
  os_freeform_tags : tags
}.

Record ObjectStorageSummary := mkObjectStorageSummary {
  oss_region : option string;
  oss_namespace : option string;
  bucket_count : Z;
  total_storage_GB : Q;
  total_storage_TB : Q
}.

Record DBSystemInfo := mkDBSystemInfo {
  dbi_compartment_id : string;
  db_system_id : string;
  display_name : string;
  dbi_region : string;
  dbi_availability_domain : string;
  dbi_shape : string;
  lifecycle_state : string;
  node_count : Z;
  db_version_ : string;
  database_edition : string;
  data_storage_size_gb : Z;
  data_storage_size_tb : Q;
  dbi_defined_tags : tags;
  dbi_freeform_tags : tags
}.

Record DBSystemSummary := mkDBSystemSummary {
  dbs_region : option string;
  db_system_count : Z;
  total_storage_gb : Z;
  total_storage_tb : Q
}.

Record OKEClusterInfo := mkOKEClusterInfo {
  oke_region : string;
  cluster_id : string;
  cluster_name : string;
  kubernetes_version : string;
  oke_node_count : Z;
  node_names : list string;
  pvc_count : Z;
  pvc_names : list string;
  total_pvc_size_gb : Z;
  total_pvc_size_tb : Q
}.

Record OKEClusterSummary := mkOKEClusterSummary {
  okes_region : option string;
  cluster_count : Z;
  total_node_count : Z;
  total_pvc_count : Z;
  okes_total_pvc_size_gb : Z;
  okes_total_pvc_size_tb : Q
}.

Inductive info :=
| AnInstance (i : InstanceInfo)
| ABucket (b : ObjectStorageInfo)
| ADbSystem (d : DBSystemInfo)
| ACluster (c : OKEClusterInfo).

Inductive summary :=
| AnInstanceSummary (s : InstanceSummary)
| ABucketSummary (s : ObjectStorageSummary)
| ADbSummary (s : DBSystemSummary)
| AClusterSummary (s : OKEClusterSummary).

Definition get_sheet_info (workload : string)
  : result (string * string * list string * list string) :=
  if String.eqb workload "instances" then
    Ok ("Instance Info", "Instance Summary",
        ["Compartment ID"; "Instance ID"; "Instance Name"; "Region";
         "Availability Domain"; "Shape"; "State"; "Number of Volumes";
         "Size (GB)"; "Size (TB)"; "Boot Volume Name"; "Block Volume Names";
         "Defined Tags"; "Freeform Tags"],
        ["Region"; "Instance Count"; "Total Size (GB)"; "Total Size (TB)"])
  else if String.eqb workload "object_storage" then
    Ok ("Object Storage Info", "Object Storage Summary",
        ["Namespace"; "Compartment ID"; "Bucket Name"; "Region";
         "Storage Tier"; "Object Count"; "Size (GB)"; "Size (TB)";
         "Defined Tags"; "Freeform Tags"],
        ["Region"; "Bucket Count"; "Total Size (GB)"; "Total Size (TB)"])
  else if String.eqb workload "db_systems" then
    Ok ("DB System Info", "DB System Summary",
        ["Compartment ID"; "DB System ID"; "Display Name"; "Region";
         "Availability Domain"; "Shape"; "Lifecycle State"; "Node Count";
         "DB Version"; "Database Edition"; "Data Storage Size (GB)";
         "Data Storage Size (TB)"; "Defined Tags"; "Freeform Tags"],
        ["Region"; "DB System Count"; "Total Storage (GB)"; "Total Storage (TB)"])
  else if String.eqb workload "oke_clusters" then
    Ok ("OKE Cluster Info", "OKE Cluster Summary",
        ["Region"; "Cluster ID"; "Cluster Name"; "Kubernetes Version";
         "Node Count"; "PVC Count"; "Total PVC Size (GB)"; "Total PVC Size (TB)";
         "PVC Names"; "Node Names"],
        ["Region"; "Cluster Count"; "Total Node Count"; "Total PVC Count";
         "Total PVC Size (GB)"; "Total PVC Size (TB)"])
  else Raise ValueError.

Definition format_sheet (ws : worksheet) : worksheet :=
  ws_style_row set_bold_fill 0 ws.

Definition format_workbook (filename : string) : M globals unit :=
  let* wb := load_workbook filename in
  save (map (fun '(t, ws) => (t, format_sheet ws)) wb) filename.

Definition init_excel (filename workload : string) : M globals unit :=
  let* present := path_exists filename in
  if negb present then
    let wb : workbook := [] in
    let* (info_sheet, summary_sheet, info_headers, summary_headers) :=
      call (get_sheet_info workload) in
    let wb := create_sheet wb summary_sheet in
    let wb := create_sheet wb info_sheet in
    let* sheet := call (wb_get wb info_sheet) in
    let wb := wb_set wb info_sheet (ws_append sheet (map VStr info_headers)) in
    let* sheet := call (wb_get wb summary_sheet) in
    let wb := wb_set wb summary_sheet (ws_append sheet (map VStr summary_headers)) in
    save wb filename
  else ret tt.

Definition instance_row (obj : InstanceInfo) : list pyval :=
  [VStr (compartment_id obj); VStr (instance_id obj); VStr (instance_name obj);
   VStr (region obj); VStr (availability_domain obj); VStr (shape obj);
   VStr (state obj); VInt (number_of_volumes obj); VInt (sizeGB obj);
   VFloat (sizeTB obj);
   VStr (match boot_volume_name obj with Some n => n | None => "" end);
   VStr (join ", " (block_volume_names obj));
   VRepr (defined_tags obj); VRepr (freeform_tags obj)].

Definition bucket_row (obj : ObjectStorageInfo) : list pyval :=
  [VStr (os_namespace obj); VStr (os_compartment_id obj); VStr (bucket_name obj);
   VStr (os_region obj); VStr (storage_tier obj); opt_int (object_count obj);
   VFloat (os_sizeGB obj); VFloat (os_sizeTB obj);
   VRepr (os_defined_tags obj); VRepr (os_freeform_tags obj)].

Definition db_row (obj : DBSystemInfo) : list pyval :=
  [VStr (dbi_compartment_id obj); VStr (db_system_id obj); VStr (display_name obj);
   VStr (dbi_region obj); VStr (dbi_availability_domain obj); VStr (dbi_shape obj);
   VStr (lifecycle_state obj); VInt (node_count obj); VStr (db_version_ obj);
   VStr (database_edition obj); VInt (data_storage_size_gb obj);
   VFloat (data_storage_size_tb obj);
   VRepr (dbi_defined_tags obj); VRepr (dbi_freeform_tags obj)].

Definition cluster_row (obj : OKEClusterInfo) : list pyval :=
  [VStr (oke_region obj); VStr (cluster_id obj); VStr (cluster_name obj);
   VStr (kubernetes_version obj); VInt (oke_node_count obj); VInt (pvc_count obj);
   VInt (total_pvc_size_gb obj); VFloat (total_pvc_size_tb obj);
   VStr (join ", " (pvc_names obj)); VStr (join ", " (node_names obj))].

Definition info_row (workload : string) (obj : info) : result (list pyval) :=
  if String.eqb workload "instances" then
    match obj with AnInstance i => Ok (instance_row i) | _ => Raise AttributeError end
  else if String.eqb workload "object_storage" then
    match obj with ABucket b => Ok (bucket_row b) | _ => Raise AttributeError end
  else if String.eqb workload "db_systems" then
    match obj with ADbSystem d => Ok (db_row d) | _ => Raise AttributeError end
  else if String.eqb workload "oke_clusters" then
    match obj with ACluster c => Ok (cluster_row c) | _ => Raise AttributeError end
  else Raise ValueError.

Definition dump_info (filename workload : string) (object_list : list info)
  : M globals unit :=
  let* (info_sheet, _, _, _) := call (get_sheet_info workload) in
  let* wb := load_workbook filename in
  let* sheet := call (wb_get wb info_sheet) in
  let* sheet := for_fold object_list sheet (fun sheet obj =>
    let* row := call (info_row workload obj) in
    ret (ws_append sheet row)) in
  save (wb_set wb info_sheet sheet) filename.

Definition instance_summary_row (s : InstanceSummary) : list pyval :=
  [opt_str (is_region s); VInt (instance_count s); VInt (total_sizeGB s);
   VFloat (total_sizeTB s)].

Definition bucket_summary_row (s : ObjectStorageSummary) : list pyval :=
  [opt_str (oss_region s); VInt (bucket_count s); VFloat (total_storage_GB s);
   VFloat (total_storage_TB s)].

Definition db_summary_row (s : DBSystemSummary) : list pyval :=
  [opt_str (dbs_region s); VInt (db_system_count s); VInt (total_storage_gb s);
   VFloat (total_storage_tb s)].

Definition cluster_summary_row (s : OKEClusterSummary) : list pyval :=
  [opt_str (okes_region s); VInt (cluster_count s); VInt (total_node_count s);
   VInt (total_pvc_count s); VInt (okes_total_pvc_size_gb s);
   VFloat (okes_total_pvc_size_tb s)].

Definition summary_row (workload : string) (obj : summary) : result (list pyval) :=
  if String.eqb workload "instances" then
    match obj with
    | AnInstanceSummary s => Ok (instance_summary_row s)
    | _ => Raise AttributeError
    end
  else if String.eqb workload "object_storage" then
    match obj with
    | ABucketSummary s => Ok (bucket_summary_row s)
    | _ => Raise AttributeError
    end
  else if String.eqb workload "db_systems" then
    match obj with
    | ADbSummary s => Ok (db_summary_row s)
    | _ => Raise AttributeError
    end
  else if String.eqb workload "oke_clusters" then
    match obj with
    | AClusterSummary s => Ok (cluster_summary_row s)
    | _ => Raise AttributeError
    end
  else Raise ValueError.

Definition dump_summary (filename workload : string) (summary : list summary)
  : M globals unit :=
  let* (_, summary_sheet, _, _) := call (get_sheet_info workload) in
  let* wb := load_workbook filename in
  let* sheet := call (wb_get wb summary_sheet) in
  let* sheet := for_fold summary sheet (fun sheet obj =>
    let* row := call (summary_row workload obj) in
    ret (ws_append sheet row)) in
  save (wb_set wb summary_sheet sheet) filename.

Definition grand_total_row (workload : string) (g : globals)
  : result (string * list pyval) :=
  if String.eqb workload "instances" then
    Ok ("Instance Summary",
        [VStr "Total Instances"; VInt (total_instances g);
         VInt (total_instance_sizeGB g); VFloat (total_instance_sizeTB g)])
  else if String.eqb workload "object_storage" then
    Ok ("Object Storage Summary",
        [VStr "Total Buckets"; VInt (total_buckets g);
         VFloat (total_storageGB g); VFloat (total_storageTB g)])
  else if String.eqb workload "db_systems" then
    Ok ("DB System Summary",
        [VStr "Total DB Systems"; VInt (total_db_systems g);
         VInt (total_db_system_sizeGB g); VFloat (total_db_system_sizeTB g)])
  else if String.eqb workload "oke_clusters" then
    Ok ("OKE Cluster Summary",
        [VStr "Total OKE Clusters"; VInt (total_oke_clusters g);
         VInt (total_oke_node_count g); VInt (total_oke_pvc_count g);
         VInt (total_oke_pvc_size_gb g); VFloat (total_oke_pvc_size_tb g)])
  else Raise ValueError.

Definition write_grand_total (filename workload : string) : M globals unit :=
  let* wb := load_workbook filename in
  let* g := get_globals in
  let* (sheet_name, row) := call (grand_total_row workload g) in
  let* sheet := call (wb_get wb sheet_name) in
  let sheet := ws_append sheet row in
  let sheet := ws_style_row set_bold 1 sheet in
  save (wb_set wb sheet_name sheet) filename.

(** The [+=] statements on the module-level totals. *)
Definition add_total_instances (x : Z) (g : globals) : globals :=
  mkGlobals (total_instances g + x) (total_instance_sizeGB g) (total_instance_sizeTB g)
    (total_namespaces g) (total_buckets g) (total_storageGB g) (total_storageTB g)
    (total_db_systems g) (total_db_system_sizeGB g) (total_db_system_sizeTB g)
    (total_oke_clusters g) (total_oke_node_count g) (total_oke_pvc_count g)
    (total_oke_pvc_size_gb g) (total_oke_pvc_size_tb g).
Definition add_total_instance_sizeGB (x : Z) (g : globals) : globals :=
  mkGlobals (total_instances g) (total_instance_sizeGB g + x) (total_instance_sizeTB g)
    (total_namespaces g) (total_buckets g) (total_storageGB g) (total_storageTB g)
    (total_db_systems g) (total_db_system_sizeGB g) (total_db_system_sizeTB g)
    (total_oke_clusters g) (total_oke_node_count g) (total_oke_pvc_count g)
    (total_oke_pvc_size_gb g) (total_oke_pvc_size_tb g).
Definition add_total_instance_sizeTB (x : Q) (g : globals) : globals :=
  mkGlobals (total_instances g) (total_instance_sizeGB g) (total_instance_sizeTB g + x)
    (total_namespaces g) (total_buckets g) (total_storageGB g) (total_storageTB g)
    (total_db_systems g) (total_db_system_sizeGB g) (total_db_system_sizeTB g)
    (total_oke_clusters g) (total_oke_node_count g) (total_oke_pvc_count g)
    (total_oke_pvc_size_gb g) (total_oke_pvc_size_tb g).
Definition add_total_buckets (x : Z) (g : globals) : globals :=
  mkGlobals (total_instances g) (total_instance_sizeGB g) (total_instance_sizeTB g)
    (total_namespaces g) (total_buckets g + x) (total_storageGB g) (total_storageTB g)
    (total_db_systems g) (total_db_system_sizeGB g) (total_db_system_sizeTB g)
    (total_oke_clusters g) (total_oke_node_count g) (total_oke_pvc_count g)
    (total_oke_pvc_size_gb g) (total_oke_pvc_size_tb g).
Definition add_total_storageGB (x : Q) (g : globals) : globals :=
  mkGlobals (total_instances g) (total_instance_sizeGB g) (total_instance_sizeTB g)
    (total_namespaces g) (total_buckets g) (total_storageGB g + x) (total_storageTB g)
    (total_db_systems g) (total_db_system_sizeGB g) (total_db_system_sizeTB g)
    (total_oke_clusters g) (total_oke_node_count g) (total_oke_pvc_count g)
    (total_oke_pvc_size_gb g) (total_oke_pvc_size_tb g).
Definition add_total_storageTB (x : Q) (g : globals) : globals :=
  mkGlobals (total_instances g) (total_instance_sizeGB g) (total_instance_sizeTB g)
    (total_namespaces g) (total_buckets g) (total_storageGB g) (total_storageTB g + x)
    (total_db_systems g) (total_db_system_sizeGB g) (total_db_system_sizeTB g)
    (total_oke_clusters g) (total_oke_node_count g) (total_oke_pvc_count g)
    (total_oke_pvc_size_gb g) (total_oke_pvc_size_tb g).
Definition add_total_db_systems (x : Z) (g : globals) : globals :=
  mkGlobals (total_instances g) (total_instance_sizeGB g) (total_instance_sizeTB g)
    (total_namespaces g) (total_buckets g) (total_storageGB g) (total_storageTB g)
    (total_db_systems g + x) (total_db_system_sizeGB g) (total_db_system_sizeTB g)
    (total_oke_clusters g) (total_oke_node_count g) (total_oke_pvc_count g)
    (total_oke_pvc_size_gb g) (total_oke_pvc_size_tb g).
Definition add_total_db_system_sizeGB (x : Z) (g : globals) : globals :=
  mkGlobals (total_instances g) (total_instance_sizeGB g) (total_instance_sizeTB g)
    (total_namespaces g) (total_buckets g) (total_storageGB g) (total_storageTB g)
    (total_db_systems g) (total_db_system_sizeGB g + x) (total_db_system_sizeTB g)
    (total_oke_clusters g) (total_oke_node_count g) (total_oke_pvc_count g)
    (total_oke_pvc_size_gb g) (total_oke_pvc_size_tb g).
Definition add_total_db_system_sizeTB (x : Q) (g : globals) : globals :=
  mkGlobals (total_instances g) (total_instance_sizeGB g) (total_instance_sizeTB g)
    (total_namespaces g) (total_buckets g) (total_storageGB g) (total_storageTB g)
    (total_db_systems g) (total_db_system_sizeGB g) (total_db_system_sizeTB g + x)
    (total_oke_clusters g) (total_oke_node_count g) (total_oke_pvc_count g)
    (total_oke_pvc_size_gb g) (total_oke_pvc_size_tb g).
Definition add_total_oke_clusters (x : Z) (g : globals) : globals :=
  mkGlobals (total_instances g) (total_instance_sizeGB g) (total_instance_sizeTB g)
    (total_namespaces g) (total_buckets g) (total_storageGB g) (total_storageTB g)
    (total_db_systems g) (total_db_system_sizeGB g) (total_db_system_sizeTB g)
    (total_oke_clusters g + x) (total_oke_node_count g) (total_oke_pvc_count g)
    (total_oke_pvc_size_gb g) (total_oke_pvc_size_tb g).
Definition add_total_oke_node_count (x : Z) (g : globals) : globals :=
  mkGlobals (total_instances g) (total_instance_sizeGB g) (total_instance_sizeTB g)
    (total_namespaces g) (total_buckets g) (total_storageGB g) (total_storageTB g)
    (total_db_systems g) (total_db_system_sizeGB g) (total_db_system_sizeTB g)
    (total_oke_clusters g) (total_oke_node_count g + x) (total_oke_pvc_count g)
    (total_oke_pvc_size_gb g) (total_oke_pvc_size_tb g).
Definition add_total_oke_pvc_count (x : Z) (g : globals) : globals :=
  mkGlobals (total_instances g) (total_instance_sizeGB g) (total_instance_sizeTB g)
    (total_namespaces g) (total_buckets g) (total_storageGB g) (total_storageTB g)
    (total_db_systems g) (total_db_system_sizeGB g) (total_db_system_sizeTB g)
    (total_oke_clusters g) (total_oke_node_count g) (total_oke_pvc_count g + x)
    (total_oke_pvc_size_gb g) (total_oke_pvc_size_tb g).
Definition add_total_oke_pvc_size_gb (x : Z) (g : globals) : globals :=
  mkGlobals (total_instances g) (total_instance_sizeGB g) (total_instance_sizeTB g)
    (total_namespaces g) (total_buckets g) (total_storageGB g) (total_storageTB g)
    (total_db_systems g) (total_db_system_sizeGB g) (total_db_system_sizeTB g)
    (total_oke_clusters g) (total_oke_node_count g) (total_oke_pvc_count g)
    (total_oke_pvc_size_gb g + x) (total_oke_pvc_size_tb g).
Definition add_total_oke_pvc_size_tb (x : Q) (g : globals) : globals :=
  mkGlobals (total_instances g) (total_instance_sizeGB g) (total_instance_sizeTB g)
    (total_namespaces g) (total_buckets g) (total_storageGB g) (total_storageTB g)
    (total_db_systems g) (total_db_system_sizeGB g) (total_db_system_sizeTB g)
    (total_oke_clusters g) (total_oke_node_count g) (total_oke_pvc_count g)
    (total_oke_pvc_size_gb g) (total_oke_pvc_size_tb g + x).

(** [sum(l)] *)
Definition py_sum (l : list Z) : Z := fold_left Z.add l 0.

Section Run.
Context (cloud : Cloud).

(** The dictionary [{"name": ..., "sizeGB": ...}] as a pair. *)
Definition get_boot_volume_info (config : client)
    (instance_id availability_domain compartment_id : string)
  : result (option string * Z) :=
  match list_boot_volume_attachments cloud config instance_id availability_domain
          compartment_id with
  | Ok boot_volumes =>
      let result : option string * Z := (None, 0) in
      match boot_volumes with
      | [] => Ok result
      | boot_volume_id :: _ =>
          match get_boot_volume cloud config boot_volume_id with
          | Ok boot_volume_info =>
              Ok (Some (vol_display_name boot_volume_info),
                  vol_size_in_gbs boot_volume_info)
          | Raise _ => Ok result
          end
      end
  | Raise _ => Ok (None, 0)
  end.

Definition get_block_volume_info (config : client)
    (instance_id availability_domain compartment_id : string)
  : result (list (string * Z)) :=
  match list_volume_attachments cloud config instance_id availability_domain
          compartment_id with
  | Ok volume_attachments =>
      match volume_attachments with
      | [] => Ok []
      | _ =>
          Ok (fold_left (fun result volume_id =>
                           match get_volume cloud config volume_id with
                           | Ok volume_info =>
                               result ++ [(vol_display_name volume_info,
                                           vol_size_in_gbs volume_info)]
                           | Raise _ => result
                           end) volume_attachments [])
      end
  | Raise _ => Ok []
  end.

(** Body of [for instance in instances] (lines 516-547); the loop carries
    [region_summary] and [compartment_instance_list]. *)
Definition instance_step (region compartment : string)
    (acc : InstanceSummary * list InstanceInfo) (instance : Instance)
  : M globals (InstanceSummary * list InstanceInfo) :=
  let (region_summary, compartment_instance_list) := acc in
  if String.eqb (inst_lifecycle_state instance) "TERMINATED" then ret acc
  else
    let* config := get_config in
    let* volumes :=
      try_except
        (let* boot_volume_info :=
           call (get_boot_volume_info config (inst_id instance)
                   (inst_availability_domain instance) (inst_compartment_id instance)) in
         let* block_volumes_info :=
           call (get_block_volume_info config (inst_id instance)
                   (inst_availability_domain instance) (inst_compartment_id instance)) in
         ret (Some (boot_volume_info, block_volumes_info)))
        (fun _ => ret None) in
    match volumes with
    | None => ret acc
    | Some (boot_volume_info, block_volumes_info) =>
        let number_of_volumes :=
          (if 0 <? snd boot_volume_info then 1 else 0)
          + Z.of_nat (length block_volumes_info) in
        let sizeGB := snd boot_volume_info + py_sum (map snd block_volumes_info) in
        let sizeTB := py_round2 (inject_Z sizeGB / 1024) in
        let boot_volume_name :=
          match fst boot_volume_info with
          | Some n => if String.eqb n "" then None else Some n
          | None => None
          end in
        let instance_info :=
          mkInstanceInfo compartment (inst_id instance) (inst_display_name instance)
            region (inst_availability_domain instance) (inst_shape instance)
            (inst_lifecycle_state instance) number_of_volumes sizeGB sizeTB
            (inst_defined_tags instance) (inst_freeform_tags instance)
            boot_volume_name (map fst block_volumes_info) in
        let region_summary :=
          mkInstanceSummary (is_region region_summary)
            (instance_count region_summary + 1)
            (total_sizeGB region_summary + sizeGB)
            (total_sizeTB region_summary + sizeTB) in
        let compartment_instance_list := compartment_instance_list ++ [instance_info] in
        modify_globals (add_total_instances 1) ;;;
        modify_globals (add_total_instance_sizeGB sizeGB) ;;;
        modify_globals (add_total_instance_sizeTB sizeTB) ;;;
        ret (region_summary, compartment_instance_list)
    end.

Definition get_instance_info (filename : string) (regions compartments : list string)
  : M globals unit :=
  let* identity_client := get_config in
  let* regions := resolve_regions cloud identity_client regions in
  let* compartments := resolve_compartments cloud identity_client compartments in
  let* instance_summary_list :=
    for_fold regions [] (fun instance_summary_list region =>
      config_set "region" region ;;;
      let* compute_client := get_config in
      let region_summary := mkInstanceSummary None 0 0 0 in
      let* region_summary :=
        for_fold compartments region_summary (fun region_summary compartment =>
          let region_summary :=
            mkInstanceSummary (Some region) (instance_count region_summary)
              (total_sizeGB region_summary) (total_sizeTB region_summary) in
          let* instances := call (list_instances cloud compute_client compartment) in
          if (length instances =? 0)%nat then ret region_summary
          else
            let* (region_summary, compartment_instance_list) :=
              for_fold instances (region_summary, []) (instance_step region compartment) in
            dump_info filename "instances" (map AnInstance compartment_instance_list) ;;;
            ret region_summary) in
      ret (instance_summary_list ++ [region_summary])) in
  write_grand_total filename "instances" ;;;
  dump_summary filename "instances" (map AnInstanceSummary instance_summary_list) ;;;
  format_workbook filename.

(** Body of [for bucket in buckets] (lines 405-433); the loop carries
    [region_summary] and [compartment_bucket_list]. *)
Definition bucket_step (object_storage_client : client)
    (region namespace compartment : string)
    (acc : ObjectStorageSummary * list ObjectStorageInfo) (bucket : string)
  : M globals (ObjectStorageSummary * list ObjectStorageInfo) :=
  let (region_summary, compartment_bucket_list) := acc in
  let* fetched := attempt (get_bucket cloud object_storage_client namespace bucket) in
  match fetched with
  | None => ret acc
  | Some stats =>
      let sizeGB :=
        match st_approximate_size stats with
        | Some size_in_bytes =>
            if size_in_bytes =? 0 then 0%Q
            else py_round2 (inject_Z size_in_bytes / inject_Z (1024 ^ 3))
        | None => 0%Q
        end in
      let sizeTB := if truthy sizeGB then py_round2 (sizeGB / 1024) else 0%Q in
      let bucket_info :=
        mkObjectStorageInfo compartment namespace bucket region
          (st_storage_tier stats) (st_approximate_count stats) sizeGB sizeTB
          (st_defined_tags stats) (st_freeform_tags stats) in
      let region_summary :=
        mkObjectStorageSummary (oss_region region_summary)
          (oss_namespace region_summary)
          (bucket_count region_summary + 1)
          (total_storage_GB region_summary + or_zero sizeGB)
          (total_storage_TB region_summary + or_zero sizeTB) in
      let compartment_bucket_list := compartment_bucket_list ++ [bucket_info] in
      modify_globals (add_total_buckets 1) ;;;
      modify_globals (add_total_storageGB (or_zero sizeGB)) ;;;
      modify_globals (add_total_storageTB (or_zero sizeTB)) ;;;
      ret (region_summary, compartment_bucket_list)
  end.

Definition get_object_storage_info (filename : string)
    (regions compartments : list string) : M globals unit :=
  let* identity_client := get_config in
  let* regions := resolve_regions cloud identity_client regions in
  let* compartments := resolve_compartments cloud identity_client compartments in
  let* object_storage_summary_list :=
    for_fold regions [] (fun object_storage_summary_list region =>
      config_set "region" region ;;;
      let* object_storage_client := get_config in
      let region_summary := mkObjectStorageSummary (Some region) None 0 0 0 in
      let* fetched := attempt (get_namespace cloud object_storage_client) in
      match fetched with
      | None => ret object_storage_summary_list
      | Some namespace =>
          let* region_summary :=
            for_fold compartments region_summary (fun region_summary compartment =>
              let* fetched :=
                attempt (list_buckets cloud object_storage_client namespace compartment) in
              match fetched with
              | None => ret region_summary
              | Some buckets =>
                  if (length buckets =? 0)%nat then ret region_summary
                  else
                    let* (region_summary, compartment_bucket_list) :=
                      for_fold buckets (region_summary, [])
                        (bucket_step object_storage_client region namespace
                           compartment) in
                    dump_info filename "object_storage"
                      (map ABucket compartment_bucket_list) ;;;
                    ret region_summary
              end) in
          ret (object_storage_summary_list ++ [region_summary])
      end) in
  write_grand_total filename "object_storage" ;;;
  dump_summary filename "object_storage"
    (map ABucketSummary object_storage_summary_list) ;;;
  format_workbook filename.

(** Body of [for db in db_systems] (lines 584-608). Every attribute tested
    with [hasattr] is declared by the SDK's model class. *)
Definition db_step (region compartment : string)
    (acc : DBSystemSummary * list DBSystemInfo) (db : DbSystem)
  : M globals (DBSystemSummary * list DBSystemInfo) :=
  let (region_summary, compartment_db_list) := acc in
  if String.eqb (db_lifecycle_state db) "TERMINATED" then ret acc
  else
    let data_storage_size_gb := db_data_storage_size_in_gbs db in
    let data_storage_size_tb := py_round2 (inject_Z data_storage_size_gb / 1024) in
    let db_info :=
      mkDBSystemInfo compartment (db_id db) (db_display_name db) region
        (db_availability_domain db) (db_shape db) (db_lifecycle_state db)
        (db_node_count db) (db_version db) (db_database_edition db)
        data_storage_size_gb data_storage_size_tb
        (db_defined_tags db) (db_freeform_tags db) in
    let region_summary :=
      mkDBSystemSummary (dbs_region region_summary)
        (db_system_count region_summary + 1)
        (total_storage_gb region_summary + data_storage_size_gb)
        (total_storage_tb region_summary + data_storage_size_tb) in
    let compartment_db_list := compartment_db_list ++ [db_info] in
    modify_globals (add_total_db_systems 1) ;;;
    modify_globals (add_total_db_system_sizeGB data_storage_size_gb) ;;;
    modify_globals (add_total_db_system_sizeTB data_storage_size_tb) ;;;
    ret (region_summary, compartment_db_list).

Definition get_database_info (filename : string) (regions compartments : list string)
  : M globals unit :=
  let* identity_client := get_config in
  let* regions := resolve_regions cloud identity_client regions in
  let* compartments := resolve_compartments cloud identity_client compartments in
  let* db_summary_list :=
    for_fold regions [] (fun db_summary_list region =>
      config_set "region" region ;;;
      let* db_client := get_config in
      let region_summary := mkDBSystemSummary (Some region) 0 0 0 in
      let* region_summary :=
        for_fold compartments region_summary (fun region_summary compartment =>
          let* fetched := attempt (list_db_systems cloud db_client compartment) in
          match fetched with
          | None => ret region_summary
          | Some db_systems =>
              if (length db_systems =? 0)%nat then ret region_summary
              else
                let* (region_summary, compartment_db_list) :=
                  for_fold db_systems (region_summary, []) (db_step region compartment) in
                dump_info filename "db_systems" (map ADbSystem compartment_db_list) ;;;
                ret region_summary
          end) in
      ret (db_summary_list ++ [region_summary])) in
  write_grand_total filename "db_systems" ;;;
  dump_summary filename "db_systems" (map ADbSummary db_summary_list) ;;;
  format_workbook filename.
(** [pvc.get("metadata", {}).get("name")] as a truth value *)
Definition pvc_has_name (pvc : Pvc) : bool :=
  match pvc_metadata pvc with
  | Some metadata =>
      match pvc_name metadata with
      | Some n => negb (String.eqb n "")
      | None => false
      end
  | None => false
  end.

(** [f"{pvc['metadata'].get('namespace','default')}/{pvc['metadata']['name']}"] *)
Definition pvc_full_name (pvc : Pvc) : result string :=
  match pvc_metadata pvc with
  | None => Raise KeyError
  | Some metadata =>
      match pvc_name metadata with
      | None => Raise KeyError
      | Some n =>
          Ok (match pvc_namespace metadata with Some ns => ns | None => "default" end
              +:+ "/" +:+ n)
      end
  end.

(** One element of the comprehension summed into [total_pvc_size_gb]:
    [None] when the [if] filters the claim out. *)
Definition pvc_size (pvc : Pvc) : result (option Z) :=
  match pvc_spec pvc with
  | None => Raise KeyError
  | Some spec =>
      match pvc_resources spec with
      | None => Ok None
      | Some resources =>
          match pvc_requests resources with
          | None => Raise KeyError
          | Some requests =>
              match pvc_storage requests with
              | None => Ok None
              | Some storage =>
                  match py_int (remove_Gi storage) with
                  | Ok n => Ok (Some n)
                  | Raise e => Raise e
                  end
              end
          end
      end
  end.

Definition node_name (n : option (option string)) : result string :=
  match n with
  | Some (Some name) => Ok name
  | _ => Raise KeyError
  end.

Definition set_pvc_count (n : Z) (c : OKEClusterInfo) : OKEClusterInfo :=
  mkOKEClusterInfo (oke_region c) (cluster_id c) (cluster_name c)
    (kubernetes_version c) (oke_node_count c) (node_names c) n (pvc_names c)
    (total_pvc_size_gb c) (total_pvc_size_tb c).
Definition set_pvc_names (l : list string) (c : OKEClusterInfo) : OKEClusterInfo :=
  mkOKEClusterInfo (oke_region c) (cluster_id c) (cluster_name c)
    (kubernetes_version c) (oke_node_count c) (node_names c) (pvc_count c) l
    (total_pvc_size_gb c) (total_pvc_size_tb c).
Definition set_total_pvc_size_gb (x : Z) (c : OKEClusterInfo) : OKEClusterInfo :=
  mkOKEClusterInfo (oke_region c) (cluster_id c) (cluster_name c)
    (kubernetes_version c) (oke_node_count c) (node_names c) (pvc_count c)
    (pvc_names c) x (total_pvc_size_tb c).
Definition set_total_pvc_size_tb (x : Q) (c : OKEClusterInfo) : OKEClusterInfo :=
  mkOKEClusterInfo (oke_region c) (cluster_id c) (cluster_name c)
    (kubernetes_version c) (oke_node_count c) (node_names c) (pvc_count c)
    (pvc_names c) (total_pvc_size_gb c) x.
Definition set_nodes (l : list string) (n : Z) (c : OKEClusterInfo) : OKEClusterInfo :=
  mkOKEClusterInfo (oke_region c) (cluster_id c) (cluster_name c)
    (kubernetes_version c) n l (pvc_count c) (pvc_names c)
    (total_pvc_size_gb c) (total_pvc_size_tb c).

(** Lines 698-711: the inner [try] around the node query. *)
Definition kubectl_nodes (kubeconfig_file : string) (cluster_info : OKEClusterInfo)
  : OKEClusterInfo :=
  match kubectl_get_nodes cloud kubeconfig_file with
  | Ok node_data =>
      match node_items node_data with
      | Some items =>
          match map_result node_name items with
          | Ok names => set_nodes names (Z.of_nat (length names)) cluster_info
          | Raise _ => set_nodes [] 0 cluster_info
          end
      | None => set_nodes [] 0 cluster_info
      end
  | Raise _ => set_nodes [] 0 cluster_info
  end.

(** Lines 678-711: the statements of the [try] block after the kubeconfig
    is created. They assign to [cluster_info] one attribute at a time; the
    value is [cluster_info] as it is when the block is left, at its end or
    at the first exception. *)
Definition kubectl_inventory (kubeconfig_file : string) (cluster_info : OKEClusterInfo)
  : OKEClusterInfo :=
  match kubectl_get_pvc cloud kubeconfig_file with
  | Raise _ => cluster_info
  | Ok pvc_data =>
      match pvc_items pvc_data with
      | None => cluster_info
      | Some items =>
          let cluster_info :=
            set_pvc_count (Z.of_nat (length (List.filter pvc_has_name items)))
              cluster_info in
          match map_result pvc_full_name items with
          | Raise _ => cluster_info
          | Ok names =>
              let cluster_info := set_pvc_names names cluster_info in
              match map_result pvc_size items with
              | Raise _ => cluster_info
              | Ok sizes =>
                  let cluster_info :=
                    set_total_pvc_size_gb (py_sum (omap id sizes)) cluster_info in
                  let cluster_info :=
                    set_total_pvc_size_tb
                      (py_round2 (inject_Z (total_pvc_size_gb cluster_info) / 1024))
                      cluster_info in
                  kubectl_nodes kubeconfig_file cluster_info
              end
          end
      end
  end.

(** [os.path.join(tempfile.gettempdir(), f"kubeconfig_{cluster.id}")] *)
Definition kubeconfig_path (cluster : Cluster) : string :=
  tempdir cloud +:+ "kubeconfig_" +:+ cl_id cluster.

(** Lines 653-719: [cluster_info] for one cluster, from the creation of the
    kubeconfig to the [finally] clause. *)
Definition cluster_inventory (region : string) (cluster : Cluster)
  : M globals OKEClusterInfo :=
  let cluster_info :=
    mkOKEClusterInfo region (cl_id cluster) (cl_name cluster)
      (cl_kubernetes_version cluster) 0 [] 0 [] 0 0 in
  let kubeconfig_file := kubeconfig_path cluster in
  try_finally
    (try_except
       (let* config := get_config in
        let profile :=
          match config !! "profile" with Some p => p | None => "DEFAULT" end in
        let (written, status) :=
          create_kubeconfig cloud (cl_id cluster) kubeconfig_file region profile in
        write_file written kubeconfig_file ;;;
        call status ;;;
        ret (kubectl_inventory kubeconfig_file cluster_info))
       (fun _ => ret cluster_info))
    (try_except (os_remove kubeconfig_file)
       (fun e => if is_OSError e then ret tt else raise e)).

(** Body of [for cluster in clusters] (lines 649-734); the loop carries
    [region_summary] and [compartment_oke_list]. *)
Definition cluster_step (region : string)
    (acc : OKEClusterSummary * list OKEClusterInfo) (cluster : Cluster)
  : M globals (OKEClusterSummary * list OKEClusterInfo) :=
  let (region_summary, compartment_oke_list) := acc in
  if String.eqb (cl_lifecycle_state cluster) "DELETED" then ret acc
  else
    let* cluster_info := cluster_inventory region cluster in
    let region_summary :=
      mkOKEClusterSummary (okes_region region_summary)
        (cluster_count region_summary + 1)
        (total_node_count region_summary + oke_node_count cluster_info)
        (total_pvc_count region_summary + pvc_count cluster_info)
        (okes_total_pvc_size_gb region_summary + total_pvc_size_gb cluster_info)
        (okes_total_pvc_size_tb region_summary + total_pvc_size_tb cluster_info) in
    modify_globals (add_total_oke_clusters 1) ;;;
    modify_globals (add_total_oke_node_count (oke_node_count cluster_info)) ;;;
    modify_globals (add_total_oke_pvc_count (pvc_count cluster_info)) ;;;
    modify_globals (add_total_oke_pvc_size_gb (total_pvc_size_gb cluster_info)) ;;;
    modify_globals (add_total_oke_pvc_size_tb (total_pvc_size_tb cluster_info)) ;;;
    ret (region_summary, compartment_oke_list ++ [cluster_info]).

Definition get_oke_cluster_info (filename : string)
    (regions compartments : list string) : M globals unit :=
  let* identity_client := get_config in
  let* regions := resolve_regions cloud identity_client regions in
  let* compartments := resolve_compartments cloud identity_client compartments in
  let* oke_summary_list :=
    for_fold regions [] (fun oke_summary_list region =>
      config_set "region" region ;;;
      let* container_engine_client := get_config in
      let region_summary := mkOKEClusterSummary (Some region) 0 0 0 0 0 in
      let* region_summary :=
        for_fold compartments region_summary (fun region_summary compartment =>
          let* fetched :=
            attempt (list_clusters cloud container_engine_client compartment) in
          match fetched with
          | None => ret region_summary
          | Some clusters =>
              let* (region_summary, compartment_oke_list) :=
                for_fold clusters (region_summary, []) (cluster_step region) in
              dump_info filename "oke_clusters" (map ACluster compartment_oke_list) ;;;
              ret region_summary
          end) in
      ret (oke_summary_list ++ [region_summary])) in
  write_grand_total filename "oke_clusters" ;;;
  dump_summary filename "oke_clusters" (map AClusterSummary oke_summary_list) ;;;
  format_workbook filename.

(** The tail of [__main__], once the arguments are parsed and the workbook
    is named. *)
Definition main (workload filename : string) (regions compartments : list string)
  : M globals unit :=
  if String.eqb workload "instances" then
    init_excel filename workload ;;;
    get_instance_info filename regions compartments
  else if String.eqb workload "object_storage" then
    init_excel filename workload ;;;
    get_object_storage_info filename regions compartments
  else if String.eqb workload "db_systems" then
    init_excel filename workload ;;;
    get_database_info filename regions compartments
  else if String.eqb workload "oke_clusters" then
    init_excel filename workload ;;;
    get_oke_cluster_info filename regions compartments
  else raise SystemExit.
End Run.

End CVOracle.

(** * [__main__]: the command line *)

(** Lines 418-447 of [oci_cs.py] and 762-791 of
    [CVOracleCloudSizingScript.py], which are the same text: the loop over
    [sys.argv[1:]] and the defaults after it. *)

(** [s.startswith(p)] *)
Definition startswith (s p : string) : bool := String.prefix p s.

(** [s.split(sep)] for a separator of one character: the first piece and the
    pieces after it. *)
Fixpoint py_split_pieces (sep : ascii) (s : string) : string * list string :=
  match s with
  | EmptyString => (EmptyString, [])
  | String c rest =>
      let (piece, pieces) := py_split_pieces sep rest in
      if Ascii.eqb c sep then (EmptyString, piece :: pieces)
      else (String c piece, pieces)
  end.

Definition py_split (sep : ascii) (s : string) : list string :=
  let (piece, pieces) := py_split_pieces sep s in piece :: pieces.

(** The local variables the loop may assign; [None] is a name that is not in
    [locals()]. *)
Record locals := mkLocals {
  l_profile_name : option string;
  l_regions : option (list string);
  l_compartments : option (list string);
  l_workload : option string
}.

(** How the parsing ends: it falls through to the rest of [__main__], or
    [sys.exit(code)], or an index out of range. *)
Inductive outcome (A : Type) :=
| Parsed (a : A)
| Exit (code : Z)
| IndexError.
Arguments Parsed {A} a.
Arguments Exit {A} code.
Arguments IndexError {A}.

(** [arg.split("=")[1]] *)
Definition arg_value (arg : string) : option string := py_split "=" arg !! 1%nat.

(** Body of [for arg in args]. *)
Definition arg_step (l : locals) (arg : string) : outcome locals :=
  if startswith arg "--profile=" then
    match arg_value arg with
    | Some v => Parsed (mkLocals (Some v) (l_regions l) (l_compartments l) (l_workload l))
    | None => IndexError
    end
  else if startswith arg "--region=" then
    match arg_value arg with
    | Some v =>
        Parsed (mkLocals (l_profile_name l) (Some (py_split "," v)) (l_compartments l)
                  (l_workload l))
    | None => IndexError
    end
  else if startswith arg "--compartment=" then
    match arg_value arg with
    | Some v =>
        Parsed (mkLocals (l_profile_name l) (l_regions l) (Some (py_split "," v))
                  (l_workload l))
    | None => IndexError
    end
  else if startswith arg "--workload=" then
    match arg_value arg with
    | Some v => Parsed (mkLocals (l_profile_name l) (l_regions l) (l_compartments l) (Some v))
    | None => IndexError
    end
  else if String.eqb arg "--help" then Exit 0
  else Exit 1.

Fixpoint parse_loop (args : list string) (l : locals) : outcome locals :=
  match args with
  | [] => Parsed l
  | arg :: args' =>
      match arg_step l arg with
      | Parsed l' => parse_loop args' l'
      | Exit code => Exit code
      | IndexError => IndexError
      end
  end.

(** What the rest of [__main__] goes on with. *)
Record arguments := mkArguments {
  a_profile_name : string;
  a_regions : list string;
  a_compartments : list string;
  a_workload : string
}.

(** The loop, then the four [if ... not in locals()]; [DEFAULT] is
    [oci.config.DEFAULT_PROFILE]. *)
Definition parse_args (args : list string) : outcome arguments :=
  match parse_loop args (mkLocals None None None None) with
  | Parsed l =>
      match l_workload l with
      | None => Exit 1
      | Some workload =>
          Parsed (mkArguments
                    (match l_profile_name l with Some p => p | None => "DEFAULT" end)
                    (match l_regions l with Some r => r | None => [] end)
                    (match l_compartments l with Some c => c | None => [] end)
                    workload)
      end
  | Exit code => Exit code
  | IndexError => IndexError
  end.

(** * Specification vocabulary *)

(** A statement leaves the [config] dictionary as it found it. *)
Definition same_config {G} : relation (state G) :=
  fun s s' => config s' = config s.

(** Every file is as it was or is gone. *)
Definition files_kept_or_removed {G} : relation (state G) :=
  fun s s' => forall p, fs s' !! p = fs s !! p \/ fs s' !! p = None.

(** [m] relates every state to the state it leaves, whether it returns or
    raises. *)
Definition preserves {G A} (R : relation (state G)) (m : M G A) : Prop :=
  forall s, R s (m s).2.

(** [config] after the region loop has run over [l]: [config["region"]] is
    the last region. *)
Definition region_after (l : list string) (c : gmap string string)
  : gmap string string :=
  match last l with
  | Some r => <["region" := r]> c
  | None => c
  end.

(** Every file but [f] is as it was or is gone. *)
Definition kept_or_removed_but {G} (f : string) : relation (state G) :=
  fun s s' => forall p, p <> f -> fs s' !! p = fs s !! p \/ fs s' !! p = None.

(** *** Resources and the records made from them *)

Definition not_terminated (state : string) : bool := negb (String.eqb state "TERMINATED").
Definition not_deleted (state : string) : bool := negb (String.eqb state "DELETED").

(** The Detail Record [r] that [oci_cs.py] makes of instance [x]. *)
Definition ocs_instance_rel (cloud : Cloud) (region compartment : string)
    (cfg : gmap string string) (x : Instance) (r : OciCs.InstanceInfo) : Prop :=
  exists boot count block,
    OciCs.get_boot_volume_size cloud cfg (inst_id x) (inst_availability_domain x)
      (inst_compartment_id x) = Ok boot /\
    OciCs.get_block_volume_count_and_size cloud cfg (inst_id x)
      (inst_availability_domain x) (inst_compartment_id x) = Ok (count, block) /\
    r = OciCs.mkInstanceInfo compartment (inst_id x) (inst_display_name x) region
          (inst_availability_domain x) (inst_shape x) (inst_lifecycle_state x)
          ((if 0 <? boot then 1 else 0) + count) (boot + block)
          (py_round2 (inject_Z (boot + block) / 1024))
          (inst_defined_tags x) (inst_freeform_tags x).

(** The three [+=] on a summary, and on the totals, for one record. *)
Definition ocs_instance_add (sm : OciCs.InstanceSummary) (r : OciCs.InstanceInfo)
  : OciCs.InstanceSummary :=
  OciCs.mkInstanceSummary (OciCs.is_region sm) (OciCs.is_compartment_id sm)
    (OciCs.instance_count sm + 1) (OciCs.total_sizeGB sm + OciCs.sizeGB r)
    (OciCs.total_sizeTB sm + OciCs.sizeTB r).

Definition ocs_instance_bump (g : OciCs.globals) (r : OciCs.InstanceInfo)
  : OciCs.globals :=
  OciCs.add_total_instance_sizeTB (OciCs.sizeTB r)
    (OciCs.add_total_instance_sizeGB (OciCs.sizeGB r)
       (OciCs.add_total_instances 1 g)).

(** [sizeGB] and [sizeTB] of a bucket, from [approximate_size]. *)
Definition bucket_sizeGB (approximate_size : option Z) : Q :=
  match approximate_size with
  | Some size_in_bytes =>
      if size_in_bytes =? 0 then 0%Q
      else py_round2 (inject_Z size_in_bytes / inject_Z (1024 ^ 3))
  | None => 0%Q
  end.

Definition bucket_sizeTB (sizeGB : Q) : Q :=
  if truthy sizeGB then py_round2 (sizeGB / 1024) else 0%Q.

(** The bucket's statistics could be fetched. *)
Definition bucket_fetched (cloud : Cloud) (c : client) (namespace bucket : string) : bool :=
  is_ok (get_bucket cloud c namespace bucket).

Definition ocs_bucket_rel (cloud : Cloud) (c : client)
    (region namespace compartment : string)
    (cfg : gmap string string) (x : string) (r : OciCs.ObjectStorageInfo) : Prop :=
  exists stats,
    get_bucket cloud c namespace x = Ok stats /\
    r = OciCs.mkObjectStorageInfo compartment namespace x region
          (st_storage_tier stats) (st_approximate_count stats)
          (bucket_sizeGB (st_approximate_size stats))
          (bucket_sizeTB (bucket_sizeGB (st_approximate_size stats)))
          (st_defined_tags stats) (st_freeform_tags stats).

Definition ocs_bucket_add (sm : OciCs.ObjectStorageSummary) (r : OciCs.ObjectStorageInfo)
  : OciCs.ObjectStorageSummary :=
  OciCs.mkObjectStorageSummary (OciCs.oss_region sm) (OciCs.oss_namespace sm)
    (OciCs.oss_compartment_id sm) (OciCs.bucket_count sm + 1)
    (OciCs.total_storage_GB sm + or_zero (OciCs.os_sizeGB r))
    (OciCs.total_storage_TB sm + or_zero (OciCs.os_sizeTB r)).

Definition ocs_bucket_bump (g : OciCs.globals) (r : OciCs.ObjectStorageInfo)
  : OciCs.globals :=
  OciCs.add_total_storageTB (or_zero (OciCs.os_sizeTB r))
    (OciCs.add_total_storageGB (or_zero (OciCs.os_sizeGB r))
       (OciCs.add_total_buckets 1 g)).

(** The same for [CVOracleCloudSizingScript.py]. *)
Definition cvo_instance_rel (cloud : Cloud) (region compartment : string)
    (cfg : gmap string string) (x : Instance) (r : CVOracle.InstanceInfo) : Prop :=
  exists boot blocks,
    CVOracle.get_boot_volume_info cloud cfg (inst_id x) (inst_availability_domain x)
      (inst_compartment_id x) = Ok boot /\
    CVOracle.get_block_volume_info cloud cfg (inst_id x)
      (inst_availability_domain x) (inst_compartment_id x) = Ok blocks /\
    r = CVOracle.mkInstanceInfo compartment (inst_id x) (inst_display_name x) region
          (inst_availability_domain x) (inst_shape x) (inst_lifecycle_state x)
          ((if 0 <? snd boot then 1 else 0) + Z.of_nat (length blocks))
          (snd boot + CVOracle.py_sum (map snd blocks))
          (py_round2 (inject_Z (snd boot + CVOracle.py_sum (map snd blocks)) / 1024))
          (inst_defined_tags x) (inst_freeform_tags x)
          (match fst boot with
           | Some n => if String.eqb n "" then None else Some n
           | None => None
           end)
          (map fst blocks).

Definition cvo_instance_add (sm : CVOracle.InstanceSummary) (r : CVOracle.InstanceInfo)
  : CVOracle.InstanceSummary :=
  CVOracle.mkInstanceSummary (CVOracle.is_region sm)
    (CVOracle.instance_count sm + 1) (CVOracle.total_sizeGB sm + CVOracle.sizeGB r)
    (CVOracle.total_sizeTB sm + CVOracle.sizeTB r).

Definition cvo_instance_bump (g : CVOracle.globals) (r : CVOracle.InstanceInfo)
  : CVOracle.globals :=
  CVOracle.add_total_instance_sizeTB (CVOracle.sizeTB r)
    (CVOracle.add_total_instance_sizeGB (CVOracle.sizeGB r)
       (CVOracle.add_total_instances 1 g)).

Definition cvo_bucket_rel (cloud : Cloud) (c : client)
    (region namespace compartment : string)
    (cfg : gmap string string) (x : string) (r : CVOracle.ObjectStorageInfo) : Prop :=
  exists stats,
    get_bucket cloud c namespace x = Ok stats /\
    r = CVOracle.mkObjectStorageInfo compartment namespace x region
          (st_storage_tier stats) (st_approximate_count stats)
          (bucket_sizeGB (st_approximate_size stats))
          (bucket_sizeTB (bucket_sizeGB (st_approximate_size stats)))
          (st_defined_tags stats) (st_freeform_tags stats).

Definition cvo_bucket_add (sm : CVOracle.ObjectStorageSummary)
    (r : CVOracle.ObjectStorageInfo) : CVOracle.ObjectStorageSummary :=
  CVOracle.mkObjectStorageSummary (CVOracle.oss_region sm) (CVOracle.oss_namespace sm)
    (CVOracle.bucket_count sm + 1)
    (CVOracle.total_storage_GB sm + or_zero (CVOracle.os_sizeGB r))
    (CVOracle.total_storage_TB sm + or_zero (CVOracle.os_sizeTB r)).

Definition cvo_bucket_bump (g : CVOracle.globals) (r : CVOracle.ObjectStorageInfo)
  : CVOracle.globals :=
  CVOracle.add_total_storageTB (or_zero (CVOracle.os_sizeTB r))
    (CVOracle.add_total_storageGB (or_zero (CVOracle.os_sizeGB r))
       (CVOracle.add_total_buckets 1 g)).

Definition cvo_db_rel (region compartment : string)
    (cfg : gmap string string) (x : DbSystem) (r : CVOracle.DBSystemInfo) : Prop :=
  r = CVOracle.mkDBSystemInfo compartment (db_id x) (db_display_name x) region
        (db_availability_domain x) (db_shape x) (db_lifecycle_state x)
        (db_node_count x) (db_version x) (db_database_edition x)
        (db_data_storage_size_in_gbs x)
        (py_round2 (inject_Z (db_data_storage_size_in_gbs x) / 1024))
        (db_defined_tags x) (db_freeform_tags x).

Definition cvo_db_add (sm : CVOracle.DBSystemSummary) (r : CVOracle.DBSystemInfo)
  : CVOracle.DBSystemSummary :=
  CVOracle.mkDBSystemSummary (CVOracle.dbs_region sm)
    (CVOracle.db_system_count sm + 1)
    (CVOracle.total_storage_gb sm + CVOracle.data_storage_size_gb r)
    (CVOracle.total_storage_tb sm + CVOracle.data_storage_size_tb r).

Definition cvo_db_bump (g : CVOracle.globals) (r : CVOracle.DBSystemInfo)
  : CVOracle.globals :=
  CVOracle.add_total_db_system_sizeTB (CVOracle.data_storage_size_tb r)
    (CVOracle.add_total_db_system_sizeGB (CVOracle.data_storage_size_gb r)
       (CVOracle.add_total_db_systems 1 g)).

(** [cluster_info] as the [try] statement of lines 660-719 leaves it. *)
Definition cvo_cluster_info (cloud : Cloud) (region : string)
    (cfg : gmap string string) (x : Cluster) : CVOracle.OKEClusterInfo :=
  let cluster_info :=
    CVOracle.mkOKEClusterInfo region (cl_id x) (cl_name x) (cl_kubernetes_version x)
      0 [] 0 [] 0 0 in
  let profile := match cfg !! "profile" with Some p => p | None => "DEFAULT" end in
  match create_kubeconfig cloud (cl_id x) (CVOracle.kubeconfig_path cloud x) region
          profile with
  | (_, Ok _) => CVOracle.kubectl_inventory cloud (CVOracle.kubeconfig_path cloud x)
                   cluster_info
  | (_, Raise _) => cluster_info
  end.

Definition cvo_cluster_rel (cloud : Cloud) (region : string)
    (cfg : gmap string string) (x : Cluster) (r : CVOracle.OKEClusterInfo) : Prop :=
  r = cvo_cluster_info cloud region cfg x.

Definition cvo_cluster_add (sm : CVOracle.OKEClusterSummary) (r : CVOracle.OKEClusterInfo)
  : CVOracle.OKEClusterSummary :=
  CVOracle.mkOKEClusterSummary (CVOracle.okes_region sm)
    (CVOracle.cluster_count sm + 1)
    (CVOracle.total_node_count sm + CVOracle.oke_node_count r)
    (CVOracle.total_pvc_count sm + CVOracle.pvc_count r)
    (CVOracle.okes_total_pvc_size_gb sm + CVOracle.total_pvc_size_gb r)
    (CVOracle.okes_total_pvc_size_tb sm + CVOracle.total_pvc_size_tb r).

Definition cvo_cluster_bump (g : CVOracle.globals) (r : CVOracle.OKEClusterInfo)
  : CVOracle.globals :=
  CVOracle.add_total_oke_pvc_size_tb (CVOracle.total_pvc_size_tb r)
    (CVOracle.add_total_oke_pvc_size_gb (CVOracle.total_pvc_size_gb r)
       (CVOracle.add_total_oke_pvc_count (CVOracle.pvc_count r)
          (CVOracle.add_total_oke_node_count (CVOracle.oke_node_count r)
             (CVOracle.add_total_oke_clusters 1 g)))).

(** The kubeconfig of a cluster is removed from the file system. *)
Definition remove_kubeconfig (cloud : Cloud) (m : gmap string file) (x : Cluster)
  : gmap string file :=
  delete (CVOracle.kubeconfig_path cloud x) m.

(** *** The workbook as the claims see it *)

(** Sheet [name] of workbook [f]. *)
Definition sheet_of {G} (s : state G) (f name : string) : option worksheet :=
  match fs s !! f with
  | Some (Xlsx wb) =>
      match wb_get wb name with
      | Ok ws => Some ws
      | Raise _ => None
      end
  | _ => None
  end.

(** Between [s] and [s'] sheet [i] of workbook [f] went from [I] to [g I], and
    nothing else of the workbook, of [config] or of the totals changed. *)
Definition sheet_changed {G} (f i : string) (g : worksheet -> worksheet)
    (s s' : state G) : Prop :=
  exists I,
    sheet_of s f i = Some I /\
    sheet_of s' f i = Some (g I) /\
    (forall n, n <> i -> sheet_of s' f n = sheet_of s f n) /\
    config s' = config s /\
    globals s' = globals s.

(** Rows as [sheet.append] stores them. *)
Definition plain_rows (rows : list (list pyval)) : worksheet := map (map plain) rows.

(** *** Scopes: a summary with the records it was accumulated over *)

Definition records_of {Sm R} (scopes : list (Sm * list R)) : list R :=
  concat (map snd scopes).

(** Between [s] and [s'] the detail sheet [i] and the summary sheet [ss] of
    workbook [f] grew by [irows] and [srows]. *)
Definition report_added {G} (f i ss : string) (irows srows : worksheet)
    (s s' : state G) : Prop :=
  (forall ws, sheet_of s f i = Some ws -> sheet_of s' f i = Some (ws ++ irows)) /\
  (forall ws, sheet_of s f ss = Some ws -> sheet_of s' f ss = Some (ws ++ srows)).

(** What a stretch of the run from [s] to [s'] did, in terms of the scopes it
    closed: [ok] holds of each, the totals were bumped once per record, and
    the sheets grew by the records' rows and by [SR scopes]. *)
Definition run_delta {G Sm R} (f i ss : string) (rrow : R -> list pyval)
    (bump : G -> R -> G) (ok : Sm -> list R -> Prop)
    (SR : list (Sm * list R) -> worksheet)
    (scopes : list (Sm * list R)) (s s' : state G) : Prop :=
  Forall (fun sc => ok sc.1 sc.2) scopes /\
  globals s' = fold_left bump (records_of scopes) (globals s) /\
  report_added f i ss (plain_rows (map rrow (records_of scopes))) (SR scopes) s s'.

(** *** Metrics: which total, which summary field, which record field *)

Record view (G Sm R : Type) := mkView {
  (* the resource count: the total and the summary's counter *)
  v_count : (G -> Z) * (Sm -> Z);
  (* integer metrics: the total, the summary's field, the record's field *)
  v_ints : list ((G -> Z) * (Sm -> Z) * (R -> Z));
  (* fractional metrics, the same *)
  v_rats : list ((G -> Q) * (Sm -> Q) * (R -> Q))
}.
Arguments mkView {G Sm R} _ _ _.
Arguments v_count {G Sm R} _.
Arguments v_ints {G Sm R} _.
Arguments v_rats {G Sm R} _.

(** The summary counts the records and each of its metrics is the sum of the
    records' field. *)
Definition summary_is_sum {G Sm R} (v : view G Sm R) (sm : Sm) (recs : list R) : Prop :=
  (v_count v).2 sm = Z.of_nat (length recs) /\
  Forall (fun c => c.1.2 sm = Zsum (map c.2 recs)) (v_ints v) /\
  Forall (fun c => (c.1.2 sm == Qsum (map c.2 recs))%Q) (v_rats v).

(** From [sm] to [sm'] the summary grew by the records: by their number and
    by the sum of each field. *)
Definition summary_grew {G Sm R} (v : view G Sm R) (sm sm' : Sm) (recs : list R) : Prop :=
  (v_count v).2 sm' = (v_count v).2 sm + Z.of_nat (length recs) /\
  Forall (fun c => c.1.2 sm' = c.1.2 sm + Zsum (map c.2 recs)) (v_ints v) /\
  Forall (fun c => (c.1.2 sm' == c.1.2 sm + Qsum (map c.2 recs))%Q) (v_rats v).

(** From [g] to [g'] the totals grew by the records, likewise. *)
Definition totals_grew {G Sm R} (v : view G Sm R) (g g' : G) (recs : list R) : Prop :=
  (v_count v).1 g' = (v_count v).1 g + Z.of_nat (length recs) /\
  Forall (fun c => c.1.1 g' = c.1.1 g + Zsum (map c.2 recs)) (v_ints v) /\
  Forall (fun c => (c.1.1 g' == c.1.1 g + Qsum (map c.2 recs))%Q) (v_rats v).

(** From [g] to [g'] the totals grew by the sum of the summaries' fields. *)
Definition totals_grew_by_summaries {G Sm R} (v : view G Sm R) (g g' : G)
    (sums : list Sm) : Prop :=
  (v_count v).1 g' = (v_count v).1 g + Zsum (map (v_count v).2 sums) /\
  Forall (fun c => c.1.1 g' = c.1.1 g + Zsum (map c.1.2 sums)) (v_ints v) /\
  Forall (fun c => (c.1.1 g' == c.1.1 g + Qsum (map c.1.2 sums))%Q) (v_rats v).

(** [add] and [bump] are the [+=] statements of the view's fields. *)
Definition adds {G Sm R} (v : view G Sm R) (add : Sm -> R -> Sm) : Prop :=
  (forall a r, (v_count v).2 (add a r) = (v_count v).2 a + 1) /\
  Forall (fun c => forall a r, c.1.2 (add a r) = c.1.2 a + c.2 r) (v_ints v) /\
  Forall (fun c => forall a r, (c.1.2 (add a r) == c.1.2 a + c.2 r)%Q) (v_rats v).

Definition bumps {G Sm R} (v : view G Sm R) (bump : G -> R -> G) : Prop :=
  (forall g r, (v_count v).1 (bump g r) = (v_count v).1 g + 1) /\
  Forall (fun c => forall g r, c.1.1 (bump g r) = c.1.1 g + c.2 r) (v_ints v) /\
  Forall (fun c => forall g r, (c.1.1 (bump g r) == c.1.1 g + c.2 r)%Q) (v_rats v).

Definition ocs_instance_view
  : view OciCs.globals OciCs.InstanceSummary OciCs.InstanceInfo :=
  mkView (OciCs.total_instances, OciCs.instance_count)
    [(OciCs.total_instance_sizeGB, OciCs.total_sizeGB, OciCs.sizeGB)]
    [(OciCs.total_instance_sizeTB, OciCs.total_sizeTB, OciCs.sizeTB)].

Definition ocs_bucket_view
  : view OciCs.globals OciCs.ObjectStorageSummary OciCs.ObjectStorageInfo :=
  mkView (OciCs.total_buckets, OciCs.bucket_count)
    []
    [(OciCs.total_storageGB, OciCs.total_storage_GB, OciCs.os_sizeGB);
     (OciCs.total_storageTB, OciCs.total_storage_TB, OciCs.os_sizeTB)].

Definition cvo_instance_view
  : view CVOracle.globals CVOracle.InstanceSummary CVOracle.InstanceInfo :=
  mkView (CVOracle.total_instances, CVOracle.instance_count)
    [(CVOracle.total_instance_sizeGB, CVOracle.total_sizeGB, CVOracle.sizeGB)]
    [(CVOracle.total_instance_sizeTB, CVOracle.total_sizeTB, CVOracle.sizeTB)].

Definition cvo_bucket_view
  : view CVOracle.globals CVOracle.ObjectStorageSummary CVOracle.ObjectStorageInfo :=
  mkView (CVOracle.total_buckets, CVOracle.bucket_count)
    []
    [(CVOracle.total_storageGB, CVOracle.total_storage_GB, CVOracle.os_sizeGB);
     (CVOracle.total_storageTB, CVOracle.total_storage_TB, CVOracle.os_sizeTB)].

Definition cvo_db_view
  : view CVOracle.globals CVOracle.DBSystemSummary CVOracle.DBSystemInfo :=
  mkView (CVOracle.total_db_systems, CVOracle.db_system_count)
    [(CVOracle.total_db_system_sizeGB, CVOracle.total_storage_gb,
      CVOracle.data_storage_size_gb)]
    [(CVOracle.total_db_system_sizeTB, CVOracle.total_storage_tb,
      CVOracle.data_storage_size_tb)].

Definition cvo_cluster_view
  : view CVOracle.globals CVOracle.OKEClusterSummary CVOracle.OKEClusterInfo :=
  mkView (CVOracle.total_oke_clusters, CVOracle.cluster_count)
    [(CVOracle.total_oke_node_count, CVOracle.total_node_count, CVOracle.oke_node_count);
     (CVOracle.total_oke_pvc_count, CVOracle.total_pvc_count, CVOracle.pvc_count);
     (CVOracle.total_oke_pvc_size_gb, CVOracle.okes_total_pvc_size_gb,
      CVOracle.total_pvc_size_gb)]
    [(CVOracle.total_oke_pvc_size_tb, CVOracle.okes_total_pvc_size_tb,
      CVOracle.total_pvc_size_tb)].

(** *** What holds of every Detail Record *)

Definition ocs_instance_good (r : OciCs.InstanceInfo) : Prop :=
  OciCs.sizeTB r = py_round2 (inject_Z (OciCs.sizeGB r) / 1024) /\
  not_terminated (OciCs.state r) = true.

Definition ocs_bucket_good (r : OciCs.ObjectStorageInfo) : Prop :=
  OciCs.os_sizeTB r = bucket_sizeTB (OciCs.os_sizeGB r).

Definition cvo_instance_good (r : CVOracle.InstanceInfo) : Prop :=
  CVOracle.sizeTB r = py_round2 (inject_Z (CVOracle.sizeGB r) / 1024) /\
  not_terminated (CVOracle.state r) = true.

Definition cvo_bucket_good (r : CVOracle.ObjectStorageInfo) : Prop :=
  CVOracle.os_sizeTB r = bucket_sizeTB (CVOracle.os_sizeGB r).

Definition cvo_db_good (r : CVOracle.DBSystemInfo) : Prop :=
  CVOracle.data_storage_size_tb r =
    py_round2 (inject_Z (CVOracle.data_storage_size_gb r) / 1024) /\
  not_terminated (CVOracle.lifecycle_state r) = true.

Definition cvo_cluster_good (r : CVOracle.OKEClusterInfo) : Prop :=
  (CVOracle.total_pvc_size_tb r ==
     py_round2 (inject_Z (CVOracle.total_pvc_size_gb r) / 1024))%Q.

(** *** The report of a run *)

(** [CVOracleCloudSizingScript.py]: from [s] to [s'] the run closed [scopes],
    one per region; the detail sheet got their records' rows, the summary
    sheet the grand-total row, set bold as row 2, and then the summaries'
    rows; [format_workbook] came last. *)
Definition region_report {Sm R} (v : view CVOracle.globals Sm R) (good : R -> Prop)
    (i ss : string) (rrow : R -> list pyval) (srow : Sm -> list pyval)
    (gt : CVOracle.globals -> list pyval)
    (f : string) (scopes : list (Sm * list R)) (s s' : state CVOracle.globals) : Prop :=
  Forall (fun sc => summary_is_sum v sc.1 sc.2 /\ Forall good sc.2) scopes /\
  totals_grew v (globals s) (globals s') (records_of scopes) /\
  (forall I, sheet_of s f i = Some I ->
     sheet_of s' f i =
       Some (CVOracle.format_sheet (I ++ plain_rows (map rrow (records_of scopes))))) /\
  (forall S, sheet_of s f ss = Some S ->
     sheet_of s' f ss =
       Some (CVOracle.format_sheet
               (ws_style_row set_bold 1 (S ++ plain_rows [gt (globals s')])
                ++ plain_rows (map srow (map fst scopes))))).

(** [oci_cs.py]: the scopes are the compartments of the regions; each
    summary's row follows its records' rows at once, and the grand-total row
    is appended last, before [format_workbook]. *)
Definition compartment_report {Sm R} (v : view OciCs.globals Sm R) (good : R -> Prop)
    (i ss : string) (rrow : R -> list pyval) (srow : Sm -> list pyval)
    (gt : OciCs.globals -> list pyval)
    (f : string) (scopes : list (Sm * list R)) (s s' : state OciCs.globals) : Prop :=
  Forall (fun sc => summary_is_sum v sc.1 sc.2 /\ Forall good sc.2) scopes /\
  totals_grew v (globals s) (globals s') (records_of scopes) /\
  (forall I, sheet_of s f i = Some I ->
     sheet_of s' f i =
       Some (OciCs.format_sheet (I ++ plain_rows (map rrow (records_of scopes))))) /\
  (forall S, sheet_of s f ss = Some S ->
     sheet_of s' f ss =
       Some (OciCs.format_sheet
               (S ++ plain_rows (map srow (map fst scopes))
                  ++ plain_rows [gt (globals s')]))).

(** *** Example inputs *)

(** A cloud with the given regions and compartments; [insts] lists the
    instances of a compartment, each with one boot volume whose size
    [boot_gb] tells and no block volume; [buckets] are the buckets of every
    compartment, with statistics [stats]; [dbs] lists the DB systems of a
    compartment; [clusters] are the clusters of every compartment. *)
Definition toy_cloud (regions comps : list string)
    (insts : string -> result (list Instance)) (boot_gb : string -> result Z)
    (buckets : list string) (stats : string -> result BucketStats)
    (dbs : string -> result (list DbSystem))
    (clusters : list Cluster) (kubeconfig : bool * result unit)
    (pvcs : result PvcData) (nodes : result NodeData) : Cloud :=
  {| list_region_subscriptions := fun _ _ => Ok regions;
     list_compartments := fun _ _ => Ok comps;
     get_namespace := fun _ => Ok "ns";
     list_buckets := fun _ _ _ => Ok buckets;
     get_bucket := fun _ _ b => stats b;
     list_instances := fun _ c => insts c;
     list_boot_volume_attachments := fun _ i _ _ => Ok [i];
     get_boot_volume := fun _ i =>
       match boot_gb i with
       | Ok n => Ok (mkVolume "boot" n)
       | Raise e => Raise e
       end;
     list_volume_attachments := fun _ _ _ _ => Ok [];
     get_volume := fun _ _ => Raise ServiceError;
     list_db_systems := fun _ c => dbs c;
     list_clusters := fun _ _ => Ok clusters;
     tempdir := "/tmp/";
     create_kubeconfig := fun _ _ _ _ => kubeconfig;
     kubectl_get_pvc := fun _ => pvcs;
     kubectl_get_nodes := fun _ => nodes |}.

Definition toy_instance (id state : string) : Instance :=
  mkInstance id id "AD-1" "VM.Standard" state "c1" [] [].

Definition toy_stats (bytes : Z) : BucketStats :=
  mkBucketStats "Standard" [] [] (Some bytes) (Some 1).

Definition toy_db (id state : string) (gb : Z) : DbSystem :=
  mkDbSystem id id "AD-1" "VM.Standard" state 1 "19c" "EE" gb [] [].

Definition toy_pvc (name storage : string) : Pvc :=
  mkPvc (Some (mkPvcMetadata (Some name) None))
    (Some (mkPvcSpec (Some (mkPvcResources (Some (mkPvcRequests (Some storage))))))).

(** Two regions, one compartment, two running instances of 600 GB and a
    terminated one, three buckets of 1 GiB, 2 GiB and nothing, two DB
    systems, one cluster with two claims and one node. *)
Definition demo_cloud : Cloud :=
  toy_cloud ["r1"; "r2"] ["c1"]
    (fun _ => Ok [toy_instance "i1" "RUNNING"; toy_instance "i2" "TERMINATED";
                  toy_instance "i3" "STOPPED"])
    (fun _ => Ok 600)
    ["b1"; "b2"; "b3"]
    (fun b => if String.eqb b "b1" then Ok (toy_stats 1073741824)
              else if String.eqb b "b2" then Ok (toy_stats 2147483648)
              else Ok (toy_stats 0))
    (fun _ => Ok [toy_db "d1" "AVAILABLE" 256; toy_db "d2" "TERMINATED" 512])
    [mkCluster "k1" "kube" "v1.29" "ACTIVE"; mkCluster "k0" "old" "v1.20" "DELETED"]
    (true, Ok tt)
    (Ok (mkPvcData (Some [toy_pvc "data" "50Gi"; toy_pvc "logs" "10Gi"])))
    (Ok (mkNodeData (Some [Some (Some "node-1")]))).

Definition demo_config : gmap string string :=
  {["tenancy" := "ocid1.tenancy"; "region" := "home"]}.

(** The states a process starts in: nothing on disk, totals at zero. *)
Definition ocs_start : state OciCs.globals := mkState demo_config ∅ OciCs.globals0.
Definition cvo_start : state CVOracle.globals := mkState demo_config ∅ CVOracle.globals0.

(** ... and after [init_excel] has made the workbook. *)
Definition ocs_ready (workload : string) : state OciCs.globals :=
  (OciCs.init_excel "out.xlsx" workload ocs_start).2.
Definition cvo_ready (workload : string) : state CVOracle.globals :=
  (CVOracle.init_excel "out.xlsx" workload cvo_start).2.

(** *** The claims, as properties of a function of the script *)

(** An enumeration function: file name, regions, compartments. *)
Definition enumeration (G : Type) : Type :=
  string -> list string -> list string -> M G unit.

(** When it returns, [config["region"]] is the last region of the list it
    went through, and no other entry of [config] changed. *)
Definition sets_last_region {G} (cloud : Cloud) (get_info : enumeration G) : Prop :=
  forall f regions comps s s' rs r,
    get_info f regions comps s = (Ok tt, s') ->
    resolve_regions cloud (config s) regions s = (Ok rs, s) ->
    last rs = Some r ->
    config s' !! "region" = Some r /\
    forall k, k <> "region" -> config s' !! k = config s !! k.



(** The loop does with a listing what it does with the listing less the
    resources that are not [live], and the records it makes are those of the
    live resources, one each and in order: only they are appended to the
    detail list, added to the summary and added to the totals. *)
Definition skips_dead {G A Sm R} (live : A -> bool)
    (rel : gmap string string -> A -> R -> Prop)
    (add : Sm -> R -> Sm) (bump : G -> R -> G)
    (step : Sm * list R -> A -> M G (Sm * list R)) : Prop :=
  forall l sm lst s,
    for_fold l (sm, lst) step s = for_fold (List.filter live l) (sm, lst) step s /\
    exists recs s',
      Forall2 (rel (config s)) (List.filter live l) recs /\
      for_fold l (sm, lst) step s = (Ok (fold_left add recs sm, lst ++ recs), s') /\
      globals s' = fold_left bump recs (globals s).



(** The grand-total rows, as [write_grand_total] builds them. *)
Definition ocs_instance_total (g : OciCs.globals) : list pyval :=
  [VStr "Grand Total"; VStr ""; VInt (OciCs.total_instances g);
   VInt (OciCs.total_instance_sizeGB g); VFloat (OciCs.total_instance_sizeTB g)].
Definition ocs_bucket_total (g : OciCs.globals) : list pyval :=
  [VStr "Grand Total"; VStr ""; VInt (OciCs.total_buckets g);
   VFloat (OciCs.total_storageGB g); VFloat (OciCs.total_storageTB g)].
Definition cvo_instance_total (g : CVOracle.globals) : list pyval :=
  [VStr "Total Instances"; VInt (CVOracle.total_instances g);
   VInt (CVOracle.total_instance_sizeGB g); VFloat (CVOracle.total_instance_sizeTB g)].
Definition cvo_bucket_total (g : CVOracle.globals) : list pyval :=
  [VStr "Total Buckets"; VInt (CVOracle.total_buckets g);
   VFloat (CVOracle.total_storageGB g); VFloat (CVOracle.total_storageTB g)].
Definition cvo_db_total (g : CVOracle.globals) : list pyval :=
  [VStr "Total DB Systems"; VInt (CVOracle.total_db_systems g);
   VInt (CVOracle.total_db_system_sizeGB g); VFloat (CVOracle.total_db_system_sizeTB g)].
Definition cvo_cluster_total (g : CVOracle.globals) : list pyval :=
  [VStr "Total OKE Clusters"; VInt (CVOracle.total_oke_clusters g);
   VInt (CVOracle.total_oke_node_count g); VInt (CVOracle.total_oke_pvc_count g);
   VInt (CVOracle.total_oke_pvc_size_gb g); VFloat (CVOracle.total_oke_pvc_size_tb g)].

(** The values of a sheet's cells, and which of its rows are bold
    throughout. *)
Definition sheet_values {G} (s : state G) (f name : string)
  : option (list (list pyval)) :=
  match sheet_of s f name with
  | Some ws => Some (map (map value) ws)
  | None => None
  end.

Definition sheet_bold {G} (s : state G) (f name : string) : option (list bool) :=
  match sheet_of s f name with
  | Some ws => Some (map (forallb bold) ws)
  | None => None
  end.





(** Rows by style: the header as [format_workbook] leaves it (bold, filled),
    a row set bold, and a row as appended. *)
Definition header_row (titles : list string) : row :=
  map (fun t => mkCell (VStr t) true true) titles.
Definition bold_row (values : list pyval) : row :=
  map (fun v => mkCell v true false) values.
Definition plain_row (values : list pyval) : row := map plain values.

(** [CVOracleCloudSizingScript.py], a run on a workbook that did not exist:
    the summary sheet is the header, then the grand-total row in bold, then
    the regions' summary rows, not bold. *)
Definition total_row_second {Sm} (cloud : Cloud) (workload ss : string)
    (titles : list string) (srow : Sm -> list pyval)
    (gt : CVOracle.globals -> list pyval) : Prop :=
  forall f regions comps s s',
    fs s !! f = None ->
    CVOracle.main cloud workload f regions comps s = (Ok tt, s') ->
    exists summaries : list Sm,
      sheet_of s' f ss =
        Some (header_row titles :: bold_row (gt (globals s'))
                :: plain_rows (map srow summaries)).

(** [oci_cs.py], likewise: the summary sheet is the header, then the
    compartments' summary rows, then the grand-total row, none of them
    bold. *)
Definition total_row_last_plain {Sm} (cloud : Cloud) (workload ss : string)
    (titles : list string) (srow : Sm -> list pyval)
    (gt : OciCs.globals -> list pyval) : Prop :=
  forall f regions comps s s',
    fs s !! f = None ->
    OciCs.main cloud workload f regions comps s = (Ok tt, s') ->
    exists summaries : list Sm,
      sheet_of s' f ss =
        Some (header_row titles
                :: plain_rows (map srow summaries) ++ [plain_row (gt (globals s'))]).

(** The layout the specification describes: the summary sheet ends with the
    grand-total row, which [label] opens, and that row is bold. *)
Definition spec_total_row_trailing_bold {G} (s : state G) (f ss label : string) : Prop :=
  exists (rows : worksheet) (r : row),
    sheet_of s f ss = Some (rows ++ [r]) /\
    head (map value r) = Some (VStr label) /\
    forallb bold r = true.

(** *** Lookups that fail *)






(** One region and two compartments; listing the instances, or the DB
    systems, of [c1] is refused, and [c2] has one running instance of 100 GB
    and one DB system of 256 GB. *)
Definition cloud_denied : Cloud :=
  toy_cloud ["r1"] ["c1"; "c2"]
    (fun c => if String.eqb c "c1" then Raise ServiceError
              else Ok [toy_instance "i1" "RUNNING"])
    (fun _ => Ok 100) [] (fun _ => Raise ServiceError)
    (fun c => if String.eqb c "c1" then Raise ServiceError
              else Ok [toy_db "d1" "AVAILABLE" 256])
    []
    (false, Raise CalledProcessError) (Raise CalledProcessError)
    (Raise CalledProcessError).

(** The first call of [list_instances] raises, and with it the whole
    enumeration: [config["region"]] is set, and nothing else is done. *)
Definition list_failure_is_fatal {G} (cloud : Cloud) (get_info : enumeration G) : Prop :=
  forall f region regions compartment compartments s e,
    list_instances cloud (<["region" := region]> (config s)) compartment = Raise e ->
    get_info f (region :: regions) (compartment :: compartments) s =
      (Raise e, mkState (<["region" := region]> (config s)) (fs s) (globals s)).

(** *** The command line *)

(** An argument the loop assigns from. *)
Definition recognised (arg : string) : bool :=
  startswith arg "--profile=" || startswith arg "--region=" ||
  startswith arg "--compartment=" || startswith arg "--workload=".

(** The value an argument gives to the name behind [prefix], if it is one of
    that name's. The four prefixes exclude one another. *)
Definition given (prefix arg : string) : option string :=
  if startswith arg prefix then arg_value arg else None.

(** The character does not occur in the string. *)
Fixpoint free_of (c : ascii) (s : string) : bool :=
  match s with
  | EmptyString => true
  | String c' rest => negb (Ascii.eqb c' c) && free_of c rest
  end.

(** The latest value a list of arguments gives to the name behind [prefix]. *)
Definition latest (prefix : string) (args : list string) : option string :=
  last (omap (given prefix) args).

(** *** Writers *)

(** The state is as it was. *)
Definition unchanged {G} : relation (state G) := fun s s' => s' = s.

(** A statement that raises has done nothing. *)
Definition atomic {G A} (m : M G A) : Prop :=
  forall s e s', m s = (Raise e, s') -> s' = s.

(** *** Runs that no answer of the cloud stops *)



(** The regions and the compartments to go through are given, or the identity
    service lists them. *)
Definition scopes_known {G} (cloud : Cloud) (regions comps : list string)
    (s : state G) : Prop :=
  is_ok (resolve_regions cloud (config s) regions s).1 = true /\
  is_ok (resolve_compartments cloud (config s) comps s).1 = true.


(** The cloud that answers a refused listing of buckets or of DB systems
    with the empty list, and everything else as [cloud] does. *)
Definition forgiving (cloud : Cloud) : Cloud :=
  {| list_region_subscriptions := list_region_subscriptions cloud;
     list_compartments := list_compartments cloud;
     get_namespace := get_namespace cloud;
     list_buckets := fun c ns compartment =>
       match list_buckets cloud c ns compartment with
       | Ok buckets => Ok buckets
       | Raise _ => Ok []
       end;
     get_bucket := get_bucket cloud;
     list_instances := list_instances cloud;
     list_boot_volume_attachments := list_boot_volume_attachments cloud;
     get_boot_volume := get_boot_volume cloud;
     list_volume_attachments := list_volume_attachments cloud;
     get_volume := get_volume cloud;
     list_db_systems := fun c compartment =>
       match list_db_systems cloud c compartment with
       | Ok db_systems => Ok db_systems
       | Raise _ => Ok []
       end;
     list_clusters := list_clusters cloud;
     tempdir := tempdir cloud;
     create_kubeconfig := create_kubeconfig cloud;
     kubectl_get_pvc := kubectl_get_pvc cloud;
     kubectl_get_nodes := kubectl_get_nodes cloud |}.

(** *** Volumes and claims *)

(** The attached volumes that [get_volume] could fetch, in order. *)
Definition fetched_volumes (cloud : Cloud) (cfg : client) (volume_ids : list string)
  : list Volume :=
  omap (fun volume_id =>
          match get_volume cloud cfg volume_id with
          | Ok volume_info => Some volume_info
          | Raise _ => None
          end) volume_ids.





(** One region, one compartment, one cluster with a claim of 10 GiB, a claim
    of 500 MiB and two nodes. *)
Definition cloud_mi : Cloud :=
  toy_cloud ["r1"] ["c1"] (fun _ => Ok []) (fun _ => Ok 0) []
    (fun _ => Raise ServiceError) (fun _ => Ok [])
    [mkCluster "k1" "kube" "v1.29" "ACTIVE"]
    (true, Ok tt)
    (Ok (mkPvcData (Some [toy_pvc "data" "10Gi"; toy_pvc "logs" "500Mi"])))
    (Ok (mkNodeData (Some [Some (Some "node-1"); Some (Some "node-2")]))).

(** *** How far a TB total is from its GB total *)



(** When the scopes are not known the enumeration raises before it does
    anything. *)
Definition fails_unresolved {G} (cloud : Cloud) (get_info : enumeration G) : Prop :=
  forall f regions comps s,
    ~ scopes_known cloud regions comps s ->
    exists e, get_info f regions comps s = (Raise e, s).

(** Two regions and not one compartment. *)
Definition cloud_bare : Cloud :=
  toy_cloud ["r1"; "r2"] []
    (fun _ => Ok []) (fun _ => Ok 0) [] (fun _ => Raise ServiceError)
    (fun _ => Ok []) [] (true, Ok tt)
    (Ok (mkPvcData (Some []))) (Ok (mkNodeData (Some []))).

(** *** The rows of the summary sheet *)

(** When a run of [CVOracleCloudSizingScript.py] over the regions [rs] and
    the compartments [cs] returns, the summary sheet holds what it held, the
    grand-total row, and then one row for each summary of [summaries], whose
    regions are the [expected] ones, in order. *)
Definition summary_rows_by_region {Sm} (cloud : Cloud) (ss : string)
    (srow : Sm -> list pyval) (gt : CVOracle.globals -> list pyval)
    (region_of : Sm -> option string)
    (expected : gmap string string -> list string -> list string ->
                list (option string))
    (get_info : enumeration CVOracle.globals) : Prop :=
  forall f regions comps s s' rs cs S,
    resolve_regions cloud (config s) regions s = (Ok rs, s) ->
    resolve_compartments cloud (config s) comps s = (Ok cs, s) ->
    get_info f regions comps s = (Ok tt, s') ->
    sheet_of s f ss = Some S ->
    exists summaries,
      map region_of summaries = expected (config s) rs cs /\
      sheet_of s' f ss =
        Some (CVOracle.format_sheet
                (ws_style_row set_bold 1 (S ++ plain_rows [gt (globals s')])
                 ++ plain_rows (map srow summaries))).

(** [len(listing) != 0] for a listing that answered. *)
Definition has_items {A} (r : result (list A)) : bool :=
  match r with Ok (_ :: _) => true | _ => false end.

(** The pairs of a region and a compartment, region by region, for which
    [nonempty] holds. *)
Definition listed_scopes (nonempty : string -> string -> bool) (rs cs : list string)
  : list (option string * option string) :=
  concat (map (fun r => map (fun c => (Some r, Some c)) (List.filter (nonempty r) cs))
            rs).

(** Between [s] and [s'] the rows of [sums] were appended to sheet [ss]. *)
Definition rows_added {G Sm} (f ss : string) (srow : Sm -> list pyval)
    (sums : list Sm) (s s' : state G) : Prop :=
  forall S, sheet_of s f ss = Some S ->
            sheet_of s' f ss = Some (S ++ plain_rows (map srow sums)).

(** When a run of [oci_cs.py] over the regions [rs] and the compartments
    [cs] returns, the summary sheet holds what it held, then one row for
    each summary of [summaries], which are those of the scopes where
    [nonempty] holds, in order, and then the grand-total row. *)
Definition summary_rows_by_scope {Sm} (cloud : Cloud) (ss : string)
    (srow : Sm -> list pyval) (gt : OciCs.globals -> list pyval)
    (scope_of : Sm -> option string * option string)
    (nonempty : gmap string string -> string -> string -> bool)
    (get_info : enumeration OciCs.globals) : Prop :=
  forall f regions comps s s' rs cs S,
    resolve_regions cloud (config s) regions s = (Ok rs, s) ->
    resolve_compartments cloud (config s) comps s = (Ok cs, s) ->
    get_info f regions comps s = (Ok tt, s') ->
    sheet_of s f ss = Some S ->
    exists summaries,
      map scope_of summaries = listed_scopes (nonempty (config s)) rs cs /\
      sheet_of s' f ss =
        Some (OciCs.format_sheet
                ((S ++ plain_rows (map srow summaries))
                 ++ plain_rows [gt (globals s')])).

(** One region and two compartments: the first has one instance, which is
    terminated, and one bucket, whose statistics are refused; the second has
    nothing. *)
Definition cloud_gone : Cloud :=
  {| list_region_subscriptions := fun _ _ => Ok ["r1"];
     list_compartments := fun _ _ => Ok ["c1"; "c2"];
     get_namespace := fun _ => Ok "ns";
     list_buckets := fun _ _ c => if String.eqb c "c1" then Ok ["b1"] else Ok [];
     get_bucket := fun _ _ _ => Raise ServiceError;
     list_instances := fun _ c =>
       if String.eqb c "c1" then Ok [toy_instance "i1" "TERMINATED"] else Ok [];
     list_boot_volume_attachments := fun _ _ _ _ => Ok [];
     get_boot_volume := fun _ _ => Raise ServiceError;
     list_volume_attachments := fun _ _ _ _ => Ok [];
     get_volume := fun _ _ => Raise ServiceError;
     list_db_systems := fun _ _ => Ok [];
     list_clusters := fun _ _ => Ok [];
     tempdir := "/tmp/";
     create_kubeconfig := fun _ _ _ _ => (false, Raise CalledProcessError);
     kubectl_get_pvc := fun _ => Raise CalledProcessError;
     kubectl_get_nodes := fun _ => Raise CalledProcessError |}.

(** * Properties *)

(** ** The monad *)

Section MonadLemmas.
Context {G : Type}.
Implicit Types s : state G.

Lemma bind_ok {A B} (m : M G A) (k : A -> M G B) s b s' :
  bind m k s = (Ok b, s') ->
  exists a s1, m s = (Ok a, s1) /\ k a s1 = (Ok b, s').
Proof.
  unfold bind. destruct (m s) as [[a|e] s1]; intros H.
  - eauto.
  - discriminate.
Qed.

Lemma bind_ext {A B} (m : M G A) (k1 k2 : A -> M G B) s :
  (forall a s1, k1 a s1 = k2 a s1) -> bind m k1 s = bind m k2 s.
Proof. intros H. unfold bind. destruct (m s) as [[a|e] s1]; [apply H|done]. Qed.

Lemma attempt_run {A} (r : result A) s :
  attempt r s = (Ok (match r with Ok a => Some a | Raise _ => None end), s).
Proof. destruct r; reflexivity. Qed.

(** Loop invariants, for a loop that runs to its end. *)
Lemma for_fold_inv {A S} (I : list A -> S -> state G -> Prop)
    (body : S -> A -> M G S) l acc s acc' s' :
  I [] acc s ->
  (forall done x acc1 s1 acc2 s2,
      I done acc1 s1 -> body acc1 x s1 = (Ok acc2, s2) -> I (done ++ [x]) acc2 s2) ->
  for_fold l acc body s = (Ok acc', s') ->
  I l acc' s'.
Proof.
  intros H0 Hstep.
  assert (Hgen : forall rest done acc s, I done acc s ->
             for_fold rest acc body s = (Ok acc', s') -> I (done ++ rest) acc' s').
  { induction rest as [|x rest IH]; intros done acc1 s1 HI Hrun.
    - simpl in Hrun. injection Hrun as -> ->. by rewrite app_nil_r.
    - simpl in Hrun. apply bind_ok in Hrun as (acc2 & s2 & Hb & Hrun).
      replace (done ++ x :: rest) with ((done ++ [x]) ++ rest)
        by (by rewrite <- app_assoc).
      eapply IH; [|exact Hrun]. eapply Hstep; eauto. }
  intros Hrun. apply (Hgen l [] acc s H0 Hrun).
Qed.

Section Preserves.
Context (R : relation (state G)) `{!PreOrder R}.

Lemma preserves_ret {A} (a : A) : preserves R (ret a).
Proof. intros s. simpl. reflexivity. Qed.

Lemma preserves_raise {A} e : preserves R (raise (A := A) e).
Proof. intros s. simpl. reflexivity. Qed.

Lemma preserves_call {A} (r : result A) : preserves R (call r).
Proof. intros s. simpl. reflexivity. Qed.

Lemma preserves_get_config : preserves R get_config.
Proof. intros s. simpl. reflexivity. Qed.

Lemma preserves_get_globals : preserves R get_globals.
Proof. intros s. simpl. reflexivity. Qed.

Lemma preserves_config_item k : preserves R (config_item k).
Proof. intros s. unfold config_item. destruct (config s !! k); simpl; reflexivity. Qed.

Lemma preserves_path_exists p : preserves R (path_exists p).
Proof. intros s. simpl. reflexivity. Qed.

Lemma preserves_load_workbook f : preserves R (load_workbook f).
Proof.
  intros s. unfold load_workbook.
  destruct (fs s !! f) as [[|]|]; simpl; reflexivity.
Qed.

Lemma preserves_bind {A B} (m : M G A) (k : A -> M G B) :
  preserves R m -> (forall a, preserves R (k a)) -> preserves R (bind m k).
Proof.
  intros Hm Hk s. unfold bind. specialize (Hm s).
  destruct (m s) as [[a|e] s1]; simpl in *; [|done].
  etrans; [exact Hm|apply Hk].
Qed.

Lemma preserves_try_except {A} (m : M G A) h :
  preserves R m -> (forall e, preserves R (h e)) -> preserves R (try_except m h).
Proof.
  intros Hm Hh s. unfold try_except. specialize (Hm s).
  destruct (m s) as [[a|e] s1]; simpl in *; [done|].
  etrans; [exact Hm|apply Hh].
Qed.

Lemma preserves_try_finally {A} (m : M G A) final :
  preserves R m -> preserves R final -> preserves R (try_finally m final).
Proof.
  intros Hm Hf s. unfold try_finally. specialize (Hm s).
  destruct (m s) as [r s1]. specialize (Hf s1).
  destruct (final s1) as [[u|e] s2]; simpl in *; etrans; eauto.
Qed.

Lemma preserves_for_fold {A S} (body : S -> A -> M G S) l acc :
  (forall acc x, preserves R (body acc x)) -> preserves R (for_fold l acc body).
Proof.
  intros Hb. revert acc. induction l as [|x l IH]; intros acc.
  - apply preserves_ret.
  - simpl. apply preserves_bind; [apply Hb|]. intros a. apply IH.
Qed.

Lemma preserves_run {A} (m : M G A) s r s' :
  preserves R m -> m s = (r, s') -> R s s'.
Proof. intros Hm Hrun. specialize (Hm s). by rewrite Hrun in Hm. Qed.
End Preserves.

#[global] Instance same_config_preorder : PreOrder (@same_config G).
Proof.
  split.
  - intros s. reflexivity.
  - intros s1 s2 s3 H12 H23. unfold same_config in *. congruence.
Qed.

#[global] Instance files_kept_or_removed_preorder : PreOrder (@files_kept_or_removed G).
Proof.
  split.
  - intros s p. by left.
  - intros s1 s2 s3 H12 H23 p.
    destruct (H23 p) as [H|H]; [rewrite H; apply H12|by right].
Qed.

Lemma same_config_modify_globals f : preserves same_config (modify_globals (G := G) f).
Proof. intros s. reflexivity. Qed.
Lemma same_config_save wb f : preserves same_config (save (G := G) wb f).
Proof. intros s. reflexivity. Qed.
Lemma same_config_write_file b p : preserves same_config (write_file (G := G) b p).
Proof. intros s. unfold write_file. by destruct b. Qed.
Lemma same_config_os_remove p : preserves same_config (os_remove (G := G) p).
Proof. intros s. unfold os_remove. by destruct (fs s !! p). Qed.
End MonadLemmas.

Create HintDb frame.
#[export] Hint Resolve same_config_modify_globals same_config_save
  same_config_write_file same_config_os_remove : frame.

(** One step of a structural proof that a statement preserves a relation. *)
Ltac preserves_step :=
  lazymatch goal with
  | |- preserves _ (bind _ _) => apply preserves_bind; [ tc_solve | | intros ]
  | |- preserves _ (ret _) => apply preserves_ret; tc_solve
  | |- preserves _ (raise _) => apply preserves_raise; tc_solve
  | |- preserves _ (call _) => apply preserves_call; tc_solve
  | |- preserves _ get_config => apply preserves_get_config; tc_solve
  | |- preserves _ get_globals => apply preserves_get_globals; tc_solve
  | |- preserves _ (config_item _) => apply preserves_config_item; tc_solve
  | |- preserves _ (path_exists _) => apply preserves_path_exists; tc_solve
  | |- preserves _ (load_workbook _) => apply preserves_load_workbook; tc_solve
  | |- preserves _ (for_fold _ _ _) => apply preserves_for_fold; [ tc_solve | intros ]
  | |- preserves _ (for_each _ _) => unfold for_each
  | |- preserves _ (attempt _) => unfold attempt
  | |- preserves _ (try_except _ _) => apply preserves_try_except; [ tc_solve | | intros ]
  | |- preserves _ (try_finally _ _) => apply preserves_try_finally; [ tc_solve | | ]
  | |- preserves _ (match ?x with _ => _ end) => destruct x
  | |- preserves _ _ => solve [auto with frame]
  end.

Ltac preserves_tac := repeat preserves_step.

(** ** Statements that leave [config] alone *)

Lemma resolve_regions_config {G} cloud c l :
  preserves (G := G) same_config (resolve_regions cloud c l).
Proof. unfold resolve_regions. preserves_tac. Qed.

Lemma resolve_compartments_config {G} cloud c l :
  preserves (G := G) same_config (resolve_compartments cloud c l).
Proof. unfold resolve_compartments. preserves_tac. Qed.

#[export] Hint Resolve resolve_regions_config resolve_compartments_config : frame.

Lemma resolve_regions_pure {G} cloud c l (s : state G) r s' :
  resolve_regions cloud c l s = (r, s') -> s' = s.
Proof.
  intros H. symmetry. eapply (preserves_run eq); [|exact H].
  unfold resolve_regions. preserves_tac.
Qed.

Lemma resolve_compartments_pure {G} cloud c l (s : state G) r s' :
  resolve_compartments cloud c l s = (r, s') -> s' = s.
Proof.
  intros H. symmetry. eapply (preserves_run eq); [|exact H].
  unfold resolve_compartments. preserves_tac.
Qed.

Lemma ocs_dump_info_config f w l : preserves same_config (OciCs.dump_info f w l).
Proof. unfold OciCs.dump_info. preserves_tac. Qed.
Lemma ocs_dump_summary_config f w l : preserves same_config (OciCs.dump_summary f w l).
Proof. unfold OciCs.dump_summary. preserves_tac. Qed.
Lemma ocs_write_grand_total_config f w : preserves same_config (OciCs.write_grand_total f w).
Proof. unfold OciCs.write_grand_total. preserves_tac. Qed.
Lemma ocs_format_workbook_config f : preserves same_config (OciCs.format_workbook f).
Proof. unfold OciCs.format_workbook. preserves_tac. Qed.
Lemma ocs_instance_step_config cloud r c acc x :
  preserves same_config (OciCs.instance_step cloud r c acc x).
Proof. unfold OciCs.instance_step. preserves_tac. Qed.
Lemma ocs_bucket_step_config cloud cl r n c acc x :
  preserves same_config (OciCs.bucket_step cloud cl r n c acc x).
Proof. unfold OciCs.bucket_step. preserves_tac. Qed.

Lemma cvo_dump_info_config f w l : preserves same_config (CVOracle.dump_info f w l).
Proof. unfold CVOracle.dump_info. preserves_tac. Qed.
Lemma cvo_dump_summary_config f w l : preserves same_config (CVOracle.dump_summary f w l).
Proof. unfold CVOracle.dump_summary. preserves_tac. Qed.
Lemma cvo_write_grand_total_config f w :
  preserves same_config (CVOracle.write_grand_total f w).
Proof. unfold CVOracle.write_grand_total. preserves_tac. Qed.
Lemma cvo_format_workbook_config f : preserves same_config (CVOracle.format_workbook f).
Proof. unfold CVOracle.format_workbook. preserves_tac. Qed.
Lemma cvo_instance_step_config cloud r c acc x :
  preserves same_config (CVOracle.instance_step cloud r c acc x).
Proof. unfold CVOracle.instance_step. preserves_tac. Qed.
Lemma cvo_bucket_step_config cloud cl r n c acc x :
  preserves same_config (CVOracle.bucket_step cloud cl r n c acc x).
Proof. unfold CVOracle.bucket_step. preserves_tac. Qed.
Lemma cvo_db_step_config r c acc x :
  preserves same_config (CVOracle.db_step r c acc x).
Proof. unfold CVOracle.db_step. preserves_tac. Qed.
Lemma cvo_cluster_inventory_config cloud r x :
  preserves same_config (CVOracle.cluster_inventory cloud r x).
Proof. unfold CVOracle.cluster_inventory. preserves_tac. Qed.
Lemma cvo_cluster_step_config cloud r acc x :
  preserves same_config (CVOracle.cluster_step cloud r acc x).
Proof.
  unfold CVOracle.cluster_step. pose proof cvo_cluster_inventory_config.
  preserves_tac.
Qed.

#[export] Hint Resolve
  ocs_dump_info_config ocs_dump_summary_config ocs_write_grand_total_config
  ocs_format_workbook_config ocs_instance_step_config ocs_bucket_step_config
  cvo_dump_info_config cvo_dump_summary_config cvo_write_grand_total_config
  cvo_format_workbook_config cvo_instance_step_config cvo_bucket_step_config
  cvo_db_step_config cvo_cluster_step_config : frame.

(** ** The region loop and [config] *)

Lemma region_loop_config {G S} (rest : S -> string -> M G S) l acc s acc' s' :
  (forall acc x, preserves same_config (rest acc x)) ->
  for_fold l acc (fun acc region => config_set "region" region ;;; rest acc region) s
    = (Ok acc', s') ->
  config s' = region_after l (config s).
Proof.
  intros Hrest Hrun.
  apply (for_fold_inv (fun done _ s1 => config s1 = region_after done (config s)))
    in Hrun; [done|done|].
  intros done x acc1 s1 acc2 s2 Hinv Hbody.
  apply bind_ok in Hbody as ([] & s1' & Hset & Hbody).
  injection Hset as <-.
  apply (preserves_run same_config) in Hbody; [|apply Hrest].
  unfold same_config in Hbody. rewrite Hbody. simpl.
  unfold region_after. rewrite last_snoc, Hinv.
  unfold region_after. destruct (last done); [apply insert_insert_eq|done].
Qed.

(** Inverts the front end shared by the six enumeration functions. *)
Ltac invert_front H rs cs Hrs Hcs :=
  let c := fresh "c" in
  let s1 := fresh "s" in
  let Hc := fresh "Hc" in
  apply bind_ok in H as (c & s1 & Hc & H);
  injection Hc as <- <-;
  apply bind_ok in H as (rs & s1 & Hrs & H);
  pose proof (resolve_regions_pure _ _ _ _ _ _ Hrs); subst s1;
  apply bind_ok in H as (cs & s1 & Hcs & H);
  pose proof (resolve_compartments_pure _ _ _ _ _ _ Hcs); subst s1.

Ltac config_after_loop H :=
  let a := fresh "a" in
  let s1 := fresh "s" in
  let Hloop := fresh "Hloop" in
  apply bind_ok in H as (a & s1 & Hloop & H);
  unfold for_each in Hloop;
  apply region_loop_config in Hloop; [|intros; preserves_tac];
  rewrite <- Hloop;
  eapply (preserves_run same_config); [|exact H]; preserves_tac.

Lemma ocs_get_instance_info_config cloud f regions comps s s' rs :
  OciCs.get_instance_info cloud f regions comps s = (Ok tt, s') ->
  resolve_regions cloud (config s) regions s = (Ok rs, s) ->
  config s' = region_after rs (config s).
Proof.
  intros H Hres. unfold OciCs.get_instance_info in H.
  invert_front H rs' cs Hrs Hcs. rewrite Hres in Hrs. injection Hrs as <-.
  config_after_loop H.
Qed.

Lemma ocs_get_object_storage_info_config cloud f regions comps s s' rs :
  OciCs.get_object_storage_info cloud f regions comps s = (Ok tt, s') ->
  resolve_regions cloud (config s) regions s = (Ok rs, s) ->
  config s' = region_after rs (config s).
Proof.
  intros H Hres. unfold OciCs.get_object_storage_info in H.
  invert_front H rs' cs Hrs Hcs. rewrite Hres in Hrs. injection Hrs as <-.
  config_after_loop H.
Qed.

Lemma cvo_get_instance_info_config cloud f regions comps s s' rs :
  CVOracle.get_instance_info cloud f regions comps s = (Ok tt, s') ->
  resolve_regions cloud (config s) regions s = (Ok rs, s) ->
  config s' = region_after rs (config s).
Proof.
  intros H Hres. unfold CVOracle.get_instance_info in H.
  invert_front H rs' cs Hrs Hcs. rewrite Hres in Hrs. injection Hrs as <-.
  config_after_loop H.
Qed.

Lemma cvo_get_object_storage_info_config cloud f regions comps s s' rs :
  CVOracle.get_object_storage_info cloud f regions comps s = (Ok tt, s') ->
  resolve_regions cloud (config s) regions s = (Ok rs, s) ->
  config s' = region_after rs (config s).
Proof.
  intros H Hres. unfold CVOracle.get_object_storage_info in H.
  invert_front H rs' cs Hrs Hcs. rewrite Hres in Hrs. injection Hrs as <-.
  config_after_loop H.
Qed.

Lemma cvo_get_database_info_config cloud f regions comps s s' rs :
  CVOracle.get_database_info cloud f regions comps s = (Ok tt, s') ->
  resolve_regions cloud (config s) regions s = (Ok rs, s) ->
  config s' = region_after rs (config s).
Proof.
  intros H Hres. unfold CVOracle.get_database_info in H.
  invert_front H rs' cs Hrs Hcs. rewrite Hres in Hrs. injection Hrs as <-.
  config_after_loop H.
Qed.

Lemma cvo_get_oke_cluster_info_config cloud f regions comps s s' rs :
  CVOracle.get_oke_cluster_info cloud f regions comps s = (Ok tt, s') ->
  resolve_regions cloud (config s) regions s = (Ok rs, s) ->
  config s' = region_after rs (config s).
Proof.
  intros H Hres. unfold CVOracle.get_oke_cluster_info in H.
  invert_front H rs' cs Hrs Hcs. rewrite Hres in Hrs. injection Hrs as <-.
  config_after_loop H.
Qed.

(** ** Initialising the workbook *)

Lemma ocs_init_excel_existing f w (s : state OciCs.globals) :
  is_Some (fs s !! f) -> OciCs.init_excel f w s = (Ok tt, s).
Proof.
  intros Hex. unfold OciCs.init_excel, bind, path_exists.
  by rewrite bool_decide_eq_true_2.
Qed.

Lemma cvo_init_excel_existing f w (s : state CVOracle.globals) :
  is_Some (fs s !! f) -> CVOracle.init_excel f w s = (Ok tt, s).
Proof.
  intros Hex. unfold CVOracle.init_excel, bind, path_exists.
  by rewrite bool_decide_eq_true_2.
Qed.

Lemma ocs_init_excel_creates f w (s : state OciCs.globals) s' :
  OciCs.init_excel f w s = (Ok tt, s') -> is_Some (fs s' !! f).
Proof.
  unfold OciCs.init_excel, bind, path_exists. case_bool_decide as Hex; simpl.
  - intros H. by injection H as <-.
  - unfold call. destruct (OciCs.get_sheet_info w) as [[[[i ss] ih] sh]|]; [|done].
    simpl. repeat case_match; try done; unfold save; intros Hrun;
      injection Hrun as <-; simpl; rewrite lookup_insert_eq; eauto.
Qed.

Lemma cvo_init_excel_creates f w (s : state CVOracle.globals) s' :
  CVOracle.init_excel f w s = (Ok tt, s') -> is_Some (fs s' !! f).
Proof.
  unfold CVOracle.init_excel, bind, path_exists. case_bool_decide as Hex; simpl.
  - intros H. by injection H as <-.
  - unfold call. destruct (CVOracle.get_sheet_info w) as [[[[i ss] ih] sh]|]; [|done].
    simpl. repeat case_match; try done; unfold save; intros Hrun;
      injection Hrun as <-; simpl; rewrite lookup_insert_eq; eauto.
Qed.

Lemma ocs_init_excel_twice f w (s : state OciCs.globals) :
  (OciCs.init_excel f w ;;; OciCs.init_excel f w) s = OciCs.init_excel f w s.
Proof.
  unfold bind at 1. destruct (OciCs.init_excel f w s) as [[[]|e] s1] eqn:H; [|done].
  apply ocs_init_excel_existing. by eapply ocs_init_excel_creates.
Qed.

Lemma cvo_init_excel_twice f w (s : state CVOracle.globals) :
  (CVOracle.init_excel f w ;;; CVOracle.init_excel f w) s = CVOracle.init_excel f w s.
Proof.
  unfold bind at 1. destruct (CVOracle.init_excel f w s) as [[[]|e] s1] eqn:H; [|done].
  apply cvo_init_excel_existing. by eapply cvo_init_excel_creates.
Qed.

(** ** The kubeconfig of an OKE cluster *)

Lemma cvo_cluster_inventory_run cloud region cluster (s : state CVOracle.globals) :
  CVOracle.cluster_inventory cloud region cluster s =
    (Ok (cvo_cluster_info cloud region (config s) cluster),
     mkState (config s) (remove_kubeconfig cloud (fs s) cluster) (globals s)).
Proof.
  unfold CVOracle.cluster_inventory, cvo_cluster_info, remove_kubeconfig,
    try_finally, try_except, bind, get_config, write_file, call, os_remove, ret.
  destruct (create_kubeconfig _ _ _ _ _) as [[|] [[]|e]]; simpl;
    rewrite ?lookup_insert_eq; simpl; rewrite ?delete_insert_eq;
    try reflexivity;
    destruct (fs s !! CVOracle.kubeconfig_path cloud cluster) eqn:Hk; simpl;
    try reflexivity;
    rewrite (delete_id _ _ Hk); destruct s; reflexivity.
Qed.

(** ** The loop over the resources of one scope *)

Section Collect.
Context {G A S R : Type}.
Context (step : S * list R -> A -> M G (S * list R)).
Context (keep : A -> bool) (P : gmap string string -> A -> R -> Prop).
Context (add : S -> R -> S) (bump : G -> R -> G).
Context (fsupd : gmap string file -> A -> gmap string file).

Hypothesis step_skip : forall acc x s, keep x = false -> step acc x s = (Ok acc, s).
Hypothesis step_keep : forall sm lst x s, keep x = true ->
  exists r, P (config s) x r /\
    step (sm, lst) x s =
      (Ok (add sm r, lst ++ [r]),
       mkState (config s) (fsupd (fs s) x) (bump (globals s) r)).

(** A resource that is not kept is as good as not listed. *)
Lemma for_fold_filter l acc s :
  for_fold l acc step s = for_fold (List.filter keep l) acc step s.
Proof.
  revert acc s. induction l as [|x l IH]; intros acc s; [done|].
  simpl. destruct (keep x) eqn:Hk; simpl.
  - unfold bind. destruct (step acc x s) as [[acc1|e] s1]; [apply IH|done].
  - unfold bind. rewrite step_skip by done. apply IH.
Qed.

Lemma collect l sm lst s :
  exists recs,
    Forall2 (P (config s)) (List.filter keep l) recs /\
    for_fold l (sm, lst) step s =
      (Ok (fold_left add recs sm, lst ++ recs),
       mkState (config s) (fold_left fsupd (List.filter keep l) (fs s))
         (fold_left bump recs (globals s))).
Proof.
  revert sm lst s. induction l as [|x l IH]; intros sm lst s.
  - exists []. split; [constructor|]. simpl. rewrite app_nil_r. by destruct s.
  - simpl. destruct (keep x) eqn:Hk.
    + destruct (step_keep sm lst x s Hk) as (r & Hr & Hstep).
      destruct (IH (add sm r) (lst ++ [r])
                  (mkState (config s) (fsupd (fs s) x) (bump (globals s) r)))
        as (recs & Hrecs & Hrun).
      exists (r :: recs). split; [by constructor|].
      unfold bind. rewrite Hstep, Hrun. simpl. by rewrite <- app_assoc.
    + destruct (IH sm lst s) as (recs & Hrecs & Hrun).
      exists recs. split; [done|].
      unfold bind. by rewrite step_skip.
Qed.
End Collect.

Lemma fold_left_const {A B} (l : list B) (a : A) : fold_left (fun a _ => a) l a = a.
Proof. induction l; simpl; auto. Qed.

Lemma ocs_get_boot_volume_size_ok cloud cfg i ad c :
  exists n, OciCs.get_boot_volume_size cloud cfg i ad c = Ok n.
Proof. unfold OciCs.get_boot_volume_size. repeat case_match; eauto. Qed.

Lemma ocs_get_block_volume_count_and_size_ok cloud cfg i ad c :
  exists n, OciCs.get_block_volume_count_and_size cloud cfg i ad c = Ok n.
Proof. unfold OciCs.get_block_volume_count_and_size. repeat case_match; eauto. Qed.

Lemma ocs_instance_step_skip cloud region compartment acc x s :
  not_terminated (inst_lifecycle_state x) = false ->
  OciCs.instance_step cloud region compartment acc x s = (Ok acc, s).
Proof.
  unfold not_terminated, OciCs.instance_step. intros Hk. destruct acc.
  apply negb_false_iff in Hk. by rewrite Hk.
Qed.

Lemma ocs_instance_step_keep cloud region compartment sm lst x s :
  not_terminated (inst_lifecycle_state x) = true ->
  exists r, ocs_instance_rel cloud region compartment (config s) x r /\
    OciCs.instance_step cloud region compartment (sm, lst) x s =
      (Ok (ocs_instance_add sm r, lst ++ [r]),
       mkState (config s) (fs s) (ocs_instance_bump (globals s) r)).
Proof.
  unfold not_terminated, OciCs.instance_step. intros Hk.
  apply negb_true_iff in Hk. rewrite Hk.
  destruct (ocs_get_boot_volume_size_ok cloud (config s) (inst_id x)
              (inst_availability_domain x) (inst_compartment_id x)) as (boot & Hboot).
  destruct (ocs_get_block_volume_count_and_size_ok cloud (config s) (inst_id x)
              (inst_availability_domain x) (inst_compartment_id x))
    as ([count block] & Hblock).
  eexists. split; [exists boot, count, block; eauto|].
  unfold bind, get_config, try_except, call. rewrite Hboot, Hblock. reflexivity.
Qed.

Lemma ocs_bucket_step_skip cloud c region ns compartment acc x s :
  bucket_fetched cloud c ns x = false ->
  OciCs.bucket_step cloud c region ns compartment acc x s = (Ok acc, s).
Proof.
  unfold bucket_fetched, OciCs.bucket_step. intros Hk. destruct acc.
  unfold bind. rewrite attempt_run. by destruct (get_bucket cloud c ns x).
Qed.

Lemma ocs_bucket_step_keep cloud c region ns compartment sm lst x s :
  bucket_fetched cloud c ns x = true ->
  exists r, ocs_bucket_rel cloud c region ns compartment (config s) x r /\
    OciCs.bucket_step cloud c region ns compartment (sm, lst) x s =
      (Ok (ocs_bucket_add sm r, lst ++ [r]),
       mkState (config s) (fs s) (ocs_bucket_bump (globals s) r)).
Proof.
  unfold bucket_fetched, OciCs.bucket_step. intros Hk.
  destruct (get_bucket cloud c ns x) as [stats|] eqn:Hget; [|done].
  eexists. split; [exists stats; eauto|].
  unfold bind. rewrite attempt_run. reflexivity.
Qed.

Lemma cvo_get_boot_volume_info_ok cloud cfg i ad c :
  exists n, CVOracle.get_boot_volume_info cloud cfg i ad c = Ok n.
Proof. unfold CVOracle.get_boot_volume_info. repeat case_match; eauto. Qed.

Lemma cvo_get_block_volume_info_ok cloud cfg i ad c :
  exists n, CVOracle.get_block_volume_info cloud cfg i ad c = Ok n.
Proof. unfold CVOracle.get_block_volume_info. repeat case_match; eauto. Qed.

Lemma cvo_instance_step_skip cloud region compartment acc x s :
  not_terminated (inst_lifecycle_state x) = false ->
  CVOracle.instance_step cloud region compartment acc x s = (Ok acc, s).
Proof.
  unfold not_terminated, CVOracle.instance_step. intros Hk. destruct acc.
  apply negb_false_iff in Hk. by rewrite Hk.
Qed.

Lemma cvo_instance_step_keep cloud region compartment sm lst x s :
  not_terminated (inst_lifecycle_state x) = true ->
  exists r, cvo_instance_rel cloud region compartment (config s) x r /\
    CVOracle.instance_step cloud region compartment (sm, lst) x s =
      (Ok (cvo_instance_add sm r, lst ++ [r]),
       mkState (config s) (fs s) (cvo_instance_bump (globals s) r)).
Proof.
  unfold not_terminated, CVOracle.instance_step. intros Hk.
  apply negb_true_iff in Hk. rewrite Hk.
  destruct (cvo_get_boot_volume_info_ok cloud (config s) (inst_id x)
              (inst_availability_domain x) (inst_compartment_id x)) as (boot & Hboot).
  destruct (cvo_get_block_volume_info_ok cloud (config s) (inst_id x)
              (inst_availability_domain x) (inst_compartment_id x))
    as (blocks & Hblock).
  eexists. split; [exists boot, blocks; eauto|].
  unfold bind, get_config, try_except, call. rewrite Hboot, Hblock. reflexivity.
Qed.

Lemma cvo_bucket_step_skip cloud c region ns compartment acc x s :
  bucket_fetched cloud c ns x = false ->
  CVOracle.bucket_step cloud c region ns compartment acc x s = (Ok acc, s).
Proof.
  unfold bucket_fetched, CVOracle.bucket_step. intros Hk. destruct acc.
  unfold bind. rewrite attempt_run. by destruct (get_bucket cloud c ns x).
Qed.

Lemma cvo_bucket_step_keep cloud c region ns compartment sm lst x s :
  bucket_fetched cloud c ns x = true ->
  exists r, cvo_bucket_rel cloud c region ns compartment (config s) x r /\
    CVOracle.bucket_step cloud c region ns compartment (sm, lst) x s =
      (Ok (cvo_bucket_add sm r, lst ++ [r]),
       mkState (config s) (fs s) (cvo_bucket_bump (globals s) r)).
Proof.
  unfold bucket_fetched, CVOracle.bucket_step. intros Hk.
  destruct (get_bucket cloud c ns x) as [stats|] eqn:Hget; [|done].
  eexists. split; [exists stats; eauto|].
  unfold bind. rewrite attempt_run. reflexivity.
Qed.

Lemma cvo_db_step_skip region compartment acc x s :
  not_terminated (db_lifecycle_state x) = false ->
  CVOracle.db_step region compartment acc x s = (Ok acc, s).
Proof.
  unfold not_terminated, CVOracle.db_step. intros Hk. destruct acc.
  apply negb_false_iff in Hk. by rewrite Hk.
Qed.

Lemma cvo_db_step_keep region compartment sm lst x s :
  not_terminated (db_lifecycle_state x) = true ->
  exists r, cvo_db_rel region compartment (config s) x r /\
    CVOracle.db_step region compartment (sm, lst) x s =
      (Ok (cvo_db_add sm r, lst ++ [r]),
       mkState (config s) (fs s) (cvo_db_bump (globals s) r)).
Proof.
  unfold not_terminated, CVOracle.db_step. intros Hk.
  apply negb_true_iff in Hk. rewrite Hk.
  eexists. split; [reflexivity|]. reflexivity.
Qed.

Lemma cvo_cluster_step_skip cloud region acc x s :
  not_deleted (cl_lifecycle_state x) = false ->
  CVOracle.cluster_step cloud region acc x s = (Ok acc, s).
Proof.
  unfold not_deleted, CVOracle.cluster_step. intros Hk. destruct acc.
  apply negb_false_iff in Hk. by rewrite Hk.
Qed.

Lemma cvo_cluster_step_keep cloud region sm lst x s :
  not_deleted (cl_lifecycle_state x) = true ->
  exists r, cvo_cluster_rel cloud region (config s) x r /\
    CVOracle.cluster_step cloud region (sm, lst) x s =
      (Ok (cvo_cluster_add sm r, lst ++ [r]),
       mkState (config s) (remove_kubeconfig cloud (fs s) x)
         (cvo_cluster_bump (globals s) r)).
Proof.
  unfold not_deleted, CVOracle.cluster_step. intros Hk.
  apply negb_true_iff in Hk. rewrite Hk.
  eexists. split; [reflexivity|].
  unfold bind. rewrite cvo_cluster_inventory_run. reflexivity.
Qed.

(** ** Workbooks *)

Lemma wb_get_set_eq wb n ws0 ws :
  wb_get wb n = Ok ws0 -> wb_get (wb_set wb n ws) n = Ok ws.
Proof.
  induction wb as [|[t old] wb IH]; simpl; [done|].
  destruct (String.eqb t n) eqn:Ht; simpl; rewrite Ht; auto.
Qed.

Lemma wb_get_set_ne wb n m ws :
  n <> m -> wb_get (wb_set wb n ws) m = wb_get wb m.
Proof.
  intros Hne. induction wb as [|[t old] wb IH]; simpl; [done|].
  destruct (String.eqb t n) eqn:Ht; simpl.
  - apply String.eqb_eq in Ht as ->.
    by rewrite (proj2 (String.eqb_neq n m) Hne).
  - by rewrite IH.
Qed.

Lemma wb_get_map (g : worksheet -> worksheet) wb n :
  wb_get (map (fun '(t, ws) => (t, g ws)) wb) n =
    match wb_get wb n with Ok ws => Ok (g ws) | Raise e => Raise e end.
Proof.
  induction wb as [|[t old] wb IH]; simpl; [done|].
  by destruct (String.eqb t n).
Qed.

Lemma sheet_of_saved {G} (c : gmap string string) m (g : G) f wb n :
  sheet_of (mkState c (<[f := Xlsx wb]> m) g) f n =
    match wb_get wb n with Ok ws => Some ws | Raise _ => None end.
Proof. unfold sheet_of. simpl. by rewrite lookup_insert_eq. Qed.

Lemma sheet_of_globals {G} (c : gmap string string) m (g g' : G) f n :
  sheet_of (mkState c m g') f n = sheet_of (mkState c m g) f n.
Proof. reflexivity. Qed.

(** The loop that appends one row per object. *)
Lemma append_loop {G A} (ROW : A -> result (list pyval)) objs sheet (s : state G) :
  for_fold objs sheet
    (fun sheet obj => let* row := call (ROW obj) in ret (ws_append sheet row)) s =
  (match map_result ROW objs with
   | Ok rows => Ok (sheet ++ plain_rows rows)
   | Raise e => Raise e
   end, s).
Proof.
  revert sheet. induction objs as [|x objs IH]; intros sheet; simpl.
  - by rewrite app_nil_r.
  - unfold bind at 1. unfold bind at 1. unfold call at 1.
    destruct (ROW x) as [r|e]; simpl; [|done].
    rewrite IH. destruct (map_result ROW objs); [|done].
    unfold ws_append, plain_rows. simpl. by rewrite <- app_assoc.
Qed.

Lemma map_result_map {A B C} (K : A -> B) (ROW : B -> result C) (row : A -> C) l :
  (forall r, ROW (K r) = Ok (row r)) ->
  map_result ROW (map K l) = Ok (map row l).
Proof.
  intros H. induction l as [|x l IH]; simpl; [done|]. by rewrite H, IH.
Qed.

(** Load, change one sheet, save. *)
Lemma change_sheet_ok {G} f i (g : G -> worksheet -> worksheet)
    (K : workbook -> M G unit) (s s' : state G) :
  (forall wb s1,
      K wb s1 =
        (let* sheet := call (wb_get wb i) in
         save (wb_set wb i (g (globals s1) sheet)) f) s1) ->
  (let* wb := load_workbook f in K wb) s = (Ok tt, s') ->
  sheet_changed f i (g (globals s)) s s'.
Proof.
  intros HK Hrun.
  apply bind_ok in Hrun as (wb & s1 & Hload & Hrun).
  unfold load_workbook in Hload.
  destruct (fs s !! f) as [[wb'|]|] eqn:Hf; try done. injection Hload as -> <-.
  rewrite HK in Hrun.
  apply bind_ok in Hrun as (I & s1 & Hget & Hrun).
  unfold call in Hget. injection Hget as Hget <-.
  unfold save in Hrun. injection Hrun as <-.
  exists I. unfold sheet_of at 1. rewrite Hf, Hget.
  split; [done|]. split; [|split; [|done]].
  - rewrite sheet_of_saved. by rewrite (wb_get_set_eq _ _ _ _ Hget).
  - intros n Hn. rewrite sheet_of_saved. rewrite wb_get_set_ne by done.
    unfold sheet_of. by rewrite Hf.
Qed.

Lemma sheet_changed_other {G} f i g (s s' : state G) n ws :
  sheet_changed f i g s s' -> n <> i -> sheet_of s f n = Some ws ->
  sheet_of s' f n = Some ws.
Proof. intros (I & _ & _ & Ho & _) Hn Hs. by rewrite Ho. Qed.

Lemma sheet_changed_this {G} f i g (s s' : state G) ws :
  sheet_changed f i g s s' -> sheet_of s f i = Some ws ->
  sheet_of s' f i = Some (g ws).
Proof. intros (I & HI & HI' & _) Hs. rewrite HI in Hs. by injection Hs as <-. Qed.

Lemma sheet_changed_config {G} f i g (s s' : state G) :
  sheet_changed f i g s s' -> config s' = config s.
Proof. by intros (I & _ & _ & _ & ? & _). Qed.

Lemma sheet_changed_globals {G} f i g (s s' : state G) :
  sheet_changed f i g s s' -> globals s' = globals s.
Proof. by intros (I & _ & _ & _ & _ & ?). Qed.

(** [format_workbook] restyles the first row of every sheet. *)
Lemma format_ok {G} f (fmt : worksheet -> worksheet) (s s' : state G) :
  (let* wb := load_workbook f in
   save (map (fun '(t, ws) => (t, fmt ws)) wb) f) s = (Ok tt, s') ->
  (forall n ws, sheet_of s f n = Some ws -> sheet_of s' f n = Some (fmt ws)) /\
  config s' = config s /\ globals s' = globals s.
Proof.
  intros Hrun.
  apply bind_ok in Hrun as (wb & s1 & Hload & Hrun).
  unfold load_workbook in Hload.
  destruct (fs s !! f) as [[wb'|]|] eqn:Hf; try done. injection Hload as -> <-.
  unfold save in Hrun. injection Hrun as <-.
  split; [|done]. intros n ws Hs. rewrite sheet_of_saved, wb_get_map.
  unfold sheet_of in Hs. rewrite Hf in Hs.
  destruct (wb_get wb n); [|done]. by injection Hs as ->.
Qed.

(** *** The writers of [oci_cs.py] *)

Section OcsWriters.
Context {R Sm : Type} (w i ss : string) (ih sh : list string).
Context (K : R -> OciCs.info) (rrow : R -> list pyval).
Context (KS : Sm -> OciCs.summary) (srow : Sm -> list pyval).
Context (gt : OciCs.globals -> list pyval).
Hypothesis Hsheet : OciCs.get_sheet_info w = Ok (i, ss, ih, sh).
Hypothesis Hrow : forall r, OciCs.info_row w (K r) = Ok (rrow r).
Hypothesis Hsrow : forall sm, OciCs.summary_row w (KS sm) = Ok (srow sm).
Hypothesis Hgt : forall g, OciCs.grand_total_row w g = Ok (ss, gt g).

Lemma ocs_dump_info_ok f lst s s' :
  OciCs.dump_info f w (map K lst) s = (Ok tt, s') ->
  sheet_changed f i (fun I => I ++ plain_rows (map rrow lst)) s s'.
Proof.
  unfold OciCs.dump_info. unfold bind at 1. unfold call at 1. rewrite Hsheet.
  intros Hrun.
  apply (change_sheet_ok f i (fun _ I => I ++ plain_rows (map rrow lst))) in Hrun;
    [done|].
  intros wb s1. apply bind_ext. intros sheet s2. unfold bind at 1.
  by rewrite append_loop, (map_result_map K _ rrow).
Qed.

Lemma ocs_dump_summary_ok f sm s s' :
  OciCs.dump_summary f w (KS sm) s = (Ok tt, s') ->
  sheet_changed f ss (fun S => S ++ plain_rows [srow sm]) s s'.
Proof.
  unfold OciCs.dump_summary. unfold bind at 1. unfold call at 1. rewrite Hsheet.
  intros Hrun.
  apply (change_sheet_ok f ss (fun _ S => S ++ plain_rows [srow sm])) in Hrun;
    [done|].
  intros wb s1. apply bind_ext. intros sheet s2. unfold bind, call.
  by rewrite Hsrow.
Qed.

Lemma ocs_write_grand_total_ok f s s' :
  OciCs.write_grand_total f w s = (Ok tt, s') ->
  sheet_changed f ss (fun S => S ++ plain_rows [gt (globals s)]) s s'.
Proof.
  unfold OciCs.write_grand_total. intros Hrun.
  apply (change_sheet_ok f ss (fun g S => S ++ plain_rows [gt g])) in Hrun; [done|].
  intros wb s1. unfold bind, get_globals. unfold call at 1. by rewrite Hgt.
Qed.
End OcsWriters.

Lemma ocs_format_workbook_ok f s s' :
  OciCs.format_workbook f s = (Ok tt, s') ->
  (forall n ws, sheet_of s f n = Some ws ->
                sheet_of s' f n = Some (OciCs.format_sheet ws)) /\
  config s' = config s /\ globals s' = globals s.
Proof. apply format_ok. Qed.

(** *** The writers of [CVOracleCloudSizingScript.py] *)

Section CvoWriters.
Context {R Sm : Type} (w i ss : string) (ih sh : list string).
Context (K : R -> CVOracle.info) (rrow : R -> list pyval).
Context (KS : Sm -> CVOracle.summary) (srow : Sm -> list pyval).
Context (gt : CVOracle.globals -> list pyval).
Hypothesis Hsheet : CVOracle.get_sheet_info w = Ok (i, ss, ih, sh).
Hypothesis Hrow : forall r, CVOracle.info_row w (K r) = Ok (rrow r).
Hypothesis Hsrow : forall sm, CVOracle.summary_row w (KS sm) = Ok (srow sm).
Hypothesis Hgt : forall g, CVOracle.grand_total_row w g = Ok (ss, gt g).

Lemma cvo_dump_info_ok f lst s s' :
  CVOracle.dump_info f w (map K lst) s = (Ok tt, s') ->
  sheet_changed f i (fun I => I ++ plain_rows (map rrow lst)) s s'.
Proof.
  unfold CVOracle.dump_info. unfold bind at 1. unfold call at 1. rewrite Hsheet.
  intros Hrun.
  apply (change_sheet_ok f i (fun _ I => I ++ plain_rows (map rrow lst))) in Hrun;
    [done|].
  intros wb s1. apply bind_ext. intros sheet s2. unfold bind at 1.
  by rewrite append_loop, (map_result_map K _ rrow).
Qed.

Lemma cvo_dump_summary_ok f sms s s' :
  CVOracle.dump_summary f w (map KS sms) s = (Ok tt, s') ->
  sheet_changed f ss (fun S => S ++ plain_rows (map srow sms)) s s'.
Proof.
  unfold CVOracle.dump_summary. unfold bind at 1. unfold call at 1. rewrite Hsheet.
  intros Hrun.
  apply (change_sheet_ok f ss (fun _ S => S ++ plain_rows (map srow sms))) in Hrun;
    [done|].
  intros wb s1. apply bind_ext. intros sheet s2. unfold bind at 1.
  by rewrite append_loop, (map_result_map KS _ srow).
Qed.

Lemma cvo_write_grand_total_ok f s s' :
  CVOracle.write_grand_total f w s = (Ok tt, s') ->
  sheet_changed f ss
    (fun S => ws_style_row set_bold 1 (S ++ plain_rows [gt (globals s)])) s s'.
Proof.
  unfold CVOracle.write_grand_total. intros Hrun.
  apply (change_sheet_ok f ss
           (fun g S => ws_style_row set_bold 1 (S ++ plain_rows [gt g]))) in Hrun;
    [done|].
  intros wb s1. unfold bind, get_globals. unfold call at 1. by rewrite Hgt.
Qed.
End CvoWriters.

Lemma cvo_format_workbook_ok f s s' :
  CVOracle.format_workbook f s = (Ok tt, s') ->
  (forall n ws, sheet_of s f n = Some ws ->
                sheet_of s' f n = Some (CVOracle.format_sheet ws)) /\
  config s' = config s /\ globals s' = globals s.
Proof. apply format_ok. Qed.

(** ** Loops over scopes *)

Section Report.
Context {G R Sm : Type}.
Context (f i ss : string) (rrow : R -> list pyval) (bump : G -> R -> G).

Lemma report_added_refl (s : state G) : report_added f i ss [] [] s s.
Proof. split; intros ws Hs; by rewrite app_nil_r. Qed.

Lemma report_added_trans (s1 s2 s3 : state G) i1 s1' i2 s2' :
  report_added f i ss i1 s1' s1 s2 -> report_added f i ss i2 s2' s2 s3 ->
  report_added f i ss (i1 ++ i2) (s1' ++ s2') s1 s3.
Proof.
  intros [Hi1 Hs1] [Hi2 Hs2]. split; intros ws Hs; rewrite app_assoc; auto.
Qed.

Lemma records_of_app (a b : list (Sm * list R)) :
  records_of (a ++ b) = records_of a ++ records_of b.
Proof. unfold records_of. by rewrite map_app, concat_app. Qed.

Section Loop.
Context {X A : Type} (ok : Sm -> list R -> Prop).
Context (SR : list (Sm * list R) -> worksheet).
Context (ACC : X -> list (Sm * list R) -> X).
Context (body : X -> A -> M G X).
Hypothesis SR_nil : SR [] = [].
Hypothesis SR_app : forall a b, SR (a ++ b) = SR a ++ SR b.
Hypothesis ACC_nil : forall x, ACC x [] = x.
Hypothesis ACC_app : forall x a b, ACC (ACC x a) b = ACC x (a ++ b).
Hypothesis Hbody : forall acc x s acc' s',
  body acc x s = (Ok acc', s') ->
  exists scopes, run_delta f i ss rrow bump ok SR scopes s s' /\ acc' = ACC acc scopes.

Lemma run_delta_refl s : run_delta f i ss rrow bump ok SR [] s s.
Proof.
  split; [constructor|]. split; [done|]. rewrite SR_nil. apply report_added_refl.
Qed.

Lemma run_delta_trans a b s1 s2 s3 :
  run_delta f i ss rrow bump ok SR a s1 s2 ->
  run_delta f i ss rrow bump ok SR b s2 s3 ->
  run_delta f i ss rrow bump ok SR (a ++ b) s1 s3.
Proof.
  intros (Hoa & Hga & Hra) (Hob & Hgb & Hrb).
  split; [by apply Forall_app|]. split.
  - by rewrite records_of_app, fold_left_app, <- Hga.
  - rewrite records_of_app, map_app, SR_app. unfold plain_rows.
    rewrite map_app. eapply report_added_trans; eauto.
Qed.

Lemma scopes_loop l acc s acc' s' :
  for_fold l acc body s = (Ok acc', s') ->
  exists scopes, run_delta f i ss rrow bump ok SR scopes s s' /\ acc' = ACC acc scopes.
Proof.
  intros Hrun.
  apply (for_fold_inv (fun _ acc1 s1 =>
           exists scopes, run_delta f i ss rrow bump ok SR scopes s s1 /\
                          acc1 = ACC acc scopes)) in Hrun; [done| |].
  - exists []. split; [apply run_delta_refl|]. by rewrite ACC_nil.
  - intros done x acc1 s1 acc2 s2 (sc1 & Hd1 & ->) Hb.
    apply Hbody in Hb as (sc2 & Hd2 & ->).
    exists (sc1 ++ sc2). split; [by eapply run_delta_trans|]. by rewrite ACC_app.
Qed.
End Loop.

(** The compartments of one region, when the summary is the region's. *)
Section RegionScope.
Context {A : Type} (add : Sm -> R -> Sm) (pre : Sm -> Sm).
Context (Summ : Sm -> list R -> Prop) (Prec : R -> Prop).
Context (comp_body : Sm -> A -> M G Sm).
Hypothesis Summ_pre : forall a l, Summ a l -> Summ (pre a) l.
Hypothesis Summ_add : forall a l r, Summ a l -> Summ (add a r) (l ++ [r]).
Hypothesis Hcomp : forall rs c s rs' s',
  comp_body rs c s = (Ok rs', s') ->
  exists recs,
    rs' = fold_left add recs (pre rs) /\ Forall Prec recs /\
    globals s' = fold_left bump recs (globals s) /\
    report_added f i ss (plain_rows (map rrow recs)) [] s s'.

Lemma Summ_fold recs : forall a l, Summ a l -> Summ (fold_left add recs a) (l ++ recs).
Proof.
  induction recs as [|r recs IH]; intros a l Ha; simpl.
  - by rewrite app_nil_r.
  - replace (l ++ r :: recs) with ((l ++ [r]) ++ recs) by (by rewrite <- app_assoc).
    apply IH. by apply Summ_add.
Qed.

Lemma comps_loop comps rs0 s rs s' :
  Summ rs0 [] ->
  for_fold comps rs0 comp_body s = (Ok rs, s') ->
  exists recs,
    Summ rs recs /\ Forall Prec recs /\
    globals s' = fold_left bump recs (globals s) /\
    report_added f i ss (plain_rows (map rrow recs)) [] s s'.
Proof.
  intros H0 Hrun.
  apply (for_fold_inv (fun _ rs1 s1 =>
           exists recs,
             Summ rs1 recs /\ Forall Prec recs /\
             globals s1 = fold_left bump recs (globals s) /\
             report_added f i ss (plain_rows (map rrow recs)) [] s s1)) in Hrun;
    [done| |].
  - exists []. repeat split; try done; intros ws Hs; by rewrite app_nil_r.
  - intros done c rs1 s1 rs2 s2 (recs1 & Hs1 & Hp1 & Hg1 & Hr1) Hb.
    apply Hcomp in Hb as (recs2 & -> & Hp2 & Hg2 & Hr2).
    exists (recs1 ++ recs2). split; [|split; [|split]].
    + apply Summ_fold. by apply Summ_pre.
    + by apply Forall_app.
    + by rewrite fold_left_app, <- Hg1.
    + unfold plain_rows. rewrite !map_app.
      change (@nil row) with (@nil row ++ @nil row).
      eapply report_added_trans; eauto.
Qed.
End RegionScope.
End Report.

(** ** Sums *)

Lemma Zsum_app l1 l2 : Zsum (l1 ++ l2) = Zsum l1 + Zsum l2.
Proof. induction l1 as [|x l1 IH]; simpl; [done|]. rewrite IH. lia. Qed.

Lemma Qsum_app l1 l2 : (Qsum (l1 ++ l2) == Qsum l1 + Qsum l2)%Q.
Proof.
  induction l1 as [|x l1 IH]; simpl.
  - by rewrite Qplus_0_l.
  - rewrite IH. by rewrite Qplus_assoc.
Qed.

Lemma or_zero_eq x : (or_zero x == x)%Q.
Proof.
  unfold or_zero, truthy. destruct (Qeq_bool x 0) eqn:H; simpl; [|reflexivity].
  apply Qeq_bool_iff in H. by rewrite H.
Qed.

Section Views.
Context {G Sm R : Type} (v : view G Sm R).

Lemma summary_grew_refl sm : summary_grew v sm sm [].
Proof.
  split; [simpl; lia|]. split; apply Forall_forall; intros c _; simpl.
  - lia.
  - by rewrite Qplus_0_r.
Qed.

Lemma summary_grew_add add sm sm' recs r :
  adds v add -> summary_grew v sm sm' recs ->
  summary_grew v sm (add sm' r) (recs ++ [r]).
Proof.
  intros (Ac & Ai & Aq) (Hc & Hi & Hq). split; [|split].
  - rewrite Ac, Hc, length_app. simpl. lia.
  - rewrite Forall_forall in *. intros c Hin.
    rewrite (Ai c Hin), (Hi c Hin), map_app, Zsum_app. simpl. lia.
  - rewrite Forall_forall in *. intros c Hin.
    rewrite (Aq c Hin), (Hq c Hin), map_app, Qsum_app. simpl.
    rewrite Qplus_0_r. by rewrite Qplus_assoc.
Qed.

Lemma summary_grew_fold add recs : forall sm sm' recs0,
  adds v add -> summary_grew v sm sm' recs0 ->
  summary_grew v sm (fold_left add recs sm') (recs0 ++ recs).
Proof.
  induction recs as [|r recs IH]; intros sm sm' recs0 Ha H; simpl.
  - by rewrite app_nil_r.
  - replace (recs0 ++ r :: recs) with ((recs0 ++ [r]) ++ recs)
      by (by rewrite <- app_assoc).
    apply IH; [done|]. by apply summary_grew_add.
Qed.

Lemma totals_grew_refl g : totals_grew v g g [].
Proof.
  split; [simpl; lia|]. split; apply Forall_forall; intros c _; simpl.
  - lia.
  - by rewrite Qplus_0_r.
Qed.

Lemma totals_grew_bump bump g g' recs r :
  bumps v bump -> totals_grew v g g' recs ->
  totals_grew v g (bump g' r) (recs ++ [r]).
Proof.
  intros (Ac & Ai & Aq) (Hc & Hi & Hq). split; [|split].
  - rewrite Ac, Hc, length_app. simpl. lia.
  - rewrite Forall_forall in *. intros c Hin.
    rewrite (Ai c Hin), (Hi c Hin), map_app, Zsum_app. simpl. lia.
  - rewrite Forall_forall in *. intros c Hin.
    rewrite (Aq c Hin), (Hq c Hin), map_app, Qsum_app. simpl.
    rewrite Qplus_0_r. by rewrite Qplus_assoc.
Qed.

Lemma totals_grew_fold bump recs : forall g g' recs0,
  bumps v bump -> totals_grew v g g' recs0 ->
  totals_grew v g (fold_left bump recs g') (recs0 ++ recs).
Proof.
  induction recs as [|r recs IH]; intros g g' recs0 Ha H; simpl.
  - by rewrite app_nil_r.
  - replace (recs0 ++ r :: recs) with ((recs0 ++ [r]) ++ recs)
      by (by rewrite <- app_assoc).
    apply IH; [done|]. by apply totals_grew_bump.
Qed.

(** A summary that grew from nothing is the sum of its records. *)
Lemma summary_is_sum_grew sm0 sm recs :
  (v_count v).2 sm0 = 0 ->
  Forall (fun c => c.1.2 sm0 = 0) (v_ints v) ->
  Forall (fun c => (c.1.2 sm0 == 0)%Q) (v_rats v) ->
  summary_grew v sm0 sm recs -> summary_is_sum v sm recs.
Proof.
  intros Zc Zi Zq (Hc & Hi & Hq). split; [|split].
  - rewrite Hc, Zc. lia.
  - rewrite Forall_forall in *. intros c Hin. rewrite (Hi c Hin), (Zi c Hin). lia.
  - rewrite Forall_forall in *. intros c Hin.
    rewrite (Hq c Hin), (Zq c Hin). by rewrite Qplus_0_l.
Qed.

End Views.

(** ** The six workloads *)

Ltac solve_adds :=
  repeat split; repeat constructor; intros; simpl; try lia; try reflexivity;
  rewrite ?or_zero_eq; reflexivity.

Lemma ocs_instance_adds : adds ocs_instance_view ocs_instance_add.
Proof. solve_adds. Qed.
Lemma ocs_instance_bumps : bumps ocs_instance_view ocs_instance_bump.
Proof. solve_adds. Qed.
Lemma ocs_bucket_adds : adds ocs_bucket_view ocs_bucket_add.
Proof. solve_adds. Qed.
Lemma ocs_bucket_bumps : bumps ocs_bucket_view ocs_bucket_bump.
Proof. solve_adds. Qed.
Lemma cvo_instance_adds : adds cvo_instance_view cvo_instance_add.
Proof. solve_adds. Qed.
Lemma cvo_instance_bumps : bumps cvo_instance_view cvo_instance_bump.
Proof. solve_adds. Qed.
Lemma cvo_bucket_adds : adds cvo_bucket_view cvo_bucket_add.
Proof. solve_adds. Qed.
Lemma cvo_bucket_bumps : bumps cvo_bucket_view cvo_bucket_bump.
Proof. solve_adds. Qed.
Lemma cvo_db_adds : adds cvo_db_view cvo_db_add.
Proof. solve_adds. Qed.
Lemma cvo_db_bumps : bumps cvo_db_view cvo_db_bump.
Proof. solve_adds. Qed.
Lemma cvo_cluster_adds : adds cvo_cluster_view cvo_cluster_add.
Proof. solve_adds. Qed.
Lemma cvo_cluster_bumps : bumps cvo_cluster_view cvo_cluster_bump.
Proof. solve_adds. Qed.

Lemma Forall2_filter_good {A R} (keep : A -> bool) (P : A -> R -> Prop)
    (Q : R -> Prop) l recs :
  (forall x r, keep x = true -> P x r -> Q r) ->
  Forall2 P (List.filter keep l) recs -> Forall Q recs.
Proof.
  intros H H2. eapply Forall2_Forall_r; [exact H2|].
  apply Forall_forall. intros x Hin r HP.
  apply list_elem_of_In, filter_In in Hin as [_ Hk]. eauto.
Qed.

Lemma ocs_instance_rel_good cloud region c cfg x r :
  not_terminated (inst_lifecycle_state x) = true ->
  ocs_instance_rel cloud region c cfg x r -> ocs_instance_good r.
Proof. intros Hk (boot & count & block & _ & _ & ->). by split. Qed.

Lemma ocs_bucket_rel_good cloud cl region ns c cfg x r :
  ocs_bucket_rel cloud cl region ns c cfg x r -> ocs_bucket_good r.
Proof. by intros (stats & _ & ->). Qed.

Lemma cvo_instance_rel_good cloud region c cfg x r :
  not_terminated (inst_lifecycle_state x) = true ->
  cvo_instance_rel cloud region c cfg x r -> cvo_instance_good r.
Proof. intros Hk (boot & blocks & _ & _ & ->). by split. Qed.

Lemma cvo_bucket_rel_good cloud cl region ns c cfg x r :
  cvo_bucket_rel cloud cl region ns c cfg x r -> cvo_bucket_good r.
Proof. by intros (stats & _ & ->). Qed.

Lemma cvo_db_rel_good region c cfg x r :
  not_terminated (db_lifecycle_state x) = true ->
  cvo_db_rel region c cfg x r -> cvo_db_good r.
Proof. intros Hk ->. by split. Qed.

Lemma cvo_cluster_info_good cloud region cfg x :
  cvo_cluster_good (cvo_cluster_info cloud region cfg x).
Proof.
  unfold cvo_cluster_good, cvo_cluster_info, CVOracle.kubectl_inventory,
    CVOracle.kubectl_nodes.
  repeat case_match; simpl; reflexivity.
Qed.

(** The loop over the resources of one scope, for each workload: it runs to
    its end, and what it leaves is fixed by the records it made. *)
Lemma cvo_instance_loop cloud region compartment l sm lst s :
  exists recs,
    Forall cvo_instance_good recs /\
    Forall2 (cvo_instance_rel cloud region compartment (config s))
      (List.filter (fun x => not_terminated (inst_lifecycle_state x)) l) recs /\
    for_fold l (sm, lst) (CVOracle.instance_step cloud region compartment) s =
      (Ok (fold_left cvo_instance_add recs sm, lst ++ recs),
       mkState (config s) (fs s) (fold_left cvo_instance_bump recs (globals s))).
Proof.
  destruct (collect (CVOracle.instance_step cloud region compartment)
              (fun x => not_terminated (inst_lifecycle_state x))
              (cvo_instance_rel cloud region compartment)
              cvo_instance_add cvo_instance_bump (fun m _ => m)
              (cvo_instance_step_skip cloud region compartment)
              (cvo_instance_step_keep cloud region compartment) l sm lst s)
    as (recs & Hrecs & Hrun).
  exists recs. rewrite fold_left_const in Hrun. split; [|by split].
  apply (Forall2_filter_good _ _ cvo_instance_good) in Hrecs; [done|].
  intros x r Hk Hr. by eapply cvo_instance_rel_good.
Qed.

Lemma scope_report {G} f i ss rows (s s1 s2 : state G) :
  i <> ss ->
  (is_Some (fs s1 !! f) -> fs s1 !! f = fs s !! f) ->
  sheet_changed f i (fun I => I ++ rows) s1 s2 ->
  report_added f i ss rows [] s s2.
Proof.
  intros Hne Hfs (I & HI & HI' & Ho & _).
  assert (Hsame : forall n, sheet_of s1 f n = sheet_of s f n).
  { intros n. unfold sheet_of in *. destruct (fs s1 !! f) eqn:H1; [|done].
    rewrite <- Hfs by eauto. done. }
  split; intros ws Hs.
  - rewrite <- Hsame, HI in Hs. by injection Hs as <-.
  - rewrite Ho by done. rewrite Hsame, Hs. by rewrite app_nil_r.
Qed.

Section CvoFinish.
Context {R Sm : Type} (w i ss : string) (ih sh : list string).
Context (KS : Sm -> CVOracle.summary) (srow : Sm -> list pyval).
Context (gt : CVOracle.globals -> list pyval).
Hypothesis Hsheet : CVOracle.get_sheet_info w = Ok (i, ss, ih, sh).
Hypothesis Hsrow : forall sm, CVOracle.summary_row w (KS sm) = Ok (srow sm).
Hypothesis Hgt : forall g, CVOracle.grand_total_row w g = Ok (ss, gt g).
Hypothesis Hne : i <> ss.

Lemma cvo_finish f sms s s' :
  (CVOracle.write_grand_total f w ;;;
   CVOracle.dump_summary f w (map KS sms) ;;;
   CVOracle.format_workbook f) s = (Ok tt, s') ->
  globals s' = globals s /\
  (forall I, sheet_of s f i = Some I ->
     sheet_of s' f i = Some (CVOracle.format_sheet I)) /\
  (forall S, sheet_of s f ss = Some S ->
     sheet_of s' f ss =
       Some (CVOracle.format_sheet
               (ws_style_row set_bold 1 (S ++ plain_rows [gt (globals s)])
                ++ plain_rows (map srow sms)))).
Proof.
  intros Hrun.
  apply bind_ok in Hrun as ([] & s1 & Hgtot & Hrun).
  apply bind_ok in Hrun as ([] & s2 & Hsum & Hrun).
  eapply cvo_write_grand_total_ok in Hgtot; [|exact Hgt].
  eapply cvo_dump_summary_ok in Hsum; [|exact Hsheet|exact Hsrow].
  apply cvo_format_workbook_ok in Hrun as (Hfmt & _ & Hg).
  split; [|split].
  - rewrite Hg, (sheet_changed_globals _ _ _ _ _ Hsum).
    apply (sheet_changed_globals _ _ _ _ _ Hgtot).
  - intros I HI. apply Hfmt.
    eapply sheet_changed_other; [exact Hsum|done|].
    eapply sheet_changed_other; [exact Hgtot|done|done].
  - intros S HS. apply Hfmt.
    eapply (sheet_changed_this _ _ _ _ _ _ Hsum).
    eapply (sheet_changed_this _ _ _ _ _ _ Hgtot). done.
Qed.
End CvoFinish.

(** Takes apart a statement about the fields of a concrete view. *)
Ltac open_view H :=
  unfold summary_grew, summary_is_sum, totals_grew, totals_grew_by_summaries in H;
  simpl in H; destruct H as (? & ? & ?);
  repeat match goal with
         | H' : Forall _ (_ :: _) |- _ => apply Forall_cons in H' as [? H']
         end.

Lemma cvo_get_instance_info_ok cloud f regions comps s s' :
  CVOracle.get_instance_info cloud f regions comps s = (Ok tt, s') ->
  exists scopes,
    region_report cvo_instance_view cvo_instance_good
      "Instance Info" "Instance Summary"
      CVOracle.instance_row CVOracle.instance_summary_row
      (fun g => [VStr "Total Instances"; VInt (CVOracle.total_instances g);
                 VInt (CVOracle.total_instance_sizeGB g);
                 VFloat (CVOracle.total_instance_sizeTB g)])
      f scopes s s'.
Proof.
  intros H. unfold CVOracle.get_instance_info in H.
  invert_front H rs cs Hrs Hcs.
  apply bind_ok in H as (lst & s1 & Hloop & H).
  apply (scopes_loop f "Instance Info" "Instance Summary" CVOracle.instance_row
           cvo_instance_bump
           (fun sm recs => summary_is_sum cvo_instance_view sm recs /\
                           Forall cvo_instance_good recs)
           (fun _ => []) (fun acc scopes => acc ++ map fst scopes)) in Hloop.
  - destruct Hloop as (scopes & (Hok & Hg & Hi & Hs) & ->). simpl in H.
    eapply cvo_finish in H; [|reflexivity|reflexivity|reflexivity|done].
    destruct H as (Hg' & HI & HS).
    exists scopes. split; [done|]. split; [|split].
    + rewrite Hg', Hg. rewrite <- (app_nil_l (records_of scopes)).
      apply totals_grew_fold; [apply cvo_instance_bumps|apply totals_grew_refl].
    + intros I HI0. apply HI. by apply Hi.
    + intros S HS0. rewrite Hg'. rewrite <- app_nil_r at 1.
      apply Hs in HS0. rewrite app_nil_r in HS0. rewrite app_nil_r.
      by apply HS.
  - done.
  - done.
  - intros x. by rewrite app_nil_r.
  - intros x a b. by rewrite <- app_assoc, map_app.
  - (* one region *)
    intros acc region t acc' t' Hb.
    apply bind_ok in Hb as ([] & t0 & Hset & Hb). injection Hset as <-.
    apply bind_ok in Hb as (client & t1 & Hc & Hb). injection Hc as <- <-.
    apply bind_ok in Hb as (rs1 & t1 & Hcomps & Hb). injection Hb as <- <-.
    apply (comps_loop f "Instance Info" "Instance Summary" CVOracle.instance_row
             cvo_instance_bump cvo_instance_add
             (fun a => CVOracle.mkInstanceSummary (Some region)
                         (CVOracle.instance_count a) (CVOracle.total_sizeGB a)
                         (CVOracle.total_sizeTB a))
             (fun sm recs => summary_grew cvo_instance_view
                               (CVOracle.mkInstanceSummary None 0 0 0) sm recs)
             cvo_instance_good) in Hcomps.
    + destruct Hcomps as (recs & Hsum & Hgood & Hg & Hr).
      exists [(rs1, recs)]. split; [|done]. split; [|split].
      * constructor; [|done]. split; [|done].
        eapply summary_is_sum_grew; [| | |exact Hsum]; simpl; repeat constructor.
      * unfold records_of. simpl. by rewrite app_nil_r.
      * unfold records_of. simpl. rewrite app_nil_r.
        destruct Hr as [Hr1 Hr2]. split; intros ws Hws; [apply Hr1|apply Hr2]; done.
    + intros a l Ha. open_view Ha. by repeat constructor.
    + intros a l r Ha. by apply summary_grew_add; [apply cvo_instance_adds|].
    + (* one compartment *)
      intros rs0 c u rs' u' Hb.
      apply bind_ok in Hb as (instances & u1 & Hlist & Hb).
      unfold call in Hlist. injection Hlist as Hlist <-.
      destruct (length instances =? 0)%nat.
      * injection Hb as <- <-. exists []. repeat split; try done;
          intros ws Hws; by rewrite app_nil_r.
      * apply bind_ok in Hb as ([rs2 lst2] & u1 & Hinner & Hb).
        destruct (cvo_instance_loop cloud region c instances
                    (CVOracle.mkInstanceSummary (Some region)
                       (CVOracle.instance_count rs0) (CVOracle.total_sizeGB rs0)
                       (CVOracle.total_sizeTB rs0)) [] u)
          as (recs & Hgood & _ & Hrun).
        rewrite Hrun in Hinner. injection Hinner as <- <- <-.
        apply bind_ok in Hb as ([] & u2 & Hdump & Hb). injection Hb as <- <-.
        eapply cvo_dump_info_ok in Hdump; [|reflexivity|reflexivity].
        exists recs. split; [done|]. split; [done|]. split.
        -- by rewrite (sheet_changed_globals _ _ _ _ _ Hdump).
        -- eapply scope_report; [done| |exact Hdump]. done.
    + apply summary_grew_refl.
Qed.

Lemma cvo_bucket_loop cloud cl region ns compartment l sm lst s :
  exists recs,
    Forall cvo_bucket_good recs /\
    Forall2 (cvo_bucket_rel cloud cl region ns compartment (config s))
      (List.filter (bucket_fetched cloud cl ns) l) recs /\
    for_fold l (sm, lst) (CVOracle.bucket_step cloud cl region ns compartment) s =
      (Ok (fold_left cvo_bucket_add recs sm, lst ++ recs),
       mkState (config s) (fs s) (fold_left cvo_bucket_bump recs (globals s))).
Proof.
  destruct (collect (CVOracle.bucket_step cloud cl region ns compartment)
              (bucket_fetched cloud cl ns)
              (cvo_bucket_rel cloud cl region ns compartment)
              cvo_bucket_add cvo_bucket_bump (fun m _ => m)
              (cvo_bucket_step_skip cloud cl region ns compartment)
              (cvo_bucket_step_keep cloud cl region ns compartment) l sm lst s)
    as (recs & Hrecs & Hrun).
  exists recs. rewrite fold_left_const in Hrun. split; [|by split].
  apply (Forall2_filter_good _ _ cvo_bucket_good) in Hrecs; [done|].
  intros x r Hk Hr. by eapply cvo_bucket_rel_good.
Qed.

Lemma cvo_db_loop region compartment l sm lst s :
  exists recs,
    Forall cvo_db_good recs /\
    Forall2 (cvo_db_rel region compartment (config s))
      (List.filter (fun x => not_terminated (db_lifecycle_state x)) l) recs /\
    for_fold l (sm, lst) (CVOracle.db_step region compartment) s =
      (Ok (fold_left cvo_db_add recs sm, lst ++ recs),
       mkState (config s) (fs s) (fold_left cvo_db_bump recs (globals s))).
Proof.
  destruct (collect (CVOracle.db_step region compartment)
              (fun x => not_terminated (db_lifecycle_state x))
              (cvo_db_rel region compartment)
              cvo_db_add cvo_db_bump (fun m _ => m)
              (cvo_db_step_skip region compartment)
              (cvo_db_step_keep region compartment) l sm lst s)
    as (recs & Hrecs & Hrun).
  exists recs. rewrite fold_left_const in Hrun. split; [|by split].
  apply (Forall2_filter_good _ _ cvo_db_good) in Hrecs; [done|].
  intros x r Hk Hr. by eapply cvo_db_rel_good.
Qed.

Lemma cvo_cluster_loop cloud region l sm lst s :
  exists recs,
    Forall cvo_cluster_good recs /\
    Forall2 (cvo_cluster_rel cloud region (config s))
      (List.filter (fun x => not_deleted (cl_lifecycle_state x)) l) recs /\
    for_fold l (sm, lst) (CVOracle.cluster_step cloud region) s =
      (Ok (fold_left cvo_cluster_add recs sm, lst ++ recs),
       mkState (config s)
         (fold_left (remove_kubeconfig cloud)
            (List.filter (fun x => not_deleted (cl_lifecycle_state x)) l) (fs s))
         (fold_left cvo_cluster_bump recs (globals s))).
Proof.
  destruct (collect (CVOracle.cluster_step cloud region)
              (fun x => not_deleted (cl_lifecycle_state x))
              (cvo_cluster_rel cloud region)
              cvo_cluster_add cvo_cluster_bump (remove_kubeconfig cloud)
              (cvo_cluster_step_skip cloud region)
              (cvo_cluster_step_keep cloud region) l sm lst s)
    as (recs & Hrecs & Hrun).
  exists recs. split; [|by split].
  apply (Forall2_filter_good _ _ cvo_cluster_good) in Hrecs; [done|].
  intros x r Hk ->. apply cvo_cluster_info_good.
Qed.

Lemma remove_kubeconfigs_lookup cloud l (m : gmap string file) p :
  fold_left (remove_kubeconfig cloud) l m !! p = m !! p \/
  fold_left (remove_kubeconfig cloud) l m !! p = None.
Proof.
  revert m. induction l as [|x l IH]; intros m; simpl; [by left|].
  destruct (IH (remove_kubeconfig cloud m x)) as [H|H]; [|by right].
  rewrite H. unfold remove_kubeconfig.
  destruct (decide (CVOracle.kubeconfig_path cloud x = p)) as [->|Hne].
  - right. apply lookup_delete_eq.
  - left. by apply lookup_delete_ne.
Qed.

Lemma ocs_instance_loop cloud region compartment l sm lst s :
  exists recs,
    Forall ocs_instance_good recs /\
    Forall2 (ocs_instance_rel cloud region compartment (config s))
      (List.filter (fun x => not_terminated (inst_lifecycle_state x)) l) recs /\
    for_fold l (sm, lst) (OciCs.instance_step cloud region compartment) s =
      (Ok (fold_left ocs_instance_add recs sm, lst ++ recs),
       mkState (config s) (fs s) (fold_left ocs_instance_bump recs (globals s))).
Proof.
  destruct (collect (OciCs.instance_step cloud region compartment)
              (fun x => not_terminated (inst_lifecycle_state x))
              (ocs_instance_rel cloud region compartment)
              ocs_instance_add ocs_instance_bump (fun m _ => m)
              (ocs_instance_step_skip cloud region compartment)
              (ocs_instance_step_keep cloud region compartment) l sm lst s)
    as (recs & Hrecs & Hrun).
  exists recs. rewrite fold_left_const in Hrun. split; [|by split].
  apply (Forall2_filter_good _ _ ocs_instance_good) in Hrecs; [done|].
  intros x r Hk Hr. by eapply ocs_instance_rel_good.
Qed.

Lemma ocs_bucket_loop cloud cl region ns compartment l sm lst s :
  exists recs,
    Forall ocs_bucket_good recs /\
    Forall2 (ocs_bucket_rel cloud cl region ns compartment (config s))
      (List.filter (bucket_fetched cloud cl ns) l) recs /\
    for_fold l (sm, lst) (OciCs.bucket_step cloud cl region ns compartment) s =
      (Ok (fold_left ocs_bucket_add recs sm, lst ++ recs),
       mkState (config s) (fs s) (fold_left ocs_bucket_bump recs (globals s))).
Proof.
  destruct (collect (OciCs.bucket_step cloud cl region ns compartment)
              (bucket_fetched cloud cl ns)
              (ocs_bucket_rel cloud cl region ns compartment)
              ocs_bucket_add ocs_bucket_bump (fun m _ => m)
              (ocs_bucket_step_skip cloud cl region ns compartment)
              (ocs_bucket_step_keep cloud cl region ns compartment) l sm lst s)
    as (recs & Hrecs & Hrun).
  exists recs. rewrite fold_left_const in Hrun. split; [|by split].
  apply (Forall2_filter_good _ _ ocs_bucket_good) in Hrecs; [done|].
  intros x r Hk Hr. by eapply ocs_bucket_rel_good.
Qed.

(** Closes a report of [CVOracleCloudSizingScript.py] once the region loop is
    characterised by [Hloop] and the writers by [H]. *)
Ltac cvo_close_report Hloop H bumps_lemma :=
  let scopes := fresh "scopes" in
  let Hok := fresh "Hok" in
  let Hg := fresh "Hg" in
  let Hi := fresh "Hi" in
  let Hs := fresh "Hs" in
  let Hg' := fresh "Hg'" in
  let HI := fresh "HI" in
  let HS := fresh "HS" in
  destruct Hloop as (scopes & (Hok & Hg & Hi & Hs) & ->); simpl in H;
  eapply cvo_finish in H; [|reflexivity|reflexivity|reflexivity|done];
  destruct H as (Hg' & HI & HS);
  exists scopes; split; [done|]; split; [|split];
  [ rewrite Hg', Hg; rewrite <- (app_nil_l (records_of scopes));
    apply totals_grew_fold; [apply bumps_lemma|apply totals_grew_refl]
  | let I := fresh "I" in let HI0 := fresh "HI0" in
    intros I HI0; apply HI; by apply Hi
  | let S := fresh "S" in let HS0 := fresh "HS0" in
    intros S HS0; rewrite Hg'; apply Hs in HS0; rewrite app_nil_r in HS0;
    by apply HS ].

Lemma cvo_get_object_storage_info_ok cloud f regions comps s s' :
  CVOracle.get_object_storage_info cloud f regions comps s = (Ok tt, s') ->
  exists scopes,
    region_report cvo_bucket_view cvo_bucket_good
      "Object Storage Info" "Object Storage Summary"
      CVOracle.bucket_row CVOracle.bucket_summary_row
      (fun g => [VStr "Total Buckets"; VInt (CVOracle.total_buckets g);
                 VFloat (CVOracle.total_storageGB g);
                 VFloat (CVOracle.total_storageTB g)])
      f scopes s s'.
Proof.
  intros H. unfold CVOracle.get_object_storage_info in H.
  invert_front H rs cs Hrs Hcs.
  apply bind_ok in H as (lst & s1 & Hloop & H).
  apply (scopes_loop f "Object Storage Info" "Object Storage Summary"
           CVOracle.bucket_row cvo_bucket_bump
           (fun sm recs => summary_is_sum cvo_bucket_view sm recs /\
                           Forall cvo_bucket_good recs)
           (fun _ => []) (fun acc scopes => acc ++ map fst scopes)) in Hloop.
  - cvo_close_report Hloop H cvo_bucket_bumps.
  - done.
  - done.
  - intros x. by rewrite app_nil_r.
  - intros x a b. by rewrite <- app_assoc, map_app.
  - (* one region *)
    intros acc region t acc' t' Hb.
    apply bind_ok in Hb as ([] & t0 & Hset & Hb). injection Hset as <-.
    apply bind_ok in Hb as (client & t1 & Hc & Hb). injection Hc as <- <-.
    apply bind_ok in Hb as (fetched & t1 & Hns & Hb).
    rewrite attempt_run in Hns. injection Hns as <- <-.
    destruct (get_namespace cloud _) as [ns|e].
    2:{ injection Hb as <- <-. exists []. split; [|by rewrite app_nil_r].
        split; [constructor|]. split; [done|].
        split; intros ws Hws; by rewrite app_nil_r. }
    apply bind_ok in Hb as (rs1 & t1 & Hcomps & Hb). injection Hb as <- <-.
    apply (comps_loop f "Object Storage Info" "Object Storage Summary"
             CVOracle.bucket_row cvo_bucket_bump cvo_bucket_add (fun a => a)
             (fun sm recs => summary_grew cvo_bucket_view
                               (CVOracle.mkObjectStorageSummary (Some region) None 0 0 0)
                               sm recs)
             cvo_bucket_good) in Hcomps.
    + destruct Hcomps as (recs & Hsum & Hgood & Hg & Hr).
      exists [(rs1, recs)]. split; [|done]. split; [|split].
      * constructor; [|done]. split; [|done].
        eapply summary_is_sum_grew; [| | |exact Hsum]; simpl; repeat constructor.
      * unfold records_of. simpl. by rewrite app_nil_r.
      * unfold records_of. simpl. rewrite app_nil_r.
        destruct Hr as [Hr1 Hr2]. split; intros ws Hws; [apply Hr1|apply Hr2]; done.
    + done.
    + intros a l r Ha. by apply summary_grew_add; [apply cvo_bucket_adds|].
    + (* one compartment *)
      intros rs0 c u rs' u' Hb.
      apply bind_ok in Hb as (fetched & u1 & Hlist & Hb).
      rewrite attempt_run in Hlist. injection Hlist as <- <-.
      destruct (list_buckets cloud _ ns c) as [buckets|e].
      2:{ injection Hb as <- <-. exists []. repeat split; try done;
            intros ws Hws; by rewrite app_nil_r. }
      destruct (length buckets =? 0)%nat.
      * injection Hb as <- <-. exists []. repeat split; try done;
          intros ws Hws; by rewrite app_nil_r.
      * apply bind_ok in Hb as ([rs2 lst2] & u1 & Hinner & Hb).
        destruct (cvo_bucket_loop cloud (<["region":=region]> (config t)) region ns c
                    buckets rs0 [] u)
          as (recs & Hgood & _ & Hrun).
        rewrite Hrun in Hinner. injection Hinner as <- <- <-.
        apply bind_ok in Hb as ([] & u2 & Hdump & Hb). injection Hb as <- <-.
        eapply cvo_dump_info_ok in Hdump; [|reflexivity|reflexivity].
        exists recs. split; [done|]. split; [done|]. split.
        -- by rewrite (sheet_changed_globals _ _ _ _ _ Hdump).
        -- eapply scope_report; [done| |exact Hdump]. done.
    + apply summary_grew_refl.
Qed.

Lemma cvo_get_database_info_ok cloud f regions comps s s' :
  CVOracle.get_database_info cloud f regions comps s = (Ok tt, s') ->
  exists scopes,
    region_report cvo_db_view cvo_db_good
      "DB System Info" "DB System Summary"
      CVOracle.db_row CVOracle.db_summary_row
      (fun g => [VStr "Total DB Systems"; VInt (CVOracle.total_db_systems g);
                 VInt (CVOracle.total_db_system_sizeGB g);
                 VFloat (CVOracle.total_db_system_sizeTB g)])
      f scopes s s'.
Proof.
  intros H. unfold CVOracle.get_database_info in H.
  invert_front H rs cs Hrs Hcs.
  apply bind_ok in H as (lst & s1 & Hloop & H).
  apply (scopes_loop f "DB System Info" "DB System Summary"
           CVOracle.db_row cvo_db_bump
           (fun sm recs => summary_is_sum cvo_db_view sm recs /\
                           Forall cvo_db_good recs)
           (fun _ => []) (fun acc scopes => acc ++ map fst scopes)) in Hloop.
  - cvo_close_report Hloop H cvo_db_bumps.
  - done.
  - done.
  - intros x. by rewrite app_nil_r.
  - intros x a b. by rewrite <- app_assoc, map_app.
  - (* one region *)
    intros acc region t acc' t' Hb.
    apply bind_ok in Hb as ([] & t0 & Hset & Hb). injection Hset as <-.
    apply bind_ok in Hb as (client & t1 & Hc & Hb). injection Hc as <- <-.
    apply bind_ok in Hb as (rs1 & t1 & Hcomps & Hb). injection Hb as <- <-.
    apply (comps_loop f "DB System Info" "DB System Summary"
             CVOracle.db_row cvo_db_bump cvo_db_add (fun a => a)
             (fun sm recs => summary_grew cvo_db_view
                               (CVOracle.mkDBSystemSummary (Some region) 0 0 0)
                               sm recs)
             cvo_db_good) in Hcomps.
    + destruct Hcomps as (recs & Hsum & Hgood & Hg & Hr).
      exists [(rs1, recs)]. split; [|done]. split; [|split].
      * constructor; [|done]. split; [|done].
        eapply summary_is_sum_grew; [| | |exact Hsum]; simpl; repeat constructor.
      * unfold records_of. simpl. by rewrite app_nil_r.
      * unfold records_of. simpl. rewrite app_nil_r.
        destruct Hr as [Hr1 Hr2]. split; intros ws Hws; [apply Hr1|apply Hr2]; done.
    + done.
    + intros a l r Ha. by apply summary_grew_add; [apply cvo_db_adds|].
    + (* one compartment *)
      intros rs0 c u rs' u' Hb.
      apply bind_ok in Hb as (fetched & u1 & Hlist & Hb).
      rewrite attempt_run in Hlist. injection Hlist as <- <-.
      destruct (list_db_systems cloud _ c) as [db_systems|e].
      2:{ injection Hb as <- <-. exists []. repeat split; try done;
            intros ws Hws; by rewrite app_nil_r. }
      destruct (length db_systems =? 0)%nat.
      * injection Hb as <- <-. exists []. repeat split; try done;
          intros ws Hws; by rewrite app_nil_r.
      * apply bind_ok in Hb as ([rs2 lst2] & u1 & Hinner & Hb).
        destruct (cvo_db_loop region c db_systems rs0 [] u)
          as (recs & Hgood & _ & Hrun).
        rewrite Hrun in Hinner. injection Hinner as <- <- <-.
        apply bind_ok in Hb as ([] & u2 & Hdump & Hb). injection Hb as <- <-.
        eapply cvo_dump_info_ok in Hdump; [|reflexivity|reflexivity].
        exists recs. split; [done|]. split; [done|]. split.
        -- by rewrite (sheet_changed_globals _ _ _ _ _ Hdump).
        -- eapply scope_report; [done| |exact Hdump]. done.
    + apply summary_grew_refl.
Qed.

Lemma cvo_get_oke_cluster_info_ok cloud f regions comps s s' :
  CVOracle.get_oke_cluster_info cloud f regions comps s = (Ok tt, s') ->
  exists scopes,
    region_report cvo_cluster_view cvo_cluster_good
      "OKE Cluster Info" "OKE Cluster Summary"
      CVOracle.cluster_row CVOracle.cluster_summary_row
      (fun g => [VStr "Total OKE Clusters"; VInt (CVOracle.total_oke_clusters g);
                 VInt (CVOracle.total_oke_node_count g);
                 VInt (CVOracle.total_oke_pvc_count g);
                 VInt (CVOracle.total_oke_pvc_size_gb g);
                 VFloat (CVOracle.total_oke_pvc_size_tb g)])
      f scopes s s'.
Proof.
  intros H. unfold CVOracle.get_oke_cluster_info in H.
  invert_front H rs cs Hrs Hcs.
  apply bind_ok in H as (lst & s1 & Hloop & H).
  apply (scopes_loop f "OKE Cluster Info" "OKE Cluster Summary"
           CVOracle.cluster_row cvo_cluster_bump
           (fun sm recs => summary_is_sum cvo_cluster_view sm recs /\
                           Forall cvo_cluster_good recs)
           (fun _ => []) (fun acc scopes => acc ++ map fst scopes)) in Hloop.
  - cvo_close_report Hloop H cvo_cluster_bumps.
  - done.
  - done.
  - intros x. by rewrite app_nil_r.
  - intros x a b. by rewrite <- app_assoc, map_app.
  - (* one region *)
    intros acc region t acc' t' Hb.
    apply bind_ok in Hb as ([] & t0 & Hset & Hb). injection Hset as <-.
    apply bind_ok in Hb as (client & t1 & Hc & Hb). injection Hc as <- <-.
    apply bind_ok in Hb as (rs1 & t1 & Hcomps & Hb). injection Hb as <- <-.
    apply (comps_loop f "OKE Cluster Info" "OKE Cluster Summary"
             CVOracle.cluster_row cvo_cluster_bump cvo_cluster_add (fun a => a)
             (fun sm recs => summary_grew cvo_cluster_view
                               (CVOracle.mkOKEClusterSummary (Some region) 0 0 0 0 0)
                               sm recs)
             cvo_cluster_good) in Hcomps.
    + destruct Hcomps as (recs & Hsum & Hgood & Hg & Hr).
      exists [(rs1, recs)]. split; [|done]. split; [|split].
      * constructor; [|done]. split; [|done].
        eapply summary_is_sum_grew; [| | |exact Hsum]; simpl; repeat constructor.
      * unfold records_of. simpl. by rewrite app_nil_r.
      * unfold records_of. simpl. rewrite app_nil_r.
        destruct Hr as [Hr1 Hr2]. split; intros ws Hws; [apply Hr1|apply Hr2]; done.
    + done.
    + intros a l r Ha. by apply summary_grew_add; [apply cvo_cluster_adds|].
    + (* one compartment *)
      intros rs0 c u rs' u' Hb.
      apply bind_ok in Hb as (fetched & u1 & Hlist & Hb).
      rewrite attempt_run in Hlist. injection Hlist as <- <-.
      destruct (list_clusters cloud _ c) as [clusters|e].
      2:{ injection Hb as <- <-. exists []. repeat split; try done;
            intros ws Hws; by rewrite app_nil_r. }
      apply bind_ok in Hb as ([rs2 lst2] & u1 & Hinner & Hb).
      destruct (cvo_cluster_loop cloud region clusters rs0 [] u)
        as (recs & Hgood & _ & Hrun).
      rewrite Hrun in Hinner. injection Hinner as <- <- <-.
      apply bind_ok in Hb as ([] & u2 & Hdump & Hb). injection Hb as <- <-.
      eapply cvo_dump_info_ok in Hdump; [|reflexivity|reflexivity].
      exists recs. split; [done|]. split; [done|]. split.
      * by rewrite (sheet_changed_globals _ _ _ _ _ Hdump).
      * eapply scope_report; [done| |exact Hdump]. simpl. intros Hsome.
        destruct (remove_kubeconfigs_lookup cloud
                    (List.filter (fun x => not_deleted (cl_lifecycle_state x)) clusters)
                    (fs u) f) as [Hl|Hl]; [done|].
        rewrite Hl in Hsome. by destruct Hsome.
    + apply summary_grew_refl.
Qed.

Lemma scope_report2 {G} f i ss irows srows (s s1 s2 s3 : state G) :
  i <> ss ->
  fs s1 = fs s ->
  sheet_changed f i (fun I => I ++ irows) s1 s2 ->
  sheet_changed f ss (fun S => S ++ srows) s2 s3 ->
  report_added f i ss irows srows s s3.
Proof.
  intros Hne Hfs (I & HI & HI' & Ho & _) (S & HS & HS' & Ho' & _).
  assert (Hsame : forall n, sheet_of s1 f n = sheet_of s f n).
  { intros n. unfold sheet_of. by rewrite Hfs. }
  split; intros ws Hs.
  - rewrite Ho' by done. rewrite <- Hsame, HI in Hs. by injection Hs as <-.
  - rewrite Ho in HS by done. rewrite Hsame, Hs in HS. by injection HS as <-.
Qed.

Section OcsFinish.
Context (w i ss : string).
Context (gt : OciCs.globals -> list pyval).
Hypothesis Hgt : forall g, OciCs.grand_total_row w g = Ok (ss, gt g).
Hypothesis Hne : i <> ss.

Lemma ocs_finish f s s' :
  (OciCs.write_grand_total f w ;;; OciCs.format_workbook f) s = (Ok tt, s') ->
  globals s' = globals s /\
  (forall I, sheet_of s f i = Some I ->
     sheet_of s' f i = Some (OciCs.format_sheet I)) /\
  (forall S, sheet_of s f ss = Some S ->
     sheet_of s' f ss =
       Some (OciCs.format_sheet (S ++ plain_rows [gt (globals s)]))).
Proof.
  intros Hrun.
  apply bind_ok in Hrun as ([] & s1 & Hgtot & Hrun).
  eapply ocs_write_grand_total_ok in Hgtot; [|exact Hgt].
  apply ocs_format_workbook_ok in Hrun as (Hfmt & _ & Hg).
  split; [|split].
  - rewrite Hg. apply (sheet_changed_globals _ _ _ _ _ Hgtot).
  - intros I HI. apply Hfmt.
    eapply sheet_changed_other; [exact Hgtot|done|done].
  - intros S HS. apply Hfmt.
    eapply (sheet_changed_this _ _ _ _ _ _ Hgtot). done.
Qed.
End OcsFinish.

(** Closes a report of [oci_cs.py], likewise. *)
Ltac ocs_close_report Hloop H bumps_lemma i :=
  let scopes := fresh "scopes" in
  let Hok := fresh "Hok" in
  let Hg := fresh "Hg" in
  let Hi := fresh "Hi" in
  let Hs := fresh "Hs" in
  let Hg' := fresh "Hg'" in
  let HI := fresh "HI" in
  let HS := fresh "HS" in
  destruct Hloop as (scopes & (Hok & Hg & Hi & Hs) & _);
  eapply (ocs_finish _ i) in H; [|reflexivity|done];
  destruct H as (Hg' & HI & HS);
  exists scopes; split; [done|]; split; [|split];
  [ rewrite Hg', Hg; rewrite <- (app_nil_l (records_of scopes));
    apply totals_grew_fold; [apply bumps_lemma|apply totals_grew_refl]
  | let I := fresh "I" in let HI0 := fresh "HI0" in
    intros I HI0; apply HI; by apply Hi
  | let S := fresh "S" in let HS0 := fresh "HS0" in
    intros S HS0; rewrite Hg'; apply Hs in HS0; rewrite app_assoc;
    by apply HS ].

Lemma ocs_get_instance_info_ok cloud f regions comps s s' :
  OciCs.get_instance_info cloud f regions comps s = (Ok tt, s') ->
  exists scopes,
    compartment_report ocs_instance_view ocs_instance_good
      "InstanceInfo" "InstanceSummary"
      OciCs.instance_row OciCs.instance_summary_row
      (fun g => [VStr "Grand Total"; VStr ""; VInt (OciCs.total_instances g);
                 VInt (OciCs.total_instance_sizeGB g);
                 VFloat (OciCs.total_instance_sizeTB g)])
      f scopes s s'.
Proof.
  intros H. unfold OciCs.get_instance_info in H.
  invert_front H rs cs Hrs Hcs.
  apply bind_ok in H as ([] & s1 & Hloop & H). unfold for_each in Hloop.
  apply (scopes_loop f "InstanceInfo" "InstanceSummary" OciCs.instance_row
           ocs_instance_bump
           (fun sm recs => summary_is_sum ocs_instance_view sm recs /\
                           Forall ocs_instance_good recs)
           (fun scopes => plain_rows (map OciCs.instance_summary_row (map fst scopes)))
           (fun _ _ => tt)) in Hloop.
  - ocs_close_report Hloop H ocs_instance_bumps "InstanceInfo".
  - done.
  - intros a b. unfold plain_rows. by rewrite !map_app.
  - by intros [].
  - done.
  - (* one region *)
    intros [] region t [] t' Hb.
    apply bind_ok in Hb as ([] & t0 & Hset & Hb). injection Hset as <-.
    apply bind_ok in Hb as (client & t1 & Hc & Hb). injection Hc as <- <-.
    unfold for_each in Hb.
    apply (scopes_loop f "InstanceInfo" "InstanceSummary" OciCs.instance_row
             ocs_instance_bump
             (fun sm recs => summary_is_sum ocs_instance_view sm recs /\
                             Forall ocs_instance_good recs)
             (fun scopes => plain_rows (map OciCs.instance_summary_row (map fst scopes)))
             (fun _ _ => tt)) in Hb.
    + destruct Hb as (scopes & (Hok & Hg & Hr1 & Hr2) & _).
      exists scopes. split; [|done]. split; [done|]. split; [done|].
      split; intros ws Hws; [apply Hr1|apply Hr2]; done.
    + done.
    + intros a b. unfold plain_rows. by rewrite !map_app.
    + by intros [].
    + done.
    + (* one compartment *)
      intros [] c u [] u' Hc2.
      apply bind_ok in Hc2 as (instances & u1 & Hlist & Hc2).
      unfold call in Hlist. injection Hlist as Hlist <-.
      destruct (length instances =? 0)%nat.
      * injection Hc2 as <-. exists []. split; [|done]. by apply run_delta_refl.
      * apply bind_ok in Hc2 as ([sm lst2] & u1 & Hinner & Hc2).
        destruct (ocs_instance_loop cloud region c instances
                    (OciCs.mkInstanceSummary (Some region) (Some c) 0 0 0) [] u)
          as (recs & Hgood & _ & Hrun).
        rewrite Hrun in Hinner. injection Hinner as <- <- <-.
        apply bind_ok in Hc2 as ([] & u2 & Hdump & Hc2).
        eapply ocs_dump_info_ok in Hdump; [|reflexivity|reflexivity].
        eapply ocs_dump_summary_ok in Hc2; [|reflexivity|reflexivity].
        exists [(fold_left ocs_instance_add recs
                    (OciCs.mkInstanceSummary (Some region) (Some c) 0 0 0), recs)]. split; [|done]. split; [|split].
        -- constructor; [|done]. split; [|done]. simpl.
           eapply summary_is_sum_grew; cycle 3.
           { eapply (summary_grew_fold _ _ recs _ _ []);
               [apply ocs_instance_adds|apply summary_grew_refl]. }
           all: simpl; repeat constructor.
        -- unfold records_of. simpl. rewrite app_nil_r.
           rewrite (sheet_changed_globals _ _ _ _ _ Hc2).
           by rewrite (sheet_changed_globals _ _ _ _ _ Hdump).
        -- unfold records_of. simpl. rewrite app_nil_r.
           eapply scope_report2; [done| |exact Hdump|exact Hc2]. done.
Qed.

Lemma ocs_get_object_storage_info_ok cloud f regions comps s s' :
  OciCs.get_object_storage_info cloud f regions comps s = (Ok tt, s') ->
  exists scopes,
    compartment_report ocs_bucket_view ocs_bucket_good
      "ObjectStorageInfo" "ObjectStorageSummary"
      OciCs.bucket_row OciCs.bucket_summary_row
      (fun g => [VStr "Grand Total"; VStr ""; VInt (OciCs.total_buckets g);
                 VFloat (OciCs.total_storageGB g);
                 VFloat (OciCs.total_storageTB g)])
      f scopes s s'.
Proof.
  intros H. unfold OciCs.get_object_storage_info in H.
  invert_front H rs cs Hrs Hcs.
  apply bind_ok in H as ([] & s1 & Hloop & H). unfold for_each in Hloop.
  apply (scopes_loop f "ObjectStorageInfo" "ObjectStorageSummary" OciCs.bucket_row
           ocs_bucket_bump
           (fun sm recs => summary_is_sum ocs_bucket_view sm recs /\
                           Forall ocs_bucket_good recs)
           (fun scopes => plain_rows (map OciCs.bucket_summary_row (map fst scopes)))
           (fun _ _ => tt)) in Hloop.
  - ocs_close_report Hloop H ocs_bucket_bumps "ObjectStorageInfo".
  - done.
  - intros a b. unfold plain_rows. by rewrite !map_app.
  - by intros [].
  - done.
  - (* one region *)
    intros [] region t [] t' Hb.
    apply bind_ok in Hb as ([] & t0 & Hset & Hb). injection Hset as <-.
    apply bind_ok in Hb as (client & t1 & Hc & Hb). injection Hc as <- <-.
    apply bind_ok in Hb as (fetched & t1 & Hns & Hb).
    rewrite attempt_run in Hns. injection Hns as <- <-.
    destruct (get_namespace cloud _) as [ns|e].
    2:{ injection Hb as <-. exists []. split; [|done].
        split; [constructor|]. split; [done|].
        split; intros ws Hws; by rewrite app_nil_r. }
    unfold for_each in Hb.
    apply (scopes_loop f "ObjectStorageInfo" "ObjectStorageSummary" OciCs.bucket_row
             ocs_bucket_bump
             (fun sm recs => summary_is_sum ocs_bucket_view sm recs /\
                             Forall ocs_bucket_good recs)
             (fun scopes => plain_rows (map OciCs.bucket_summary_row (map fst scopes)))
             (fun _ _ => tt)) in Hb.
    + destruct Hb as (scopes & (Hok & Hg & Hr1 & Hr2) & _).
      exists scopes. split; [|done]. split; [done|]. split; [done|].
      split; intros ws Hws; [apply Hr1|apply Hr2]; done.
    + done.
    + intros a b. unfold plain_rows. by rewrite !map_app.
    + by intros [].
    + done.
    + (* one compartment *)
      intros [] c u [] u' Hc2.
      apply bind_ok in Hc2 as (fetched & u1 & Hlist & Hc2).
      rewrite attempt_run in Hlist. injection Hlist as <- <-.
      destruct (list_buckets cloud _ ns c) as [buckets|e].
      2:{ injection Hc2 as <-. exists []. split; [|done]. by apply run_delta_refl. }
      destruct (length buckets =? 0)%nat.
      * injection Hc2 as <-. exists []. split; [|done]. by apply run_delta_refl.
      * apply bind_ok in Hc2 as ([sm lst2] & u1 & Hinner & Hc2).
        destruct (ocs_bucket_loop cloud (<["region":=region]> (config t)) region ns c
                    buckets
                    (OciCs.mkObjectStorageSummary (Some region) (Some ns) (Some c)
                       0 0 0) [] u)
          as (recs & Hgood & _ & Hrun).
        rewrite Hrun in Hinner. injection Hinner as <- <- <-.
        apply bind_ok in Hc2 as ([] & u2 & Hdump & Hc2).
        eapply ocs_dump_info_ok in Hdump; [|reflexivity|reflexivity].
        eapply ocs_dump_summary_ok in Hc2; [|reflexivity|reflexivity].
        exists [(fold_left ocs_bucket_add recs
                    (OciCs.mkObjectStorageSummary (Some region) (Some ns) (Some c)
                       0 0 0), recs)]. split; [|done]. split; [|split].
        -- constructor; [|done]. split; [|done]. simpl.
           eapply summary_is_sum_grew; cycle 3.
           { eapply (summary_grew_fold _ _ recs _ _ []);
               [apply ocs_bucket_adds|apply summary_grew_refl]. }
           all: simpl; repeat constructor.
        -- unfold records_of. simpl. rewrite app_nil_r.
           rewrite (sheet_changed_globals _ _ _ _ _ Hc2).
           by rewrite (sheet_changed_globals _ _ _ _ _ Hdump).
        -- unfold records_of. simpl. rewrite app_nil_r.
           eapply scope_report2; [done| |exact Hdump|exact Hc2]. done.
Qed.

(** * The claims *)

Lemma region_after_last (rs : list string) r (c : gmap string string) :
  last rs = Some r ->
  region_after rs c !! "region" = Some r /\
  forall k, k <> "region" -> region_after rs c !! k = c !! k.
Proof.
  intros Hl. unfold region_after. rewrite Hl. split.
  - apply lookup_insert_eq.
  - intros k Hk. by apply lookup_insert_ne.
Qed.

(** C10. Every enumeration function overwrites [config["region"]] on each
    region iteration: when it returns after going through a non-empty list of
    regions, the caller's [config] has ["region"] set to the last of them and
    every other entry as before. *)
Theorem C10_config_region_is_last (cloud : Cloud) :
  sets_last_region cloud (OciCs.get_instance_info cloud) /\
  sets_last_region cloud (OciCs.get_object_storage_info cloud) /\
  sets_last_region cloud (CVOracle.get_instance_info cloud) /\
  sets_last_region cloud (CVOracle.get_object_storage_info cloud) /\
  sets_last_region cloud (CVOracle.get_database_info cloud) /\
  sets_last_region cloud (CVOracle.get_oke_cluster_info cloud).
Proof.
  split_and!; intros f regions comps s s' rs r Hrun Hrs Hlast.
  all: first
    [ rewrite (ocs_get_instance_info_config _ _ _ _ _ _ _ Hrun Hrs)
    | rewrite (ocs_get_object_storage_info_config _ _ _ _ _ _ _ Hrun Hrs)
    | rewrite (cvo_get_instance_info_config _ _ _ _ _ _ _ Hrun Hrs)
    | rewrite (cvo_get_object_storage_info_config _ _ _ _ _ _ _ Hrun Hrs)
    | rewrite (cvo_get_database_info_config _ _ _ _ _ _ _ Hrun Hrs)
    | rewrite (cvo_get_oke_cluster_info_config _ _ _ _ _ _ _ Hrun Hrs) ].
  all: by apply region_after_last.
Qed.

Lemma C10_config_region_is_last_witness :
  let s' := (OciCs.get_object_storage_info demo_cloud "out.xlsx" [] ["c1"]
               (ocs_ready "object_storage")).2 in
  let t' := (CVOracle.get_instance_info demo_cloud "out.xlsx" ["r2"; "r1"] []
               (cvo_ready "instances")).2 in
  (config s' !! "region" = Some "r2" /\
   forall k, k <> "region" -> config s' !! k = demo_config !! k) /\
  (config t' !! "region" = Some "r1" /\
   forall k, k <> "region" -> config t' !! k = demo_config !! k).
Proof.
  intros s' t'.
  destruct (C10_config_region_is_last demo_cloud) as (_ & Hocs & Hcvo & _).
  split.
  - apply (Hocs "out.xlsx" [] ["c1"] (ocs_ready "object_storage") s' ["r1"; "r2"] "r2").
    + vm_compute. reflexivity.
    + reflexivity.
    + reflexivity.
  - apply (Hcvo "out.xlsx" ["r2"; "r1"] [] (cvo_ready "instances") t' ["r2"; "r1"] "r1").
    + vm_compute. reflexivity.
    + reflexivity.
    + reflexivity.
Defined.

(** C8. Initialising the workbook is idempotent: [init_excel] on a file that
    exists returns at once and leaves every file, with its header and its
    rows, as it was; and two calls in a row do what one does. *)
Theorem C8_init_excel_idempotent (f w : string)
    (s : state OciCs.globals) (t : state CVOracle.globals) :
  is_Some (fs s !! f) ->
  is_Some (fs t !! f) ->
  OciCs.init_excel f w s = (Ok tt, s) /\
  CVOracle.init_excel f w t = (Ok tt, t) /\
  (forall s0, (OciCs.init_excel f w ;;; OciCs.init_excel f w) s0
              = OciCs.init_excel f w s0) /\
  (forall t0, (CVOracle.init_excel f w ;;; CVOracle.init_excel f w) t0
              = CVOracle.init_excel f w t0).
Proof.
  intros Hs Ht. split_and!.
  - by apply ocs_init_excel_existing.
  - by apply cvo_init_excel_existing.
  - apply ocs_init_excel_twice.
  - apply cvo_init_excel_twice.
Qed.

Lemma C8_init_excel_idempotent_witness :
  let s := (OciCs.main demo_cloud "instances" "out.xlsx" [] [] ocs_start).2 in
  let t := (CVOracle.main demo_cloud "oke_clusters" "out.xlsx" [] [] cvo_start).2 in
  is_Some (fs s !! "out.xlsx") /\
  is_Some (fs t !! "out.xlsx") /\
  OciCs.init_excel "out.xlsx" "instances" s = (Ok tt, s) /\
  CVOracle.init_excel "out.xlsx" "oke_clusters" t = (Ok tt, t).
Proof.
  intros s t.
  assert (Hs : is_Some (fs s !! "out.xlsx")) by (vm_compute; eauto).
  assert (Ht : is_Some (fs t !! "out.xlsx")) by (vm_compute; eauto).
  destruct (C8_init_excel_idempotent "out.xlsx" "instances" s t Hs Ht) as (H1 & _).
  destruct (C8_init_excel_idempotent "out.xlsx" "oke_clusters" s t Hs Ht)
    as (_ & H2 & _).
  exact (conj Hs (conj Ht (conj H1 H2))).
Defined.

(** ** The kubeconfig and the file system *)

Section KeptOrRemoved.
Context {G : Type} (f : string).

#[global] Instance kept_or_removed_but_preorder : PreOrder (@kept_or_removed_but G f).
Proof.
  split.
  - intros s p _. by left.
  - intros s1 s2 s3 H12 H23 p Hp.
    destruct (H23 p Hp) as [H|H]; [rewrite H; by apply H12|by right].
Qed.

Lemma krb_config_set k v : preserves (kept_or_removed_but f) (config_set (G := G) k v).
Proof. intros s p _. by left. Qed.
Lemma krb_modify_globals g :
  preserves (kept_or_removed_but f) (modify_globals (G := G) g).
Proof. intros s p _. by left. Qed.
Lemma krb_save wb : preserves (kept_or_removed_but f) (save (G := G) wb f).
Proof. intros s p Hp. left. simpl. by rewrite lookup_insert_ne. Qed.
End KeptOrRemoved.

Lemma krb_cluster_step cloud f region acc x :
  preserves (kept_or_removed_but f) (CVOracle.cluster_step cloud region acc x).
Proof.
  intros s p Hp. destruct acc as [sm lst].
  destruct (not_deleted (cl_lifecycle_state x)) eqn:Hk.
  - destruct (cvo_cluster_step_keep cloud region sm lst x s Hk) as (r & _ & ->).
    simpl. unfold remove_kubeconfig.
    destruct (decide (CVOracle.kubeconfig_path cloud x = p)) as [->|Hne].
    + right. apply lookup_delete_eq.
    + left. by apply lookup_delete_ne.
  - rewrite cvo_cluster_step_skip by done. by left.
Qed.

#[export] Hint Resolve krb_config_set krb_modify_globals krb_save krb_cluster_step
  : frame.

Lemma krb_get_oke_cluster_info cloud f regions comps :
  preserves (kept_or_removed_but f)
    (CVOracle.get_oke_cluster_info cloud f regions comps).
Proof.
  unfold CVOracle.get_oke_cluster_info, resolve_regions, resolve_compartments,
    CVOracle.dump_info, CVOracle.dump_summary, CVOracle.write_grand_total,
    CVOracle.format_workbook.
  preserves_tac.
Qed.

(** C9. The kubeconfig written for an OKE cluster is removed by the [finally]
    clause whatever [oci] and [kubectl] answered: the inventory step of a
    cluster always returns, leaves no file at the cluster's kubeconfig path
    and leaves every other file alone. Hence a whole run, however it ends,
    leaves no file that was not there before, the workbook apart. *)
Theorem C9_kubeconfig_removed (cloud : Cloud) (region : string) (cluster : Cluster)
    (s : state CVOracle.globals) :
  (exists cluster_info s',
     CVOracle.cluster_inventory cloud region cluster s = (Ok cluster_info, s') /\
     fs s' !! CVOracle.kubeconfig_path cloud cluster = None /\
     forall p, p <> CVOracle.kubeconfig_path cloud cluster -> fs s' !! p = fs s !! p) /\
  (forall f regions comps p,
     p <> f ->
     let s' := (CVOracle.get_oke_cluster_info cloud f regions comps s).2 in
     fs s' !! p = fs s !! p \/ fs s' !! p = None).
Proof.
  split.
  - eexists _, _. split; [apply cvo_cluster_inventory_run|]. simpl.
    unfold remove_kubeconfig. split.
    + apply lookup_delete_eq.
    + intros p Hp. by apply lookup_delete_ne.
  - intros f regions comps p Hp s'.
    exact (krb_get_oke_cluster_info cloud f regions comps s p Hp).
Qed.


(** C7. A resource in its terminal lifecycle state ("TERMINATED" for
    instances and DB systems, "DELETED" for OKE clusters) is passed over at
    the head of the loop body: the loop does what it would do were the
    resource not listed, and the records it appends, sums and adds to the
    totals are those of the other resources, one each. A record carries its
    resource's lifecycle state, which is thus never the terminal one. *)
Theorem C7_terminal_resources_skipped (cloud : Cloud) (region compartment : string) :
  skips_dead (fun x => not_terminated (inst_lifecycle_state x))
    (ocs_instance_rel cloud region compartment) ocs_instance_add ocs_instance_bump
    (OciCs.instance_step cloud region compartment) /\
  skips_dead (fun x => not_terminated (inst_lifecycle_state x))
    (cvo_instance_rel cloud region compartment) cvo_instance_add cvo_instance_bump
    (CVOracle.instance_step cloud region compartment) /\
  skips_dead (fun x => not_terminated (db_lifecycle_state x))
    (cvo_db_rel region compartment) cvo_db_add cvo_db_bump
    (CVOracle.db_step region compartment) /\
  skips_dead (fun x => not_deleted (cl_lifecycle_state x))
    (cvo_cluster_rel cloud region) cvo_cluster_add cvo_cluster_bump
    (CVOracle.cluster_step cloud region) /\
  (forall cfg x r, ocs_instance_rel cloud region compartment cfg x r ->
                   OciCs.state r = inst_lifecycle_state x) /\
  (forall cfg x r, cvo_instance_rel cloud region compartment cfg x r ->
                   CVOracle.state r = inst_lifecycle_state x) /\
  (forall cfg x r, cvo_db_rel region compartment cfg x r ->
                   CVOracle.lifecycle_state r = db_lifecycle_state x).
Proof.
  split_and!.
  - intros l sm lst s. split.
    + apply for_fold_filter. apply ocs_instance_step_skip.
    + destruct (ocs_instance_loop cloud region compartment l sm lst s)
        as (recs & _ & Hrel & Hrun).
      eexists recs, _. split; [exact Hrel|]. split; [exact Hrun|done].
  - intros l sm lst s. split.
    + apply for_fold_filter. apply cvo_instance_step_skip.
    + destruct (cvo_instance_loop cloud region compartment l sm lst s)
        as (recs & _ & Hrel & Hrun).
      eexists recs, _. split; [exact Hrel|]. split; [exact Hrun|done].
  - intros l sm lst s. split.
    + apply for_fold_filter. apply cvo_db_step_skip.
    + destruct (cvo_db_loop region compartment l sm lst s)
        as (recs & _ & Hrel & Hrun).
      eexists recs, _. split; [exact Hrel|]. split; [exact Hrun|done].
  - intros l sm lst s. split.
    + apply for_fold_filter. apply cvo_cluster_step_skip.
    + destruct (cvo_cluster_loop cloud region l sm lst s)
        as (recs & _ & Hrel & Hrun).
      eexists recs, _. split; [exact Hrel|]. split; [exact Hrun|done].
  - by intros cfg x r (boot & count & block & _ & _ & ->).
  - by intros cfg x r (boot & blocks & _ & _ & ->).
  - by intros cfg x r ->.
Qed.





(** ** Rounding *)




Section TbRule.
Context {G Sm R : Type} (v : view G Sm R) (good : R -> Prop).
Context (gb tb : R -> Q) (stb : Sm -> Q) (ttb : G -> Q).
Hypothesis Hcol : (ttb, stb, tb) ∈ v_rats v.
Hypothesis Hgood : forall r, good r -> (tb r == py_round2 (gb r / 1024))%Q.


End TbRule.





(** ** The layout of the summary sheet *)

Lemma max_column_le ws n :
  (1 <= n)%nat -> Forall (fun r => (length r <= n)%nat) ws -> (max_column ws <= n)%nat.
Proof.
  intros Hn H. unfold max_column.
  assert ((fold_right Nat.max 0 (map (@length cell) ws) <= n)%nat); [|lia].
  induction H as [|r ws Hr _ IH]; simpl; lia.
Qed.

Lemma max_column_ge ws i r :
  ws !! i = Some r -> (length r <= max_column ws)%nat.
Proof.
  unfold max_column. revert i. induction ws as [|r' ws IH]; intros [|i] H; try done.
  - injection H as ->. simpl. lia.
  - simpl in *. specialize (IH _ H). lia.
Qed.

(** Styling a row that is as wide as the sheet creates no cell. *)
Lemma ws_style_row_widest f i ws r :
  ws !! i = Some r -> (1 <= length r)%nat ->
  Forall (fun r' => (length r' <= length r)%nat) ws ->
  ws_style_row f i ws = <[i := map f r]> ws.
Proof.
  intros Hi Hn Hall. unfold ws_style_row, worksheet, row in *. rewrite Hi.
  pose proof (max_column_le ws (length r) Hn Hall).
  pose proof (max_column_ge ws i r Hi).
  unfold pad_row. replace (max_column ws - length r)%nat with 0%nat by lia.
  simpl. by rewrite app_nil_r.
Qed.

Lemma plain_rows_width {Sm} (srow : Sm -> list pyval) n sums :
  (forall sm, length (srow sm) = n) ->
  Forall (fun r => (length r <= n)%nat) (plain_rows (map srow sums)).
Proof.
  intros H. unfold plain_rows. rewrite Forall_map, Forall_map.
  apply Forall_forall. intros sm _. rewrite length_map, H. lia.
Qed.

Lemma ocs_init_excel_fresh w i ss ih sh f (s : state OciCs.globals) :
  OciCs.get_sheet_info w = Ok (i, ss, ih, sh) -> i <> ss -> fs s !! f = None ->
  exists s1,
    OciCs.init_excel f w s = (Ok tt, s1) /\
    sheet_of s1 f i = Some [plain_row (map VStr ih)] /\
    sheet_of s1 f ss = Some [plain_row (map VStr sh)] /\
    globals s1 = globals s.
Proof.
  intros Hsheet Hne Hf.
  assert (Hneq : String.eqb i ss = false) by by apply String.eqb_neq.
  unfold OciCs.init_excel, bind, path_exists, call. rewrite Hsheet.
  rewrite bool_decide_eq_false_2 by (rewrite Hf; by intros [? ?]).
  simpl. repeat (progress (rewrite ?String.eqb_refl, ?Hneq; simpl)).
  eexists. split; [reflexivity|]. rewrite !sheet_of_saved. simpl.
  repeat (progress (rewrite ?String.eqb_refl, ?Hneq; simpl)). done.
Qed.

Lemma cvo_init_excel_fresh w i ss ih sh f (s : state CVOracle.globals) :
  CVOracle.get_sheet_info w = Ok (i, ss, ih, sh) -> i <> ss -> fs s !! f = None ->
  exists s1,
    CVOracle.init_excel f w s = (Ok tt, s1) /\
    sheet_of s1 f i = Some [plain_row (map VStr ih)] /\
    sheet_of s1 f ss = Some [plain_row (map VStr sh)] /\
    globals s1 = globals s.
Proof.
  intros Hsheet Hne Hf.
  assert (Hneq : String.eqb ss i = false) by (apply String.eqb_neq; congruence).
  unfold CVOracle.init_excel, bind, path_exists, call. rewrite Hsheet.
  rewrite bool_decide_eq_false_2 by (rewrite Hf; by intros [? ?]).
  simpl. repeat (progress (rewrite ?String.eqb_refl, ?Hneq; simpl)).
  eexists. split; [reflexivity|]. rewrite !sheet_of_saved. simpl.
  repeat (progress (rewrite ?String.eqb_refl, ?Hneq; simpl)). done.
Qed.

Lemma header_row_styled titles :
  map set_bold_fill (plain_row (map VStr titles)) = header_row titles.
Proof. unfold plain_row, header_row. by rewrite !map_map. Qed.

Lemma bold_row_styled values : map set_bold (plain_row values) = bold_row values.
Proof. unfold plain_row, bold_row. by rewrite map_map. Qed.

Lemma cvo_summary_layout {Sm} (titles : list string) (total : list pyval)
    (srow : Sm -> list pyval) sums :
  length total = length titles -> (1 <= length titles)%nat ->
  (forall sm, length (srow sm) = length titles) ->
  CVOracle.format_sheet
    (ws_style_row set_bold 1 ([plain_row (map VStr titles)] ++ plain_rows [total])
     ++ plain_rows (map srow sums)) =
  header_row titles :: bold_row total :: plain_rows (map srow sums).
Proof.
  intros Ht Hn Hs.
  rewrite (ws_style_row_widest set_bold 1 _ (plain_row total)).
  - simpl. rewrite bold_row_styled. unfold CVOracle.format_sheet.
    rewrite (ws_style_row_widest set_bold_fill 0 _ (plain_row (map VStr titles))).
    + simpl. by rewrite header_row_styled.
    + done.
    + unfold plain_row. rewrite !length_map. lia.
    + unfold plain_row, bold_row. rewrite !length_map.
      constructor; [rewrite !length_map; lia|].
      constructor; [rewrite !length_map; lia|].
      by apply plain_rows_width.
  - done.
  - unfold plain_row. rewrite length_map. lia.
  - unfold plain_row. simpl. rewrite !length_map.
    repeat constructor; rewrite !length_map; lia.
Qed.

Lemma ocs_summary_layout {Sm} (titles : list string) (total : list pyval)
    (srow : Sm -> list pyval) sums :
  (length total <= length titles)%nat -> (1 <= length titles)%nat ->
  (forall sm, length (srow sm) = length titles) ->
  OciCs.format_sheet
    ([plain_row (map VStr titles)] ++ plain_rows (map srow sums) ++ plain_rows [total]) =
  header_row titles :: plain_rows (map srow sums) ++ [plain_row total].
Proof.
  intros Ht Hn Hs. unfold OciCs.format_sheet.
  rewrite (ws_style_row_widest set_bold_fill 0 _ (plain_row (map VStr titles))).
  - simpl. by rewrite header_row_styled.
  - done.
  - unfold plain_row. rewrite !length_map. lia.
  - unfold plain_row. simpl. rewrite !length_map.
    constructor; [rewrite !length_map; lia|].
    apply Forall_app. split; [by apply plain_rows_width|].
    repeat constructor. rewrite length_map. lia.
Qed.

(** Inverts [main] on a workbook that does not exist yet: [init_excel] makes
    it, with the two header rows. *)
Ltac cvo_main_fresh Hrun Hf :=
  let s1 := fresh "s1" in
  let Hinit := fresh "Hinit" in
  let Hfresh := fresh "Hfresh" in
  match type of Hrun with
  | CVOracle.main ?cloud ?w ?f ?regions ?comps ?s = _ =>
      unfold CVOracle.main in Hrun;
      cbn [String.eqb Ascii.eqb Bool.eqb] in Hrun;
      apply bind_ok in Hrun as ([] & s1 & Hinit & Hrun);
      destruct (cvo_init_excel_fresh w _ _ _ _ f s eq_refl ltac:(done) Hf)
        as (? & Hfresh & _ & ? & _);
      rewrite Hfresh in Hinit; injection Hinit as <-
  end.

Ltac ocs_main_fresh Hrun Hf :=
  let s1 := fresh "s1" in
  let Hinit := fresh "Hinit" in
  let Hfresh := fresh "Hfresh" in
  match type of Hrun with
  | OciCs.main ?cloud ?w ?f ?regions ?comps ?s = _ =>
      unfold OciCs.main in Hrun;
      cbn [String.eqb Ascii.eqb Bool.eqb] in Hrun;
      apply bind_ok in Hrun as ([] & s1 & Hinit & Hrun);
      destruct (ocs_init_excel_fresh w _ _ _ _ f s eq_refl ltac:(done) Hf)
        as (? & Hfresh & _ & ? & _);
      rewrite Hfresh in Hinit; injection Hinit as <-
  end.

Ltac cvo_summary_sheet Hsum scopes :=
  exists (map fst scopes); erewrite Hsum by eassumption;
  f_equal; apply cvo_summary_layout; [done|simpl; lia|done].

Ltac ocs_summary_sheet Hsum scopes :=
  exists (map fst scopes); erewrite Hsum by eassumption;
  f_equal; apply ocs_summary_layout; [simpl; lia|simpl; lia|done].

(** C4, as the code has it. In [CVOracleCloudSizingScript.py] the grand-total
    row is appended to the summary sheet before the regions' summary rows are:
    in the workbook of a run it is row 2, right under the header, it is bold,
    and the summary rows follow it, not bold. In [oci_cs.py] the grand-total
    row is appended after all the summary rows, so it is the last row of the
    sheet, and it is not bold. *)
Theorem C4_grand_total_row (cloud : Cloud) :
  total_row_last_plain cloud "instances" "InstanceSummary"
    ["Region"; "Compartment ID"; "Instance Count"; "Total Size (GB)"; "Total Size (TB)"]
    OciCs.instance_summary_row ocs_instance_total /\
  total_row_last_plain cloud "object_storage" "ObjectStorageSummary"
    ["Namespace"; "Region"; "Compartment ID"; "Bucket Count"; "Total Size (GB)";
     "Total Size (TB)"]
    OciCs.bucket_summary_row ocs_bucket_total /\
  total_row_second cloud "instances" "Instance Summary"
    ["Region"; "Instance Count"; "Total Size (GB)"; "Total Size (TB)"]
    CVOracle.instance_summary_row cvo_instance_total /\
  total_row_second cloud "object_storage" "Object Storage Summary"
    ["Region"; "Bucket Count"; "Total Size (GB)"; "Total Size (TB)"]
    CVOracle.bucket_summary_row cvo_bucket_total /\
  total_row_second cloud "db_systems" "DB System Summary"
    ["Region"; "DB System Count"; "Total Storage (GB)"; "Total Storage (TB)"]
    CVOracle.db_summary_row cvo_db_total /\
  total_row_second cloud "oke_clusters" "OKE Cluster Summary"
    ["Region"; "Cluster Count"; "Total Node Count"; "Total PVC Count";
     "Total PVC Size (GB)"; "Total PVC Size (TB)"]
    CVOracle.cluster_summary_row cvo_cluster_total.
Proof.
  split_and!; intros f regions comps s s' Hf Hrun.
  - ocs_main_fresh Hrun Hf.
    apply ocs_get_instance_info_ok in Hrun as (scopes & _ & _ & _ & Hsum).
    ocs_summary_sheet Hsum scopes.
  - ocs_main_fresh Hrun Hf.
    apply ocs_get_object_storage_info_ok in Hrun as (scopes & _ & _ & _ & Hsum).
    ocs_summary_sheet Hsum scopes.
  - cvo_main_fresh Hrun Hf.
    apply cvo_get_instance_info_ok in Hrun as (scopes & _ & _ & _ & Hsum).
    cvo_summary_sheet Hsum scopes.
  - cvo_main_fresh Hrun Hf.
    apply cvo_get_object_storage_info_ok in Hrun as (scopes & _ & _ & _ & Hsum).
    cvo_summary_sheet Hsum scopes.
  - cvo_main_fresh Hrun Hf.
    apply cvo_get_database_info_ok in Hrun as (scopes & _ & _ & _ & Hsum).
    cvo_summary_sheet Hsum scopes.
  - cvo_main_fresh Hrun Hf.
    apply cvo_get_oke_cluster_info_ok in Hrun as (scopes & _ & _ & _ & Hsum).
    cvo_summary_sheet Hsum scopes.
Qed.

Lemma C4_grand_total_row_witness :
  let s' := (OciCs.main demo_cloud "instances" "out.xlsx" ["r1"] ["c1"] ocs_start).2 in
  let t' := (CVOracle.main demo_cloud "oke_clusters" "out.xlsx" ["r1"] ["c1"] cvo_start).2 in
  fs ocs_start !! "out.xlsx" = None /\
  OciCs.main demo_cloud "instances" "out.xlsx" ["r1"] ["c1"] ocs_start = (Ok tt, s') /\
  fs cvo_start !! "out.xlsx" = None /\
  CVOracle.main demo_cloud "oke_clusters" "out.xlsx" ["r1"] ["c1"] cvo_start = (Ok tt, t') /\
  (exists summaries,
     sheet_of s' "out.xlsx" "InstanceSummary" =
       Some (header_row ["Region"; "Compartment ID"; "Instance Count";
                         "Total Size (GB)"; "Total Size (TB)"]
               :: plain_rows (map OciCs.instance_summary_row summaries)
                  ++ [plain_row (ocs_instance_total (globals s'))])) /\
  (exists summaries,
     sheet_of t' "out.xlsx" "OKE Cluster Summary" =
       Some (header_row ["Region"; "Cluster Count"; "Total Node Count";
                         "Total PVC Count"; "Total PVC Size (GB)";
                         "Total PVC Size (TB)"]
               :: bold_row (cvo_cluster_total (globals t'))
               :: plain_rows (map CVOracle.cluster_summary_row summaries))).
Proof.
  intros s' t'.
  assert (Hf : fs ocs_start !! "out.xlsx" = None) by (vm_compute; reflexivity).
  assert (Hs : OciCs.main demo_cloud "instances" "out.xlsx" ["r1"] ["c1"] ocs_start
               = (Ok tt, s')) by (vm_compute; reflexivity).
  assert (Hg : fs cvo_start !! "out.xlsx" = None) by (vm_compute; reflexivity).
  assert (Ht : CVOracle.main demo_cloud "oke_clusters" "out.xlsx" ["r1"] ["c1"] cvo_start
               = (Ok tt, t')) by (vm_compute; reflexivity).
  destruct (C4_grand_total_row demo_cloud) as (Hocs & _ & _ & _ & _ & Hcvo).
  exact (conj Hf (conj Hs (conj Hg (conj Ht
           (conj (Hocs _ _ _ _ _ Hf Hs) (Hcvo _ _ _ _ _ Hg Ht)))))).
Defined.

(** C4, as the specification states it, fails in both scripts. In the
    workbook [CVOracleCloudSizingScript.py] writes for one region, the
    grand-total row is row 2 and the region's summary row comes after it, so
    the sheet does not end with the grand-total row. In the workbook
    [oci_cs.py] writes, the grand-total row is the last one, and it is not
    bold. *)
Lemma C4_counterexample :
  let s' := (CVOracle.main demo_cloud "instances" "out.xlsx" ["r1"] ["c1"] cvo_start).2 in
  let t' := (OciCs.main demo_cloud "instances" "out.xlsx" ["r1"] ["c1"] ocs_start).2 in
  CVOracle.main demo_cloud "instances" "out.xlsx" ["r1"] ["c1"] cvo_start = (Ok tt, s') /\
  sheet_values s' "out.xlsx" "Instance Summary" =
    Some [[VStr "Region"; VStr "Instance Count"; VStr "Total Size (GB)";
           VStr "Total Size (TB)"];
          [VStr "Total Instances"; VInt 2; VInt 1200; VFloat 1.1800];
          [VStr "r1"; VInt 2; VInt 1200; VFloat 1.1800]] /\
  sheet_bold s' "out.xlsx" "Instance Summary" = Some [true; true; false] /\
  ~ spec_total_row_trailing_bold s' "out.xlsx" "Instance Summary" "Total Instances" /\
  OciCs.main demo_cloud "instances" "out.xlsx" ["r1"] ["c1"] ocs_start = (Ok tt, t') /\
  sheet_values t' "out.xlsx" "InstanceSummary" =
    Some [[VStr "Region"; VStr "Compartment ID"; VStr "Instance Count";
           VStr "Total Size (GB)"; VStr "Total Size (TB)"];
          [VStr "r1"; VStr "c1"; VInt 2; VInt 1200; VFloat 1.1800];
          [VStr "Grand Total"; VStr ""; VInt 2; VInt 1200; VFloat 1.1800]] /\
  sheet_bold t' "out.xlsx" "InstanceSummary" = Some [true; false; false] /\
  ~ spec_total_row_trailing_bold t' "out.xlsx" "InstanceSummary" "Grand Total".
Proof.
  intros s' t'. split_and!.
  - vm_compute. reflexivity.
  - vm_compute. reflexivity.
  - vm_compute. reflexivity.
  - intros (rows & r & Hsheet & Hlabel & _).
    set (sh := sheet_of s' "out.xlsx" "Instance Summary") in Hsheet.
    vm_compute in sh. subst sh.
    destruct rows as [|? [|? [|? [|? ?]]]]; simplify_eq/=.
  - vm_compute. reflexivity.
  - vm_compute. reflexivity.
  - vm_compute. reflexivity.
  - intros (rows & r & Hsheet & _ & Hbold).
    set (sh := sheet_of t' "out.xlsx" "InstanceSummary") in Hsheet.
    vm_compute in sh. subst sh.
    destruct rows as [|? [|? [|? [|? ?]]]]; simplify_eq/=.
Qed.

(** ** Lookups that fail *)
















(** ** An enumeration that is refused *)

(** C6 does not hold of the code. [get_instance_info], in both scripts, calls
    [list_instances] inside the loops with no [try] around it, where the
    sibling functions guard their listing calls: when the call raises for a
    compartment, the exception leaves [get_instance_info]. No further scope
    is processed, no row is appended, the grand-total row is not written and
    the workbook is not formatted. *)
Theorem C6_list_instances_failure_is_fatal (cloud : Cloud) :
  list_failure_is_fatal cloud (OciCs.get_instance_info cloud) /\
  list_failure_is_fatal cloud (CVOracle.get_instance_info cloud).
Proof.
  split; intros f region regions compartment compartments [cfg files g] e H;
    simpl in H.
  - cbv beta iota delta [OciCs.get_instance_info for_each resolve_regions
                           resolve_compartments for_fold bind ret config_set
                           get_config call config fs globals].
    by rewrite H.
  - cbv beta iota delta [CVOracle.get_instance_info resolve_regions
                           resolve_compartments for_fold bind ret config_set
                           get_config call config fs globals].
    by rewrite H.
Qed.

Lemma C6_list_instances_failure_is_fatal_witness :
  let s := ocs_ready "instances" in
  list_instances cloud_denied (<["region" := "r1"]> (config s)) "c1" = Raise ServiceError /\
  OciCs.get_instance_info cloud_denied "out.xlsx" ["r1"] ["c1"; "c2"] s =
    (Raise ServiceError, mkState (<["region" := "r1"]> (config s)) (fs s) (globals s)).
Proof.
  intros s.
  assert (H : list_instances cloud_denied (<["region" := "r1"]> (config s)) "c1"
              = Raise ServiceError) by (vm_compute; reflexivity).
  destruct (C6_list_instances_failure_is_fatal cloud_denied) as (Hocs & _).
  exact (conj H (Hocs "out.xlsx" "r1" [] "c1" ["c2"] s ServiceError H)).
Defined.

(** A run that C6 promises and the code does not deliver. Listing the
    instances of [c1] is refused. Both scripts stop with the exception: the
    summary sheet is left with its header, unformatted, with no row for [c2],
    whose instance is never looked at, and no grand-total row. The same
    refusal for DB systems is survived: [c1] is skipped, [c2] is reported
    and the grand-total row is written. *)
Lemma C6_counterexample :
  let s' := (OciCs.main cloud_denied "instances" "out.xlsx" [] [] ocs_start).2 in
  let t' := (CVOracle.main cloud_denied "instances" "out.xlsx" [] [] cvo_start).2 in
  let u' := (CVOracle.main cloud_denied "db_systems" "out.xlsx" [] [] cvo_start).2 in
  list_instances cloud_denied (<["region" := "r1"]> demo_config) "c2" =
    Ok [toy_instance "i1" "RUNNING"] /\
  OciCs.main cloud_denied "instances" "out.xlsx" [] [] ocs_start =
    (Raise ServiceError, s') /\
  sheet_values s' "out.xlsx" "InstanceSummary" =
    Some [[VStr "Region"; VStr "Compartment ID"; VStr "Instance Count";
           VStr "Total Size (GB)"; VStr "Total Size (TB)"]] /\
  sheet_bold s' "out.xlsx" "InstanceSummary" = Some [false] /\
  CVOracle.main cloud_denied "instances" "out.xlsx" [] [] cvo_start =
    (Raise ServiceError, t') /\
  sheet_values t' "out.xlsx" "Instance Summary" =
    Some [[VStr "Region"; VStr "Instance Count"; VStr "Total Size (GB)";
           VStr "Total Size (TB)"]] /\
  sheet_bold t' "out.xlsx" "Instance Summary" = Some [false] /\
  CVOracle.main cloud_denied "db_systems" "out.xlsx" [] [] cvo_start = (Ok tt, u') /\
  sheet_values u' "out.xlsx" "DB System Summary" =
    Some [[VStr "Region"; VStr "DB System Count"; VStr "Total Storage (GB)";
           VStr "Total Storage (TB)"];
          [VStr "Total DB Systems"; VInt 1; VInt 256; VFloat 0.25];
          [VStr "r1"; VInt 1; VInt 256; VFloat 0.25]].
Proof.
  intros s' t' u'. split_and!; vm_compute; reflexivity.
Qed.

(** * More of the two scripts *)

(** ** The command line *)

Lemma py_split_pieces_free sep s :
  free_of sep s = true -> py_split_pieces sep s = (s, []).
Proof.
  induction s as [|c s IH]; simpl; [done|].
  intros [Hc Hs]%andb_prop. rewrite (IH Hs).
  apply negb_true_iff in Hc. by rewrite Hc.
Qed.

Lemma py_split_pieces_app sep a b :
  free_of sep a = true ->
  py_split_pieces sep (a +:+ String sep b) = (a, py_split sep b).
Proof.
  unfold py_split. induction a as [|c a IH]; simpl.
  - intros _. destruct (py_split_pieces sep b). by rewrite Ascii.eqb_refl.
  - intros [Hc Ha]%andb_prop. rewrite (IH Ha).
    apply negb_true_iff in Hc. by rewrite Hc.
Qed.

Lemma py_split_join sep s : String.concat (String sep EmptyString) (py_split sep s) = s.
Proof.
  unfold py_split. induction s as [|c s IH]; simpl; [done|].
  destruct (py_split_pieces sep s) as [piece pieces].
  destruct (Ascii.eqb c sep) eqn:Hc.
  - apply Ascii.eqb_eq in Hc as ->.
    change (String.concat (String sep "") ("" :: piece :: pieces))
      with (String sep (String.concat (String sep "") (piece :: pieces))).
    by rewrite IH.
  - destruct pieces as [|q qs]; [simpl in *; by f_equal|].
    change (String.concat (String sep "") (String c piece :: q :: qs))
      with (String c (String.concat (String sep "") (piece :: q :: qs))).
    by rewrite IH.
Qed.

Lemma py_split_free sep s : Forall (fun p => free_of sep p = true) (py_split sep s).
Proof.
  unfold py_split. induction s as [|c s IH]; simpl; [by repeat constructor|].
  destruct (py_split_pieces sep s) as [piece pieces].
  destruct (Ascii.eqb c sep) eqn:Hc.
  - by constructor.
  - inversion IH as [|? ? Hp Hps]; subst. constructor; [|done].
    simpl. by rewrite Hc, Hp.
Qed.

Lemma py_split_concat sep p ps :
  Forall (fun p => free_of sep p = true) (p :: ps) ->
  py_split sep (String.concat (String sep EmptyString) (p :: ps)) = p :: ps.
Proof.
  revert p. induction ps as [|q ps IH]; intros p Hfree.
  - inversion Hfree; subst. simpl. unfold py_split.
    by rewrite py_split_pieces_free.
  - inversion Hfree as [|? ? Hp Hps]; subst.
    change (String.concat (String sep "") (p :: q :: ps))
      with (p +:+ String sep (String.concat (String sep "") (q :: ps))).
    unfold py_split at 1. rewrite py_split_pieces_app by done. by rewrite IH.
Qed.

Lemma startswith_app p x : startswith (p +:+ x) p = true.
Proof.
  unfold startswith. induction p as [|c p IH]; simpl; [by destruct x|].
  by destruct (ascii_dec c c).
Qed.

Lemma startswith_inv s p : startswith s p = true -> exists x, s = p +:+ x.
Proof.
  unfold startswith. revert s. induction p as [|c p IH]; intros s; simpl.
  - intros _. by exists s.
  - destruct s as [|d s]; simpl; [done|].
    destruct (ascii_dec c d) as [->|]; [|done].
    intros [x ->]%IH. by exists x.
Qed.

Lemma py_split_cut sep a b :
  free_of sep a = true ->
  py_split sep (a +:+ String sep b) !! 1%nat = Some (py_split_pieces sep b).1.
Proof.
  intros Ha. unfold py_split at 1. rewrite py_split_pieces_app by done.
  unfold py_split. by destruct (py_split_pieces sep b).
Qed.

(** An argument with one of the four prefixes has a value: the index is in
    range. *)
Lemma arg_value_recognised arg :
  recognised arg = true -> is_Some (arg_value arg).
Proof.
  unfold recognised, arg_value. intros H.
  repeat apply orb_prop in H as [H|H];
    apply startswith_inv in H as [x ->].
  - change ("--profile=" +:+ x) with ("--profile" +:+ String "=" x).
    rewrite (py_split_cut "=" "--profile" x) by done. by eexists.
  - change ("--region=" +:+ x) with ("--region" +:+ String "=" x).
    rewrite (py_split_cut "=" "--region" x) by done. by eexists.
  - change ("--compartment=" +:+ x) with ("--compartment" +:+ String "=" x).
    rewrite (py_split_cut "=" "--compartment" x) by done. by eexists.
  - change ("--workload=" +:+ x) with ("--workload" +:+ String "=" x).
    rewrite (py_split_cut "=" "--workload" x) by done. by eexists.
Qed.

Lemma arg_step_recognised l arg :
  recognised arg = true ->
  arg_step l arg =
    Parsed (mkLocals
              (match given "--profile=" arg with Some v => Some v | None => l_profile_name l end)
              (match given "--region=" arg with
               | Some v => Some (py_split "," v) | None => l_regions l end)
              (match given "--compartment=" arg with
               | Some v => Some (py_split "," v) | None => l_compartments l end)
              (match given "--workload=" arg with Some v => Some v | None => l_workload l end)).
Proof.
  intros H. destruct (arg_value_recognised arg H) as [v Hv].
  unfold recognised in H. unfold arg_step, given. destruct l as [p r c w]. simpl.
  repeat apply orb_prop in H as [H|H]; pose proof H as H';
    apply startswith_inv in H' as [x ->]; rewrite Hv.
  - by rewrite H.
  - rewrite H. by replace (startswith ("--region=" +:+ x) "--profile=") with false.
  - rewrite H.
    replace (startswith ("--compartment=" +:+ x) "--profile=") with false by done.
    by replace (startswith ("--compartment=" +:+ x) "--region=") with false.
  - rewrite H.
    replace (startswith ("--workload=" +:+ x) "--profile=") with false by done.
    replace (startswith ("--workload=" +:+ x) "--region=") with false by done.
    by replace (startswith ("--workload=" +:+ x) "--compartment=") with false.
Qed.

Lemma arg_step_unrecognised l arg :
  recognised arg = false ->
  arg_step l arg = Exit (if String.eqb arg "--help" then 0 else 1).
Proof.
  unfold recognised, arg_step. intros H.
  apply orb_false_elim in H as [H H4]. apply orb_false_elim in H as [H H3].
  apply orb_false_elim in H as [H1 H2]. rewrite H1, H2, H3, H4.
  by destruct (String.eqb arg "--help").
Qed.

Lemma latest_cons prefix arg args :
  latest prefix (arg :: args) =
    match latest prefix args with Some v => Some v | None => given prefix arg end.
Proof.
  unfold latest.
  change (omap (given prefix) (arg :: args))
    with (match given prefix arg with
          | Some y => y :: omap (given prefix) args
          | None => omap (given prefix) args
          end).
  destruct (given prefix arg); [rewrite last_cons|]; by destruct (last _).
Qed.

Lemma parse_loop_recognised args l :
  Forall (fun arg => recognised arg = true) args ->
  parse_loop args l =
    Parsed (mkLocals
              (match latest "--profile=" args with
               | Some v => Some v | None => l_profile_name l end)
              (match latest "--region=" args with
               | Some v => Some (py_split "," v) | None => l_regions l end)
              (match latest "--compartment=" args with
               | Some v => Some (py_split "," v) | None => l_compartments l end)
              (match latest "--workload=" args with
               | Some v => Some v | None => l_workload l end)).
Proof.
  intros H. revert l. induction H as [|arg args Harg _ IH]; intros l.
  - by destruct l.
  - simpl. rewrite (arg_step_recognised l arg Harg), IH, !latest_cons. simpl.
    f_equal. f_equal.
    + destruct (latest "--profile=" args), (given "--profile=" arg); done.
    + destruct (latest "--region=" args), (given "--region=" arg); done.
    + destruct (latest "--compartment=" args), (given "--compartment=" arg); done.
    + destruct (latest "--workload=" args), (given "--workload=" arg); done.
Qed.

Lemma parse_loop_app pre rest l :
  Forall (fun arg => recognised arg = true) pre ->
  exists l', parse_loop (pre ++ rest) l = parse_loop rest l'.
Proof.
  intros H. revert l. induction H as [|arg args Harg _ IH]; intros l.
  - by exists l.
  - simpl. rewrite (arg_step_recognised l arg Harg). apply IH.
Qed.

(** X1. The loop over the command line stops at the first argument that has
    none of the four prefixes [--profile=], [--region=], [--compartment=],
    [--workload=]: the script exits with status 0 when that argument is
    [--help] and with status 1 otherwise, whatever comes after it and
    whatever was given before it. *)
Theorem parse_args_stops_at_unrecognised (pre post : list string) (a : string) :
  Forall (fun arg => recognised arg = true) pre ->
  recognised a = false ->
  parse_args (pre ++ a :: post) = Exit (if String.eqb a "--help" then 0 else 1).
Proof.
  intros Hpre Ha. unfold parse_args.
  destruct (parse_loop_app pre (a :: post) (mkLocals None None None None) Hpre)
    as [l' ->].
  simpl. by rewrite (arg_step_unrecognised l' a Ha).
Qed.

Lemma parse_args_stops_at_unrecognised_witness :
  Forall (fun arg => recognised arg = true) ["--workload=instances"] /\
  recognised "--verbose" = false /\
  parse_args (["--workload=instances"] ++ "--verbose" :: ["--help"]) =
    Exit (if String.eqb "--verbose" "--help" then 0 else 1).
Proof.
  assert (H1 : Forall (fun arg => recognised arg = true) ["--workload=instances"])
    by (repeat constructor).
  assert (H2 : recognised "--verbose" = false) by reflexivity.
  exact (conj H1 (conj H2
           (parse_args_stops_at_unrecognised ["--workload=instances"] ["--help"]
              "--verbose" H1 H2))).
Defined.

(** X2. When every argument has one of the four prefixes, each name gets the
    value of the last argument that gives it one. Without a [--workload=]
    argument the script exits with status 1; otherwise it goes on with that
    workload, with the profile [DEFAULT] when none is given, and with the
    comma-separated items of the last [--region=] and [--compartment=]
    values, or the empty list when there is none. *)
Theorem parse_args_latest (args : list string) :
  Forall (fun arg => recognised arg = true) args ->
  parse_args args =
    match latest "--workload=" args with
    | None => Exit 1
    | Some workload =>
        Parsed (mkArguments
                  (default "DEFAULT" (latest "--profile=" args))
                  (default [] (py_split "," <$> latest "--region=" args))
                  (default [] (py_split "," <$> latest "--compartment=" args))
                  workload)
    end.
Proof.
  intros H. unfold parse_args. rewrite (parse_loop_recognised args _ H). simpl.
  destruct (latest "--workload=" args); [|done].
  by destruct (latest "--profile=" args), (latest "--region=" args),
    (latest "--compartment=" args).
Qed.

Lemma parse_args_latest_witness :
  let args := ["--workload=instances"; "--region=r1,r2"; "--workload=db_systems";
               "--region=r3"] in
  Forall (fun arg => recognised arg = true) args /\
  parse_args args = Parsed (mkArguments "DEFAULT" ["r3"] [] "db_systems").
Proof.
  intros args.
  assert (H : Forall (fun arg => recognised arg = true) args) by (repeat constructor).
  exact (conj H (parse_args_latest args H)).
Defined.

Lemma arg_value_cut name v :
  free_of "=" name = true -> free_of "=" v = true ->
  arg_value (name +:+ "=" +:+ v) = Some v /\
  forall rest, arg_value (name +:+ "=" +:+ v +:+ "=" +:+ rest) = Some v.
Proof.
  intros Hname Hv. unfold arg_value. split; [|intros rest].
  - change (name +:+ "=" +:+ v) with (name +:+ String "=" v).
    rewrite py_split_cut by done. by rewrite py_split_pieces_free.
  - change (name +:+ "=" +:+ v +:+ "=" +:+ rest)
      with (name +:+ String "=" (v +:+ String "=" rest)).
    rewrite py_split_cut by done. by rewrite py_split_pieces_app.
Qed.

(** X3. The value of an argument is the text between its first and its second
    [=]: what follows a second [=] is dropped without a word. *)
Theorem arg_value_cut_at_equals (name v rest : string) :
  free_of "=" name = true ->
  free_of "=" v = true ->
  arg_value (name +:+ "=" +:+ v) = Some v /\
  arg_value (name +:+ "=" +:+ v +:+ "=" +:+ rest) = Some v /\
  parse_args ["--workload=" +:+ v +:+ "=" +:+ rest] =
    Parsed (mkArguments "DEFAULT" [] [] v).
Proof.
  intros Hname Hv.
  destruct (arg_value_cut name v Hname Hv) as [H1 H2].
  split_and!; [done|done|].
  destruct (arg_value_cut "--workload" v eq_refl Hv) as [_ Hw].
  specialize (Hw rest).
  change ("--workload" +:+ "=" +:+ v +:+ "=" +:+ rest)
    with ("--workload=" +:+ (v +:+ "=" +:+ rest)) in Hw.
  change ("--workload=" +:+ v +:+ "=" +:+ rest)
    with ("--workload=" +:+ (v +:+ "=" +:+ rest)).
  set (x := v +:+ "=" +:+ rest) in *.
  assert (Hrec : recognised ("--workload=" +:+ x) = true).
  { unfold recognised. rewrite (startswith_app "--workload=" x).
    by rewrite !orb_true_r. }
  assert (Hall : Forall (fun arg => recognised arg = true) ["--workload=" +:+ x])
    by (by repeat constructor).
  unfold parse_args. rewrite (parse_loop_recognised _ _ Hall).
  rewrite !latest_cons. unfold latest at 1 2 3 4. simpl last. unfold given.
  rewrite (startswith_app "--workload=" x), Hw.
  replace (startswith ("--workload=" +:+ x) "--profile=") with false by done.
  replace (startswith ("--workload=" +:+ x) "--region=") with false by done.
  by replace (startswith ("--workload=" +:+ x) "--compartment=") with false.
Qed.

Lemma arg_value_cut_at_equals_witness :
  free_of "=" "--profile" = true /\
  free_of "=" "prod" = true /\
  arg_value ("--profile" +:+ "=" +:+ "prod") = Some "prod" /\
  arg_value ("--profile" +:+ "=" +:+ "prod" +:+ "=" +:+ "eu") = Some "prod" /\
  parse_args ["--workload=" +:+ "prod" +:+ "=" +:+ "eu"] =
    Parsed (mkArguments "DEFAULT" [] [] "prod").
Proof.
  exact (conj eq_refl (conj eq_refl
           (arg_value_cut_at_equals "--profile" "prod" "eu" eq_refl eq_refl))).
Defined.

(** X4. Splitting on a separator and joining with it are inverse to each
    other: the pieces of [s.split(sep)], joined with [sep], give [s] back;
    no piece holds the separator; and a list of pieces without the separator
    is what splitting their join gives. There is always a piece: an empty
    [--region=] value is the list of one empty region name, not the empty
    list that stands for all subscribed regions. *)
Theorem py_split_join_inverse (sep : ascii) (s : string) :
  String.concat (String sep EmptyString) (py_split sep s) = s /\
  Forall (fun p => free_of sep p = true) (py_split sep s) /\
  py_split sep s <> [] /\
  py_split sep EmptyString = [EmptyString] /\
  (forall p ps,
     Forall (fun p => free_of sep p = true) (p :: ps) ->
     py_split sep (String.concat (String sep EmptyString) (p :: ps)) = p :: ps).
Proof.
  split_and!.
  - apply py_split_join.
  - apply py_split_free.
  - unfold py_split. by destruct (py_split_pieces sep s).
  - done.
  - apply py_split_concat.
Qed.

(** ** The workbook writers *)

(** X5. On a file that does not exist, [init_excel] makes a workbook of two
    sheets, each holding its header row and nothing else, unstyled, and
    touches nothing else: [oci_cs.py] puts the detail sheet first,
    [CVOracleCloudSizingScript.py] the summary sheet. For a workload it does
    not know it raises [ValueError] and makes no file. *)
Theorem init_excel_creates (f w : string)
    (s : state OciCs.globals) (t : state CVOracle.globals) :
  fs s !! f = None ->
  fs t !! f = None ->
  OciCs.init_excel f w s =
    match OciCs.get_sheet_info w with
    | Ok (info_sheet, summary_sheet, info_headers, summary_headers) =>
        (Ok tt,
         mkState (config s)
           (<[f := Xlsx [(info_sheet, [plain_row (map VStr info_headers)]);
                         (summary_sheet, [plain_row (map VStr summary_headers)])]]>
              (fs s))
           (globals s))
    | Raise e => (Raise e, s)
    end /\
  CVOracle.init_excel f w t =
    match CVOracle.get_sheet_info w with
    | Ok (info_sheet, summary_sheet, info_headers, summary_headers) =>
        (Ok tt,
         mkState (config t)
           (<[f := Xlsx [(summary_sheet, [plain_row (map VStr summary_headers)]);
                         (info_sheet, [plain_row (map VStr info_headers)])]]>
              (fs t))
           (globals t))
    | Raise e => (Raise e, t)
    end /\
  (OciCs.get_sheet_info w = Raise ValueError <->
     w <> "instances" /\ w <> "object_storage") /\
  (CVOracle.get_sheet_info w = Raise ValueError <->
     w <> "instances" /\ w <> "object_storage" /\ w <> "db_systems" /\
     w <> "oke_clusters").
Proof.
  intros Hs Ht. split_and!.
  - unfold OciCs.init_excel, bind, path_exists, call.
    rewrite bool_decide_eq_false_2 by (rewrite Hs; by intros [? ?]).
    unfold OciCs.get_sheet_info.
    destruct (String.eqb w "instances"); [reflexivity|].
    destruct (String.eqb w "object_storage"); reflexivity.
  - unfold CVOracle.init_excel, bind, path_exists, call.
    rewrite bool_decide_eq_false_2 by (rewrite Ht; by intros [? ?]).
    unfold CVOracle.get_sheet_info.
    destruct (String.eqb w "instances"); [reflexivity|].
    destruct (String.eqb w "object_storage"); [reflexivity|].
    destruct (String.eqb w "db_systems"); [reflexivity|].
    destruct (String.eqb w "oke_clusters"); reflexivity.
  - unfold OciCs.get_sheet_info.
    destruct (String.eqb w "instances") eqn:H1;
      [apply String.eqb_eq in H1; intuition congruence|apply String.eqb_neq in H1].
    destruct (String.eqb w "object_storage") eqn:H2;
      [apply String.eqb_eq in H2|apply String.eqb_neq in H2]; intuition congruence.
  - unfold CVOracle.get_sheet_info.
    destruct (String.eqb w "instances") eqn:H1;
      [apply String.eqb_eq in H1; intuition congruence|apply String.eqb_neq in H1].
    destruct (String.eqb w "object_storage") eqn:H2;
      [apply String.eqb_eq in H2; intuition congruence|apply String.eqb_neq in H2].
    destruct (String.eqb w "db_systems") eqn:H3;
      [apply String.eqb_eq in H3; intuition congruence|apply String.eqb_neq in H3].
    destruct (String.eqb w "oke_clusters") eqn:H4;
      [apply String.eqb_eq in H4|apply String.eqb_neq in H4]; intuition congruence.
Qed.

Lemma init_excel_creates_witness :
  fs ocs_start !! "out.xlsx" = None /\
  fs cvo_start !! "out.xlsx" = None /\
  OciCs.init_excel "out.xlsx" "object_storage" ocs_start =
    match OciCs.get_sheet_info "object_storage" with
    | Ok (info_sheet, summary_sheet, info_headers, summary_headers) =>
        (Ok tt,
         mkState (config ocs_start)
           (<["out.xlsx" :=
                Xlsx [(info_sheet, [plain_row (map VStr info_headers)]);
                      (summary_sheet, [plain_row (map VStr summary_headers)])]]>
              (fs ocs_start))
           (globals ocs_start))
    | Raise e => (Raise e, ocs_start)
    end.
Proof.
  assert (Hs : fs ocs_start !! "out.xlsx" = None) by (vm_compute; reflexivity).
  assert (Ht : fs cvo_start !! "out.xlsx" = None) by (vm_compute; reflexivity).
  exact (conj Hs (conj Ht
           (proj1 (init_excel_creates "out.xlsx" "object_storage"
                     ocs_start cvo_start Hs Ht)))).
Defined.

#[global] Instance unchanged_preorder {G} : PreOrder (@unchanged G).
Proof.
  split.
  - intros s. reflexivity.
  - intros s1 s2 s3 H12 H23. unfold unchanged in *. congruence.
Qed.

Lemma atomic_readonly {G A} (m : M G A) : preserves unchanged m -> atomic m.
Proof. intros Hm s e s' Hrun. specialize (Hm s). by rewrite Hrun in Hm. Qed.

Lemma atomic_bind {G A B} (m : M G A) (k : A -> M G B) :
  preserves unchanged m -> (forall a, atomic (k a)) -> atomic (bind m k).
Proof.
  intros Hm Hk s e s'. unfold bind. specialize (Hm s).
  destruct (m s) as [[a|e1] s1]; simpl in Hm; rewrite Hm.
  - apply Hk.
  - by intros [= _ <-].
Qed.

Lemma atomic_save {G} wb f : atomic (save (G := G) wb f).
Proof. by intros s e s'. Qed.

(** One step of a structural proof that a writer is atomic: it only reads
    until it saves. *)
Ltac atomic_step :=
  lazymatch goal with
  | |- atomic (bind _ _) => apply atomic_bind; [ preserves_tac | intros ]
  | |- atomic (save _ _) => apply atomic_save
  | |- atomic (match ?x with _ => _ end) => destruct x
  | |- atomic _ => apply atomic_readonly; preserves_tac
  end.

(** X6. A writer that raises has written nothing: [init_excel], [dump_info],
    [dump_summary], [write_grand_total] and [format_workbook] work on the
    workbook in memory and save it as their last statement, so when one of
    them raises (the file is missing or is no workbook, a sheet is missing,
    the workload is unknown, an object has not the attributes of the
    workload), the files, [config] and the totals are as they were. *)
Theorem writers_atomic (f w : string) :
  atomic (OciCs.init_excel f w) /\
  (forall objs, atomic (OciCs.dump_info f w objs)) /\
  (forall obj, atomic (OciCs.dump_summary f w obj)) /\
  atomic (OciCs.write_grand_total f w) /\
  atomic (OciCs.format_workbook f) /\
  atomic (CVOracle.init_excel f w) /\
  (forall objs, atomic (CVOracle.dump_info f w objs)) /\
  (forall objs, atomic (CVOracle.dump_summary f w objs)) /\
  atomic (CVOracle.write_grand_total f w) /\
  atomic (CVOracle.format_workbook f).
Proof.
  split_and!; intros.
  - unfold OciCs.init_excel. repeat atomic_step.
  - unfold OciCs.dump_info. repeat atomic_step.
  - unfold OciCs.dump_summary. repeat atomic_step.
  - unfold OciCs.write_grand_total. repeat atomic_step.
  - unfold OciCs.format_workbook. repeat atomic_step.
  - unfold CVOracle.init_excel. repeat atomic_step.
  - unfold CVOracle.dump_info. repeat atomic_step.
  - unfold CVOracle.dump_summary. repeat atomic_step.
  - unfold CVOracle.write_grand_total. repeat atomic_step.
  - unfold CVOracle.format_workbook. repeat atomic_step.
Qed.

Lemma set_bold_fill_idemp c : set_bold_fill (set_bold_fill c) = set_bold_fill c.
Proof. done. Qed.

Lemma pad_row_length w r : (length r <= w)%nat -> length (pad_row w r) = w.
Proof. intros H. unfold pad_row. rewrite length_app, length_replicate. lia. Qed.

Lemma pad_row_full w r : (w <= length r)%nat -> pad_row w r = r.
Proof.
  intros H. unfold pad_row. replace (w - length r)%nat with 0%nat by lia.
  apply app_nil_r.
Qed.

Lemma max_column_pos ws : (1 <= max_column ws)%nat.
Proof. unfold max_column. lia. Qed.

(** Styling the first row, once padded, keeps the sheet's width. *)
Lemma max_column_styled f r rest :
  max_column (map f (pad_row (max_column (r :: rest)) r) :: rest) =
  max_column (r :: rest).
Proof.
  pose proof (max_column_ge (r :: rest) 0 r eq_refl) as Hr.
  set (w := max_column (r :: rest)) in *.
  apply Nat.le_antisymm.
  - apply max_column_le; [apply max_column_pos|].
    constructor; [rewrite length_map, pad_row_length; lia|].
    apply Forall_forall. intros r' Hr'.
    apply list_elem_of_lookup in Hr' as [i Hi].
    apply (max_column_ge (r :: rest) (S i) r' Hi).
  - pose proof (max_column_ge (map f (pad_row w r) :: rest) 0 _ eq_refl) as H.
    rewrite length_map, pad_row_length in H; [done|lia].
Qed.

Lemma ws_style_row_idemp f ws :
  (forall c, f (f c) = f c) ->
  ws_style_row f 0 (ws_style_row f 0 ws) = ws_style_row f 0 ws.
Proof.
  intros Hf. destruct ws as [|r rest].
  - unfold ws_style_row. simpl. by rewrite Hf.
  - unfold ws_style_row at 2. simpl lookup. cbv iota. simpl insert.
    unfold ws_style_row. simpl lookup. cbv iota. simpl insert.
    rewrite max_column_styled.
    pose proof (max_column_ge (r :: rest) 0 r eq_refl) as Hr.
    rewrite (pad_row_full _ (map f _))
      by (rewrite length_map, pad_row_length; lia).
    f_equal. rewrite map_map. apply map_ext. intros c. apply Hf.
Qed.

Lemma format_twice {G} f (fmt : worksheet -> worksheet) (s : state G) :
  (forall ws, fmt (fmt ws) = fmt ws) ->
  ((let* wb := load_workbook f in
    save (map (fun '(t, ws) => (t, fmt ws)) wb) f) ;;;
   (let* wb := load_workbook f in
    save (map (fun '(t, ws) => (t, fmt ws)) wb) f)) s =
  (let* wb := load_workbook f in
   save (map (fun '(t, ws) => (t, fmt ws)) wb) f) s.
Proof.
  intros Hfmt. unfold bind, load_workbook, save.
  destruct (fs s !! f) as [[wb|]|] eqn:Hf; simpl; try done.
  rewrite lookup_insert_eq. simpl. f_equal. f_equal.
  rewrite insert_insert_eq. f_equal. f_equal.
  rewrite map_map. apply map_ext. intros [t ws]. by rewrite Hfmt.
Qed.

Lemma styled_header (ws : worksheet) (r : row) :
  ws !! 0%nat = Some r ->
  exists r',
    ws_style_row set_bold_fill 0 ws !! 0%nat = Some r' /\
    Forall (fun c => bold c = true /\ fill c = true) r' /\
    map value r' = map value r ++ replicate (max_column ws - length r) VNone.
Proof.
  intros Hr. unfold ws_style_row, worksheet, row in *. rewrite Hr.
  destruct ws as [|r0 rest]; [done|]. injection Hr as ->.
  eexists. split; [reflexivity|]. split.
  - apply Forall_forall. intros c Hc. apply list_elem_of_fmap in Hc as (c0 & -> & _).
    done.
  - rewrite map_map. unfold pad_row. rewrite map_app. f_equal.
    induction (max_column (r :: rest) - length r)%nat as [|n IH]; [done|].
    simpl. by rewrite <- IH.
Qed.

Lemma styled_below f (ws : worksheet) i :
  ws <> [] -> ws_style_row f 0 ws !! S i = ws !! S i.
Proof.
  intros Hne. destruct ws as [|r rest]; [done|].
  unfold ws_style_row. simpl lookup. cbv iota. reflexivity.
Qed.

(** X7. [format_workbook] only styles: in every sheet that has a row, the
    rows under the first are left as they are and the first row keeps its
    values, each of its cells made bold and filled, with empty cells added up
    to the sheet's last column. Formatting is idempotent: a second
    [format_workbook] changes nothing more. *)
Theorem format_workbook_idempotent (f : string) :
  (forall ws r, ws !! 0%nat = Some r ->
     exists r',
       OciCs.format_sheet ws !! 0%nat = Some r' /\
       Forall (fun c => bold c = true /\ fill c = true) r' /\
       map value r' = map value r ++ replicate (max_column ws - length r) VNone) /\
  (forall ws i, ws <> [] -> OciCs.format_sheet ws !! S i = ws !! S i) /\
  (forall ws, OciCs.format_sheet (OciCs.format_sheet ws) = OciCs.format_sheet ws) /\
  (forall s, (OciCs.format_workbook f ;;; OciCs.format_workbook f) s
             = OciCs.format_workbook f s) /\
  (forall ws r, ws !! 0%nat = Some r ->
     exists r',
       CVOracle.format_sheet ws !! 0%nat = Some r' /\
       Forall (fun c => bold c = true /\ fill c = true) r' /\
       map value r' = map value r ++ replicate (max_column ws - length r) VNone) /\
  (forall ws i, ws <> [] -> CVOracle.format_sheet ws !! S i = ws !! S i) /\
  (forall ws, CVOracle.format_sheet (CVOracle.format_sheet ws)
              = CVOracle.format_sheet ws) /\
  (forall t, (CVOracle.format_workbook f ;;; CVOracle.format_workbook f) t
             = CVOracle.format_workbook f t).
Proof.
  split_and!.
  - apply styled_header.
  - intros ws i. apply styled_below.
  - intros ws. apply ws_style_row_idemp, set_bold_fill_idemp.
  - intros s. apply format_twice. intros ws.
    apply ws_style_row_idemp, set_bold_fill_idemp.
  - apply styled_header.
  - intros ws i. apply styled_below.
  - intros ws. apply ws_style_row_idemp, set_bold_fill_idemp.
  - intros t. apply format_twice. intros ws.
    apply ws_style_row_idemp, set_bold_fill_idemp.
Qed.

(** ** Runs that no answer of the cloud stops *)

Section ReturnsKeeping.
Context {G : Type} (I : state G -> Prop).




End ReturnsKeeping.





Section OcsWritersRun.
Context {R Sm : Type} (w i ss : string) (ih sh : list string).
Context (K : R -> OciCs.info) (rrow : R -> list pyval).
Context (KS : Sm -> OciCs.summary) (srow : Sm -> list pyval).
Context (gt : OciCs.globals -> list pyval).
Hypothesis Hsheet : OciCs.get_sheet_info w = Ok (i, ss, ih, sh).
Hypothesis Hrow : forall r, OciCs.info_row w (K r) = Ok (rrow r).
Hypothesis Hsrow : forall sm, OciCs.summary_row w (KS sm) = Ok (srow sm).
Hypothesis Hgt : forall g, OciCs.grand_total_row w g = Ok (ss, gt g).



End OcsWritersRun.

Section CvoWritersRun.
Context {R Sm : Type} (w i ss : string) (ih sh : list string).
Context (K : R -> CVOracle.info) (rrow : R -> list pyval).
Context (KS : Sm -> CVOracle.summary) (srow : Sm -> list pyval).
Context (gt : CVOracle.globals -> list pyval).
Hypothesis Hsheet : CVOracle.get_sheet_info w = Ok (i, ss, ih, sh).
Hypothesis Hrow : forall r, CVOracle.info_row w (K r) = Ok (rrow r).
Hypothesis Hsrow : forall sm, CVOracle.summary_row w (KS sm) = Ok (srow sm).
Hypothesis Hgt : forall g, CVOracle.grand_total_row w g = Ok (ss, gt g).



End CvoWritersRun.



Section InnerLoops.
Context (cloud : Cloud) (f i ss : string).







End InnerLoops.







Lemma for_fold_ext {G A S} (body body' : S -> A -> M G S) l acc s :
  (forall acc x s, body acc x s = body' acc x s) ->
  for_fold l acc body s = for_fold l acc body' s.
Proof.
  intros H. revert acc s. induction l as [|x l IH]; intros acc s; [done|].
  simpl. unfold bind. rewrite H. destruct (body' acc x s) as [[a|e] s1]; [apply IH|done].
Qed.

Lemma bind_ext2 {G A B} (m m' : M G A) (k k' : A -> M G B) s :
  m s = m' s -> (forall a s1, k a s1 = k' a s1) -> bind m k s = bind m' k' s.
Proof.
  intros Hm Hk. unfold bind. rewrite Hm.
  destruct (m' s) as [[a|e] s1]; [apply Hk|done].
Qed.

(** X9. A compartment whose listing of buckets, or of DB systems, is refused
    is reported exactly as a compartment that has none: the run does what it
    would do had the listing answered with the empty list, so the refused
    scope adds no row and nothing to any total. *)
Theorem refused_listing_is_empty (cloud : Cloud) (f : string)
    (regions comps : list string)
    (s : state OciCs.globals) (t : state CVOracle.globals) :
  OciCs.get_object_storage_info cloud f regions comps s =
    OciCs.get_object_storage_info (forgiving cloud) f regions comps s /\
  CVOracle.get_object_storage_info cloud f regions comps t =
    CVOracle.get_object_storage_info (forgiving cloud) f regions comps t /\
  CVOracle.get_database_info cloud f regions comps t =
    CVOracle.get_database_info (forgiving cloud) f regions comps t.
Proof.
  split_and!.
  - unfold OciCs.get_object_storage_info.
    apply bind_ext. intros ic s1. apply bind_ext2; [done|]. intros rs s2.
    apply bind_ext2; [done|]. intros cs s3.
    apply bind_ext2; [|done]. unfold for_each.
    apply for_fold_ext. intros [] region u.
    apply bind_ext. intros [] u1. apply bind_ext. intros cl u2.
    apply bind_ext2; [done|]. intros [ns|] u3; [|done].
    apply for_fold_ext. intros [] compartment v.
    unfold bind at 1 3. rewrite !attempt_run. simpl.
    destruct (list_buckets cloud cl ns compartment) as [buckets|e]; done.
  - unfold CVOracle.get_object_storage_info.
    apply bind_ext. intros ic s1. apply bind_ext2; [done|]. intros rs s2.
    apply bind_ext2; [done|]. intros cs s3.
    apply bind_ext2; [|done].
    apply for_fold_ext. intros lst region u.
    apply bind_ext. intros [] u1. apply bind_ext. intros cl u2.
    apply bind_ext2; [done|]. intros [ns|] u3; [|done].
    apply bind_ext2; [|done].
    apply for_fold_ext. intros sm compartment v.
    unfold bind at 1 3. rewrite !attempt_run. simpl.
    destruct (list_buckets cloud cl ns compartment) as [buckets|e]; done.
  - unfold CVOracle.get_database_info.
    apply bind_ext. intros ic s1. apply bind_ext2; [done|]. intros rs s2.
    apply bind_ext2; [done|]. intros cs s3.
    apply bind_ext2; [|done].
    apply for_fold_ext. intros lst region u.
    apply bind_ext. intros [] u1. apply bind_ext. intros cl u2.
    apply bind_ext2; [|done].
    apply for_fold_ext. intros sm compartment v.
    unfold bind at 1 3. rewrite !attempt_run. simpl.
    destruct (list_db_systems cloud cl compartment) as [dbs|e]; done.
Qed.

(** ** Volumes *)

Lemma block_size_fold cloud cfg vs t :
  fold_left (fun total_size volume_id =>
               match get_volume cloud cfg volume_id with
               | Ok volume_info => total_size + vol_size_in_gbs volume_info
               | Raise _ => total_size
               end) vs t =
  t + Zsum (map vol_size_in_gbs (fetched_volumes cloud cfg vs)).
Proof.
  revert t. induction vs as [|v vs IH]; intros t; simpl; [lia|].
  rewrite IH. unfold fetched_volumes. simpl.
  destruct (get_volume cloud cfg v); simpl; lia.
Qed.

Lemma block_info_fold cloud cfg vs acc :
  fold_left (fun result volume_id =>
               match get_volume cloud cfg volume_id with
               | Ok volume_info =>
                   result ++ [(vol_display_name volume_info,
                               vol_size_in_gbs volume_info)]
               | Raise _ => result
               end) vs acc =
  acc ++ map (fun volume_info =>
                (vol_display_name volume_info, vol_size_in_gbs volume_info))
          (fetched_volumes cloud cfg vs).
Proof.
  revert acc. induction vs as [|v vs IH]; intros acc; simpl; [by rewrite app_nil_r|].
  rewrite IH. unfold fetched_volumes. simpl.
  destruct (get_volume cloud cfg v); simpl; [by rewrite <- app_assoc|done].
Qed.

(** X10. The block-volume lookups never raise. When the attachments cannot be
    listed they answer with nothing. Otherwise [oci_cs.py] counts every
    attachment, also one whose volume could not be fetched, and adds up the
    sizes of the volumes it could fetch; [CVOracleCloudSizingScript.py]
    returns name and size of the volumes it could fetch, in order, so that a
    volume that could not be fetched is not counted there. *)
Theorem block_volumes_counted (cloud : Cloud) (cfg : client)
    (instance_id availability_domain compartment_id : string) :
  OciCs.get_block_volume_count_and_size cloud cfg instance_id availability_domain
    compartment_id =
    Ok (match list_volume_attachments cloud cfg instance_id availability_domain
                compartment_id with
        | Ok volume_ids =>
            (Z.of_nat (length volume_ids),
             Zsum (map vol_size_in_gbs (fetched_volumes cloud cfg volume_ids)))
        | Raise _ => (0, 0)
        end) /\
  CVOracle.get_block_volume_info cloud cfg instance_id availability_domain
    compartment_id =
    Ok (match list_volume_attachments cloud cfg instance_id availability_domain
                compartment_id with
        | Ok volume_ids =>
            map (fun volume_info =>
                   (vol_display_name volume_info, vol_size_in_gbs volume_info))
              (fetched_volumes cloud cfg volume_ids)
        | Raise _ => []
        end).
Proof.
  unfold OciCs.get_block_volume_count_and_size, CVOracle.get_block_volume_info.
  destruct (list_volume_attachments _ _ _ _ _) as [[|v vs]|e]; try done.
  split.
  - by rewrite block_size_fold.
  - by rewrite block_info_fold.
Qed.

(** ** Quantities of storage *)















(** ** The inventory of a cluster *)

Lemma map_result_raises {A B} (f : A -> result B) l x :
  x ∈ l -> is_ok (f x) = false -> is_ok (map_result f l) = false.
Proof.
  intros Hx Hf. induction Hx as [x l|x y l Hx IH]; simpl.
  - by destruct (f x).
  - specialize (IH Hf). destruct (f y); [|done]. by destruct (map_result f l).
Qed.

Lemma kubectl_inventory_aborts cloud kubeconfig_file info items names pvc :
  kubectl_get_pvc cloud kubeconfig_file = Ok (mkPvcData (Some items)) ->
  map_result CVOracle.pvc_full_name items = Ok names ->
  pvc ∈ items ->
  is_ok (CVOracle.pvc_size pvc) = false ->
  CVOracle.kubectl_inventory cloud kubeconfig_file info =
    CVOracle.set_pvc_names names
      (CVOracle.set_pvc_count
         (Z.of_nat (length (List.filter CVOracle.pvc_has_name items))) info).
Proof.
  intros Hpvc Hnames Hin Hsize. unfold CVOracle.kubectl_inventory.
  rewrite Hpvc. simpl. rewrite Hnames.
  pose proof (map_result_raises CVOracle.pvc_size items pvc Hin Hsize) as H.
  by destruct (map_result CVOracle.pvc_size items).
Qed.

(** X12. One claim whose size cannot be read spoils the inventory of its
    cluster. When the kubeconfig is made, [kubectl get pvc] answers and
    every claim has a name, but the size of some claim raises (a request in
    [Mi], say), the [try] block is left at that point: the cluster's record
    has the claims' count and names, a total size of 0 GB and 0 TB, and no
    node, whatever [kubectl get nodes] would have answered. *)
Theorem unreadable_claim_spoils_inventory (cloud : Cloud) (region : string)
    (cluster : Cluster) (s : state CVOracle.globals)
    (items : list Pvc) (names : list string) (pvc : Pvc) :
  let kubeconfig_file := CVOracle.kubeconfig_path cloud cluster in
  let profile := match config s !! "profile" with Some p => p | None => "DEFAULT" end in
  (create_kubeconfig cloud (cl_id cluster) kubeconfig_file region profile).2 = Ok tt ->
  kubectl_get_pvc cloud kubeconfig_file = Ok (mkPvcData (Some items)) ->
  map_result CVOracle.pvc_full_name items = Ok names ->
  pvc ∈ items ->
  is_ok (CVOracle.pvc_size pvc) = false ->
  exists s',
    CVOracle.cluster_inventory cloud region cluster s =
      (Ok (CVOracle.mkOKEClusterInfo region (cl_id cluster) (cl_name cluster)
             (cl_kubernetes_version cluster) 0 []
             (Z.of_nat (length (List.filter CVOracle.pvc_has_name items))) names
             0 0),
       s').
Proof.
  intros kubeconfig_file profile Hk Hpvc Hnames Hin Hsize.
  rewrite cvo_cluster_inventory_run. eexists. f_equal. f_equal.
  unfold cvo_cluster_info. fold profile. fold kubeconfig_file.
  destruct (create_kubeconfig _ _ _ _ _) as [written status]. simpl in Hk. subst status.
  by rewrite (kubectl_inventory_aborts cloud kubeconfig_file _ items names pvc).
Qed.

Lemma unreadable_claim_spoils_inventory_witness :
  let cluster := mkCluster "k1" "kube" "v1.29" "ACTIVE" in
  let items := [toy_pvc "data" "10Gi"; toy_pvc "logs" "500Mi"] in
  (create_kubeconfig cloud_mi "k1" (CVOracle.kubeconfig_path cloud_mi cluster)
     "r1" "DEFAULT").2 = Ok tt /\
  kubectl_get_pvc cloud_mi (CVOracle.kubeconfig_path cloud_mi cluster)
    = Ok (mkPvcData (Some items)) /\
  map_result CVOracle.pvc_full_name items = Ok ["default/data"; "default/logs"] /\
  toy_pvc "logs" "500Mi" ∈ items /\
  is_ok (CVOracle.pvc_size (toy_pvc "logs" "500Mi")) = false /\
  exists s',
    CVOracle.cluster_inventory cloud_mi "r1" cluster cvo_start =
      (Ok (CVOracle.mkOKEClusterInfo "r1" "k1" "kube" "v1.29" 0 []
             (Z.of_nat (length (List.filter CVOracle.pvc_has_name items)))
             ["default/data"; "default/logs"] 0 0),
       s').
Proof.
  intros cluster items.
  assert (H1 : (create_kubeconfig cloud_mi "k1"
                  (CVOracle.kubeconfig_path cloud_mi cluster) "r1" "DEFAULT").2
               = Ok tt) by reflexivity.
  assert (H2 : kubectl_get_pvc cloud_mi (CVOracle.kubeconfig_path cloud_mi cluster)
               = Ok (mkPvcData (Some items))) by reflexivity.
  assert (H3 : map_result CVOracle.pvc_full_name items
               = Ok ["default/data"; "default/logs"]) by reflexivity.
  assert (H4 : toy_pvc "logs" "500Mi" ∈ items)
    by (apply list_elem_of_further, list_elem_of_here).
  assert (H5 : is_ok (CVOracle.pvc_size (toy_pvc "logs" "500Mi")) = false)
    by reflexivity.
  exact (conj H1 (conj H2 (conj H3 (conj H4 (conj H5
           (unreadable_claim_spoils_inventory cloud_mi "r1" cluster cvo_start
              items _ _ H1 H2 H3 H4 H5)))))).
Defined.

(** ** Rounding *)






(** ** Scopes that cannot be resolved *)

Lemma resolve_regions_state {G} cloud c regions (s : state G) :
  (resolve_regions cloud c regions s).2 = s.
Proof.
  unfold resolve_regions. destruct regions; [|done].
  unfold bind, config_item, call. destruct (config s !! "tenancy"); [|done].
  by destruct (list_region_subscriptions cloud c s0).
Qed.

Lemma resolve_compartments_state {G} cloud c comps (s : state G) :
  (resolve_compartments cloud c comps s).2 = s.
Proof.
  unfold resolve_compartments. destruct comps; [|done].
  unfold bind, config_item, call. destruct (config s !! "tenancy"); [|done].
  by destruct (list_compartments cloud c s0).
Qed.

Lemma front_fails {G A} cloud regions comps
    (rest : list string -> list string -> M G A) s :
  ~ scopes_known cloud regions comps s ->
  exists e,
    (let* identity_client := get_config in
     let* regions := resolve_regions cloud identity_client regions in
     let* compartments := resolve_compartments cloud identity_client comps in
     rest regions compartments) s = (Raise e, s).
Proof.
  unfold scopes_known. intros Hno.
  unfold bind at 1. unfold get_config at 1. unfold bind at 1.
  pose proof (resolve_regions_state cloud (config s) regions s) as Hrs.
  destruct (resolve_regions cloud (config s) regions s) as [[rs|e] s1];
    simpl in Hrs; subst s1; [|by exists e].
  unfold bind at 1.
  pose proof (resolve_compartments_state cloud (config s) comps s) as Hcs.
  destruct (resolve_compartments cloud (config s) comps s) as [[cs|e] s1];
    simpl in Hcs; subst s1; [|by exists e].
  by destruct Hno.
Qed.

(** X14. Nothing is fatal only once the loops have started. When no region,
    or no compartment, is given and the identity service cannot list them
    ([config] has no tenancy, or the call is refused), every enumeration
    raises at once: no further call is made, no row is written, and the
    state is as it was. *)
Theorem unresolved_scopes_are_fatal (cloud : Cloud) :
  fails_unresolved cloud (OciCs.get_instance_info cloud) /\
  fails_unresolved cloud (OciCs.get_object_storage_info cloud) /\
  fails_unresolved cloud (CVOracle.get_instance_info cloud) /\
  fails_unresolved cloud (CVOracle.get_object_storage_info cloud) /\
  fails_unresolved cloud (CVOracle.get_database_info cloud) /\
  fails_unresolved cloud (CVOracle.get_oke_cluster_info cloud).
Proof.
  split_and!; intros f regions comps s Hno.
  - unfold OciCs.get_instance_info. by apply front_fails.
  - unfold OciCs.get_object_storage_info. by apply front_fails.
  - unfold CVOracle.get_instance_info. by apply front_fails.
  - unfold CVOracle.get_object_storage_info. by apply front_fails.
  - unfold CVOracle.get_database_info. by apply front_fails.
  - unfold CVOracle.get_oke_cluster_info. by apply front_fails.
Qed.

Lemma unresolved_scopes_are_fatal_witness :
  let s := mkState (∅ : gmap string string) ∅ CVOracle.globals0 in
  ~ scopes_known demo_cloud [] ["c1"] s /\
  exists e, CVOracle.get_database_info demo_cloud "out.xlsx" [] ["c1"] s = (Raise e, s).
Proof.
  intros s.
  assert (Hno : ~ scopes_known demo_cloud [] ["c1"] s) by (by intros [H _]).
  destruct (unresolved_scopes_are_fatal demo_cloud) as (_ & _ & _ & _ & Hdb & _).
  exact (conj Hno (Hdb "out.xlsx" [] ["c1"] s Hno)).
Defined.

Lemma map_result_length {A B} (f : A -> result B) l ys :
  map_result f l = Ok ys -> length ys = length l.
Proof.
  revert ys. induction l as [|x l IH]; intros ys; simpl.
  - by intros [= <-].
  - destruct (f x); [|done]. destruct (map_result f l) as [zs|]; [|done].
    intros [= <-]. simpl. by rewrite (IH zs).
Qed.

Lemma kubectl_nodes_fields cloud kubeconfig_file info :
  let r := CVOracle.kubectl_nodes cloud kubeconfig_file info in
  CVOracle.oke_node_count r = Z.of_nat (length (CVOracle.node_names r)) /\
  CVOracle.pvc_count r = CVOracle.pvc_count info /\
  CVOracle.pvc_names r = CVOracle.pvc_names info /\
  CVOracle.oke_region r = CVOracle.oke_region info /\
  CVOracle.cluster_id r = CVOracle.cluster_id info /\
  CVOracle.cluster_name r = CVOracle.cluster_name info /\
  CVOracle.kubernetes_version r = CVOracle.kubernetes_version info.
Proof.
  intros r. subst r. unfold CVOracle.kubectl_nodes.
  destruct (kubectl_get_nodes cloud kubeconfig_file) as [[[items|]]|]; simpl;
    try done.
  by destruct (map_result CVOracle.node_name items).
Qed.

(** X15. Whatever [oci] and [kubectl] answer, a cluster's record carries the
    cluster's region, id, name and version; its node count is the number of
    its node names; and once the claims' names are recorded, the claim count,
    which counts the claims with a non-empty name, is at most their
    number. *)
Theorem cluster_record_invariants (cloud : Cloud) (region : string)
    (cluster : Cluster) (s : state CVOracle.globals) :
  exists r s',
    CVOracle.cluster_inventory cloud region cluster s = (Ok r, s') /\
    CVOracle.oke_region r = region /\
    CVOracle.cluster_id r = cl_id cluster /\
    CVOracle.cluster_name r = cl_name cluster /\
    CVOracle.kubernetes_version r = cl_kubernetes_version cluster /\
    CVOracle.oke_node_count r = Z.of_nat (length (CVOracle.node_names r)) /\
    0 <= CVOracle.pvc_count r /\
    (CVOracle.pvc_names r <> [] ->
     CVOracle.pvc_count r <= Z.of_nat (length (CVOracle.pvc_names r))).
Proof.
  eexists _, _. split; [apply cvo_cluster_inventory_run|].
  unfold cvo_cluster_info.
  destruct (create_kubeconfig _ _ _ _ _) as [written [[]|e]]; [|by split_and!].
  unfold CVOracle.kubectl_inventory.
  destruct (kubectl_get_pvc _ _) as [[[items|]]|]; simpl; try (by split_and!).
  pose proof (List.filter_length_le CVOracle.pvc_has_name items) as Hlen.
  destruct (map_result CVOracle.pvc_full_name items) as [names|] eqn:Hnames;
    [|split_and!; simpl; try done; lia].
  apply map_result_length in Hnames.
  destruct (map_result CVOracle.pvc_size items) as [sizes|];
    [|split_and!; simpl; try done; lia].
  match goal with
  | |- context [CVOracle.kubectl_nodes ?c ?k ?i] =>
      destruct (kubectl_nodes_fields c k i) as (H1 & H2 & H3 & H4 & H5 & H6 & H7)
  end.
  rewrite H1, H2, H3, H4, H5, H6, H7. simpl. split_and!; try done; lia.
Qed.

(** ** One summary row for each region *)

Lemma cvo_db_add_region recs sm :
  CVOracle.dbs_region (fold_left cvo_db_add recs sm) = CVOracle.dbs_region sm.
Proof.
  revert sm. induction recs as [|r recs IH]; intros sm; [done|].
  simpl. by rewrite IH.
Qed.

Lemma cvo_instance_add_region recs sm :
  CVOracle.is_region (fold_left cvo_instance_add recs sm) = CVOracle.is_region sm.
Proof.
  revert sm. induction recs as [|r recs IH]; intros sm; [done|].
  simpl. by rewrite IH.
Qed.

Lemma cvo_bucket_add_region recs sm :
  CVOracle.oss_region (fold_left cvo_bucket_add recs sm) = CVOracle.oss_region sm.
Proof.
  revert sm. induction recs as [|r recs IH]; intros sm; [done|].
  simpl. by rewrite IH.
Qed.

Lemma cvo_cluster_add_region recs sm :
  CVOracle.okes_region (fold_left cvo_cluster_add recs sm) = CVOracle.okes_region sm.
Proof.
  revert sm. induction recs as [|r recs IH]; intros sm; [done|].
  simpl. by rewrite IH.
Qed.

Lemma concat_singletons {A B} (g : A -> B) (l : list A) :
  concat (map (fun x => [g x]) l) = map g l.
Proof. induction l as [|x l IH]; [done|]. simpl. by rewrite IH. Qed.

Lemma concat_filtered {A B} (p : A -> bool) (g : A -> B) (l : list A) :
  concat (map (fun x => if p x then [g x] else []) l) = map g (List.filter p l).
Proof.
  induction l as [|x l IH]; [done|]. simpl. rewrite IH. by destruct (p x).
Qed.

Section SummaryRows.
Context {G Sm : Type} (f ss : string) (region_of : Sm -> option string).

(** The compartments of one region: the summary's region is [o0] before the
    first compartment and [o1] after it, and the summary sheet is not
    touched. *)
Lemma comps_rows_loop {A} (comp_body : Sm -> A -> M G Sm) (o0 o1 : option string)
    comps rs0 (s : state G) rs s' :
  region_of rs0 = o0 ->
  (forall a c t a' t',
     comp_body a c t = (Ok a', t') ->
     region_of a = o0 \/ region_of a = o1 ->
     region_of a' = o1 /\ sheet_of t' f ss = sheet_of t f ss) ->
  for_fold comps rs0 comp_body s = (Ok rs, s') ->
  region_of rs = match comps with [] => o0 | _ => o1 end /\
  sheet_of s' f ss = sheet_of s f ss.
Proof.
  intros H0 Hstep Hrun.
  apply (for_fold_inv
           (fun done a st =>
              region_of a = match done with [] => o0 | _ => o1 end /\
              sheet_of st f ss = sheet_of s f ss)) in Hrun; [done|done|].
  intros done c a t a' t' [Ha Hs] Hb.
  apply Hstep in Hb as [Hr Hsh]; [|destruct done; auto].
  split; [|by rewrite Hsh].
  rewrite Hr. by destruct done.
Qed.

(** The regions: each one adds to the list the summaries that [row] tells,
    from [config] with its own name under [region]. *)
Lemma regions_rows_loop (rest : list Sm -> string -> M G (list Sm))
    (row : gmap string string -> string -> list (option string))
    l (s : state G) acc' s' :
  (forall acc region, preserves same_config (rest acc region)) ->
  (forall acc region t acc1 t1,
     rest acc region t = (Ok acc1, t1) ->
     (exists new, acc1 = acc ++ new /\ map region_of new = row (config t) region) /\
     sheet_of t1 f ss = sheet_of t f ss) ->
  for_fold l [] (fun acc region => config_set "region" region ;;; rest acc region) s
    = (Ok acc', s') ->
  map region_of acc' =
    concat (map (fun r => row (<["region" := r]> (config s)) r) l) /\
  sheet_of s' f ss = sheet_of s f ss.
Proof.
  intros Hcfg Hrest Hrun.
  apply (for_fold_inv
           (fun done acc st =>
              config st = region_after done (config s) /\
              map region_of acc =
                concat (map (fun r => row (<["region" := r]> (config s)) r) done) /\
              sheet_of st f ss = sheet_of s f ss)) in Hrun.
  - by destruct Hrun as (_ & ? & ?).
  - done.
  - intros done x acc1 s1 acc2 s2 (Hc & Hm & Hs) Hb.
    apply bind_ok in Hb as ([] & s0 & Hset & Hb). injection Hset as <-.
    pose proof (preserves_run same_config _ _ _ _ (Hcfg acc1 x) Hb) as Hsame.
    apply Hrest in Hb as [(new & -> & Hnew) Hsh]. simpl in Hnew.
    assert (Hins : <["region" := x]> (config s1) = <["region" := x]> (config s)).
    { rewrite Hc. unfold region_after.
      destruct (last done); [apply insert_insert_eq|done]. }
    split_and!.
    + unfold same_config in Hsame. rewrite Hsame. simpl.
      unfold region_after at 1. by rewrite last_snoc.
    + rewrite !map_app, concat_app, Hm, Hnew, Hins. simpl. by rewrite app_nil_r.
    + by rewrite Hsh.
Qed.
End SummaryRows.

Lemma cvo_instance_summary_rows cloud :
  summary_rows_by_region cloud "Instance Summary" CVOracle.instance_summary_row
    (fun g => [VStr "Total Instances"; VInt (CVOracle.total_instances g);
               VInt (CVOracle.total_instance_sizeGB g);
               VFloat (CVOracle.total_instance_sizeTB g)])
    CVOracle.is_region
    (fun _ rs cs => map (fun r => match cs with [] => None | _ => Some r end) rs)
    (CVOracle.get_instance_info cloud).
Proof.
  intros f regions comps s s' rs cs S Hr Hc H HS.
  unfold CVOracle.get_instance_info in H.
  invert_front H rs' cs' Hrs Hcs.
  rewrite Hr in Hrs. injection Hrs as <-. rewrite Hc in Hcs. injection Hcs as <-.
  apply bind_ok in H as (lst & s1 & Hloop & H).
  apply (regions_rows_loop f "Instance Summary" CVOracle.is_region _
           (fun _ r => [match cs with [] => None | _ => Some r end])) in Hloop.
  - destruct Hloop as [Hm Hs]. simpl in H.
    eapply cvo_finish in H; [|reflexivity|reflexivity|reflexivity|done].
    destruct H as (Hg & _ & Hsum).
    exists lst. split; [by rewrite Hm, concat_singletons|].
    rewrite Hg. apply Hsum. by rewrite Hs.
  - intros; preserves_tac.
  - intros acc region t acc1 t1 Hb.
    apply bind_ok in Hb as (client & t0 & Hc' & Hb). injection Hc' as <- <-.
    apply bind_ok in Hb as (rs1 & t0 & Hcomps & Hb). injection Hb as <- <-.
    apply (comps_rows_loop f "Instance Summary" CVOracle.is_region _
             None (Some region)) in Hcomps.
    + destruct Hcomps as [Hreg Hsh]. split; [|done].
      exists [rs1]. split; [done|]. simpl. by rewrite Hreg.
    + done.
    + intros a c u a' u' Hb _.
      apply bind_ok in Hb as (instances & u1 & Hlist & Hb).
      unfold call in Hlist. injection Hlist as Hlist <-.
      destruct (length instances =? 0)%nat; [by injection Hb as <- <-|].
      apply bind_ok in Hb as ([rs2 lst2] & u1 & Hinner & Hb).
      destruct (cvo_instance_loop cloud region c instances
                  (CVOracle.mkInstanceSummary (Some region)
                     (CVOracle.instance_count a) (CVOracle.total_sizeGB a)
                     (CVOracle.total_sizeTB a)) [] u)
        as (recs & _ & _ & Hrun).
      rewrite Hrun in Hinner. injection Hinner as <- <- <-.
      apply bind_ok in Hb as ([] & u2 & Hdump & Hb). injection Hb as <- <-.
      eapply cvo_dump_info_ok in Hdump; [|reflexivity|reflexivity].
      split; [by rewrite cvo_instance_add_region|].
      destruct Hdump as (I & _ & _ & Ho & _). by rewrite Ho.
Qed.

Lemma cvo_bucket_summary_rows cloud :
  summary_rows_by_region cloud "Object Storage Summary" CVOracle.bucket_summary_row
    (fun g => [VStr "Total Buckets"; VInt (CVOracle.total_buckets g);
               VFloat (CVOracle.total_storageGB g);
               VFloat (CVOracle.total_storageTB g)])
    CVOracle.oss_region
    (fun cfg rs _ =>
       map Some
         (List.filter
            (fun r => is_ok (get_namespace cloud (<["region" := r]> cfg))) rs))
    (CVOracle.get_object_storage_info cloud).
Proof.
  intros f regions comps s s' rs cs S Hr Hc H HS.
  unfold CVOracle.get_object_storage_info in H.
  invert_front H rs' cs' Hrs Hcs.
  rewrite Hr in Hrs. injection Hrs as <-. rewrite Hc in Hcs. injection Hcs as <-.
  apply bind_ok in H as (lst & s1 & Hloop & H).
  apply (regions_rows_loop f "Object Storage Summary" CVOracle.oss_region _
           (fun cfg r => if is_ok (get_namespace cloud cfg) then [Some r] else []))
    in Hloop.
  - destruct Hloop as [Hm Hs]. simpl in H.
    eapply cvo_finish in H; [|reflexivity|reflexivity|reflexivity|done].
    destruct H as (Hg & _ & Hsum).
    exists lst. split.
    { rewrite Hm.
      apply (concat_filtered
               (fun r => is_ok (get_namespace cloud (<["region" := r]> (config s))))
               Some). }
    rewrite Hg. apply Hsum. by rewrite Hs.
  - intros; preserves_tac.
  - intros acc region t acc1 t1 Hb.
    apply bind_ok in Hb as (client & t0 & Hc' & Hb). injection Hc' as <- <-.
    apply bind_ok in Hb as (fetched & t0 & Hns & Hb).
    rewrite attempt_run in Hns. injection Hns as <- <-.
    destruct (get_namespace cloud (config t)) as [ns|e]; simpl.
    2:{ injection Hb as <- <-. split; [|done]. exists []. by rewrite app_nil_r. }
    apply bind_ok in Hb as (rs1 & t0 & Hcomps & Hb). injection Hb as <- <-.
    apply (comps_rows_loop f "Object Storage Summary" CVOracle.oss_region _
             (Some region) (Some region)) in Hcomps.
    + destruct Hcomps as [Hreg Hsh]. split; [|done].
      exists [rs1]. split; [done|]. simpl. rewrite Hreg. by destruct cs.
    + done.
    + intros a c u a' u' Hb Ha.
      assert (Ha' : CVOracle.oss_region a = Some region) by (by destruct Ha).
      apply bind_ok in Hb as (fetched & u1 & Hlist & Hb).
      rewrite attempt_run in Hlist. injection Hlist as <- <-.
      destruct (list_buckets cloud _ ns c) as [buckets|e];
        [|by injection Hb as <- <-].
      destruct (length buckets =? 0)%nat; [by injection Hb as <- <-|].
      apply bind_ok in Hb as ([rs2 lst2] & u1 & Hinner & Hb).
      destruct (cvo_bucket_loop cloud (config t) region ns c buckets a [] u)
        as (recs & _ & _ & Hrun).
      rewrite Hrun in Hinner. injection Hinner as <- <- <-.
      apply bind_ok in Hb as ([] & u2 & Hdump & Hb). injection Hb as <- <-.
      eapply cvo_dump_info_ok in Hdump; [|reflexivity|reflexivity].
      split; [by rewrite cvo_bucket_add_region|].
      destruct Hdump as (I & _ & _ & Ho & _). by rewrite Ho.
Qed.

Lemma cvo_db_summary_rows cloud :
  summary_rows_by_region cloud "DB System Summary" CVOracle.db_summary_row
    (fun g => [VStr "Total DB Systems"; VInt (CVOracle.total_db_systems g);
               VInt (CVOracle.total_db_system_sizeGB g);
               VFloat (CVOracle.total_db_system_sizeTB g)])
    CVOracle.dbs_region (fun _ rs _ => map Some rs)
    (CVOracle.get_database_info cloud).
Proof.
  intros f regions comps s s' rs cs S Hr Hc H HS.
  unfold CVOracle.get_database_info in H.
  invert_front H rs' cs' Hrs Hcs.
  rewrite Hr in Hrs. injection Hrs as <-. rewrite Hc in Hcs. injection Hcs as <-.
  apply bind_ok in H as (lst & s1 & Hloop & H).
  apply (regions_rows_loop f "DB System Summary" CVOracle.dbs_region _
           (fun _ r => [Some r])) in Hloop.
  - destruct Hloop as [Hm Hs]. simpl in H.
    eapply cvo_finish in H; [|reflexivity|reflexivity|reflexivity|done].
    destruct H as (Hg & _ & Hsum).
    exists lst. split; [by rewrite Hm, concat_singletons|].
    rewrite Hg. apply Hsum. by rewrite Hs.
  - intros; preserves_tac.
  - intros acc region t acc1 t1 Hb.
    apply bind_ok in Hb as (client & t0 & Hc' & Hb). injection Hc' as <- <-.
    apply bind_ok in Hb as (rs1 & t0 & Hcomps & Hb). injection Hb as <- <-.
    apply (comps_rows_loop f "DB System Summary" CVOracle.dbs_region _
             (Some region) (Some region)) in Hcomps.
    + destruct Hcomps as [Hreg Hsh]. split; [|done].
      exists [rs1]. split; [done|]. simpl. rewrite Hreg. by destruct cs.
    + done.
    + intros a c u a' u' Hb Ha.
      assert (Ha' : CVOracle.dbs_region a = Some region) by (by destruct Ha).
      apply bind_ok in Hb as (fetched & u1 & Hlist & Hb).
      rewrite attempt_run in Hlist. injection Hlist as <- <-.
      destruct (list_db_systems cloud _ c) as [db_systems|e];
        [|by injection Hb as <- <-].
      destruct (length db_systems =? 0)%nat; [by injection Hb as <- <-|].
      apply bind_ok in Hb as ([rs2 lst2] & u1 & Hinner & Hb).
      destruct (cvo_db_loop region c db_systems a [] u) as (recs & _ & _ & Hrun).
      rewrite Hrun in Hinner. injection Hinner as <- <- <-.
      apply bind_ok in Hb as ([] & u2 & Hdump & Hb). injection Hb as <- <-.
      eapply cvo_dump_info_ok in Hdump; [|reflexivity|reflexivity].
      split; [by rewrite cvo_db_add_region|].
      destruct Hdump as (I & _ & _ & Ho & _). by rewrite Ho.
Qed.

Lemma cvo_cluster_summary_rows cloud :
  summary_rows_by_region cloud "OKE Cluster Summary" CVOracle.cluster_summary_row
    (fun g => [VStr "Total OKE Clusters"; VInt (CVOracle.total_oke_clusters g);
               VInt (CVOracle.total_oke_node_count g);
               VInt (CVOracle.total_oke_pvc_count g);
               VInt (CVOracle.total_oke_pvc_size_gb g);
               VFloat (CVOracle.total_oke_pvc_size_tb g)])
    CVOracle.okes_region (fun _ rs _ => map Some rs)
    (CVOracle.get_oke_cluster_info cloud).
Proof.
  intros f regions comps s s' rs cs S Hr Hc H HS.
  unfold CVOracle.get_oke_cluster_info in H.
  invert_front H rs' cs' Hrs Hcs.
  rewrite Hr in Hrs. injection Hrs as <-. rewrite Hc in Hcs. injection Hcs as <-.
  apply bind_ok in H as (lst & s1 & Hloop & H).
  apply (regions_rows_loop f "OKE Cluster Summary" CVOracle.okes_region _
           (fun _ r => [Some r])) in Hloop.
  - destruct Hloop as [Hm Hs]. simpl in H.
    eapply cvo_finish in H; [|reflexivity|reflexivity|reflexivity|done].
    destruct H as (Hg & _ & Hsum).
    exists lst. split; [by rewrite Hm, concat_singletons|].
    rewrite Hg. apply Hsum. by rewrite Hs.
  - intros; preserves_tac.
  - intros acc region t acc1 t1 Hb.
    apply bind_ok in Hb as (client & t0 & Hc' & Hb). injection Hc' as <- <-.
    apply bind_ok in Hb as (rs1 & t0 & Hcomps & Hb). injection Hb as <- <-.
    apply (comps_rows_loop f "OKE Cluster Summary" CVOracle.okes_region _
             (Some region) (Some region)) in Hcomps.
    + destruct Hcomps as [Hreg Hsh]. split; [|done].
      exists [rs1]. split; [done|]. simpl. rewrite Hreg. by destruct cs.
    + done.
    + intros a c u a' u' Hb Ha.
      assert (Ha' : CVOracle.okes_region a = Some region) by (by destruct Ha).
      apply bind_ok in Hb as (fetched & u1 & Hlist & Hb).
      rewrite attempt_run in Hlist. injection Hlist as <- <-.
      destruct (list_clusters cloud _ c) as [clusters|e];
        [|by injection Hb as <- <-].
      apply bind_ok in Hb as ([rs2 lst2] & u1 & Hinner & Hb).
      destruct (cvo_cluster_loop cloud region clusters a [] u)
        as (recs & _ & _ & Hrun).
      rewrite Hrun in Hinner. injection Hinner as <- <- <-.
      apply bind_ok in Hb as ([] & u2 & Hdump & Hb). injection Hb as <- <-.
      eapply cvo_dump_info_ok in Hdump; [|reflexivity|reflexivity].
      split; [by rewrite cvo_cluster_add_region|].
      destruct Hdump as (I & HI & _ & Ho & _). rewrite Ho by done.
      unfold sheet_of in HI |- *. simpl in HI |- *.
      destruct (remove_kubeconfigs_lookup cloud
                  (List.filter (fun x => not_deleted (cl_lifecycle_state x)) clusters)
                  (fs u) f) as [Hl|Hl]; rewrite Hl in HI |- *; [done|done].
Qed.

(** X16. [CVOracleCloudSizingScript.py] writes one summary row for each
    region, in the order of the regions, whether or not anything was found
    there. For DB systems and OKE clusters the rows' regions are the regions
    of the run. For instances too, but with no compartment to look at the
    region cell of every row is empty. For object storage the regions whose
    namespace is refused have no row. In each case the rows follow what the
    summary sheet held and the grand-total row. *)
Theorem summary_row_per_region (cloud : Cloud) :
  summary_rows_by_region cloud "Instance Summary" CVOracle.instance_summary_row
    (fun g => [VStr "Total Instances"; VInt (CVOracle.total_instances g);
               VInt (CVOracle.total_instance_sizeGB g);
               VFloat (CVOracle.total_instance_sizeTB g)])
    CVOracle.is_region
    (fun _ rs cs => map (fun r => match cs with [] => None | _ => Some r end) rs)
    (CVOracle.get_instance_info cloud) /\
  summary_rows_by_region cloud "Object Storage Summary" CVOracle.bucket_summary_row
    (fun g => [VStr "Total Buckets"; VInt (CVOracle.total_buckets g);
               VFloat (CVOracle.total_storageGB g);
               VFloat (CVOracle.total_storageTB g)])
    CVOracle.oss_region
    (fun cfg rs _ =>
       map Some
         (List.filter
            (fun r => is_ok (get_namespace cloud (<["region" := r]> cfg))) rs))
    (CVOracle.get_object_storage_info cloud) /\
  summary_rows_by_region cloud "DB System Summary" CVOracle.db_summary_row
    (fun g => [VStr "Total DB Systems"; VInt (CVOracle.total_db_systems g);
               VInt (CVOracle.total_db_system_sizeGB g);
               VFloat (CVOracle.total_db_system_sizeTB g)])
    CVOracle.dbs_region (fun _ rs _ => map Some rs)
    (CVOracle.get_database_info cloud) /\
  summary_rows_by_region cloud "OKE Cluster Summary" CVOracle.cluster_summary_row
    (fun g => [VStr "Total OKE Clusters"; VInt (CVOracle.total_oke_clusters g);
               VInt (CVOracle.total_oke_node_count g);
               VInt (CVOracle.total_oke_pvc_count g);
               VInt (CVOracle.total_oke_pvc_size_gb g);
               VFloat (CVOracle.total_oke_pvc_size_tb g)])
    CVOracle.okes_region (fun _ rs _ => map Some rs)
    (CVOracle.get_oke_cluster_info cloud).
Proof.
  split_and!.
  - apply cvo_instance_summary_rows.
  - apply cvo_bucket_summary_rows.
  - apply cvo_db_summary_rows.
  - apply cvo_cluster_summary_rows.
Qed.

Lemma summary_row_per_region_witness :
  let s := cvo_ready "instances" in
  let s' := (CVOracle.get_instance_info cloud_bare "out.xlsx" [] [] s).2 in
  exists summaries S,
    sheet_of s "out.xlsx" "Instance Summary" = Some S /\
    map CVOracle.is_region summaries = [None; None] /\
    sheet_of s' "out.xlsx" "Instance Summary" =
      Some (CVOracle.format_sheet
              (ws_style_row set_bold 1
                 (S ++ plain_rows [[VStr "Total Instances";
                                    VInt (CVOracle.total_instances (globals s'));
                                    VInt (CVOracle.total_instance_sizeGB (globals s'));
                                    VFloat (CVOracle.total_instance_sizeTB (globals s'))]])
               ++ plain_rows (map CVOracle.instance_summary_row summaries))).
Proof.
  intros s s'.
  destruct (summary_row_per_region cloud_bare) as (Hinst & _).
  assert (Hr : resolve_regions cloud_bare (config s) [] s = (Ok ["r1"; "r2"], s))
    by reflexivity.
  assert (Hc : resolve_compartments cloud_bare (config s) [] s = (Ok [], s))
    by reflexivity.
  assert (Hrun : CVOracle.get_instance_info cloud_bare "out.xlsx" [] [] s = (Ok tt, s'))
    by (vm_compute; reflexivity).
  assert (HS : sheet_of s "out.xlsx" "Instance Summary" =
               Some [plain_row (map VStr ["Region"; "Instance Count";
                                          "Total Size (GB)"; "Total Size (TB)"])])
    by (vm_compute; reflexivity).
  destruct (Hinst "out.xlsx" [] [] s s' _ _ _ Hr Hc Hrun HS) as (summaries & Hm & Hsh).
  exact (ex_intro _ summaries (ex_intro _ _ (conj HS (conj Hm Hsh)))).
Defined.

(** ** One summary row for each scope that lists something *)

Lemma ocs_instance_add_scope recs sm :
  OciCs.is_region (fold_left ocs_instance_add recs sm) = OciCs.is_region sm /\
  OciCs.is_compartment_id (fold_left ocs_instance_add recs sm)
    = OciCs.is_compartment_id sm.
Proof.
  revert sm. induction recs as [|r recs IH]; intros sm; [done|].
  simpl. destruct (IH (ocs_instance_add sm r)) as [-> ->]. done.
Qed.

Lemma ocs_bucket_add_scope recs sm :
  OciCs.oss_region (fold_left ocs_bucket_add recs sm) = OciCs.oss_region sm /\
  OciCs.oss_compartment_id (fold_left ocs_bucket_add recs sm)
    = OciCs.oss_compartment_id sm.
Proof.
  revert sm. induction recs as [|r recs IH]; intros sm; [done|].
  simpl. destruct (IH (ocs_bucket_add sm r)) as [-> ->]. done.
Qed.

Lemma filter_none {A} (l : list A) : List.filter (fun _ => false) l = [].
Proof. by induction l. Qed.

Section ScopeRows.
Context {G Sm K : Type} (f ss : string) (srow : Sm -> list pyval) (key_of : Sm -> K).

Lemma rows_added_refl (s : state G) : rows_added f ss srow [] s s.
Proof. intros S HS. by rewrite app_nil_r. Qed.

Lemma rows_added_trans a b (s1 s2 s3 : state G) :
  rows_added f ss srow a s1 s2 -> rows_added f ss srow b s2 s3 ->
  rows_added f ss srow (a ++ b) s1 s3.
Proof.
  intros H1 H2 S HS. unfold plain_rows. rewrite !map_app, app_assoc.
  apply H2, H1, HS.
Qed.

Lemma rows_loop_inner {A} (body : unit -> A -> M G unit) (exp : A -> list K)
    l u (s : state G) u' s' :
  (forall u x t u' t',
     body u x t = (Ok u', t') ->
     exists sums, map key_of sums = exp x /\ rows_added f ss srow sums t t') ->
  for_fold l u body s = (Ok u', s') ->
  exists sums,
    map key_of sums = concat (map exp l) /\ rows_added f ss srow sums s s'.
Proof.
  intros Hbody Hrun.
  apply (for_fold_inv
           (fun done _ st =>
              exists sums, map key_of sums = concat (map exp done) /\
                           rows_added f ss srow sums s st)) in Hrun; [done| |].
  - exists []. split; [done|apply rows_added_refl].
  - intros done x u1 s1 u2 s2 (sums1 & Hk1 & Hr1) Hb.
    apply Hbody in Hb as (sums2 & Hk2 & Hr2).
    exists (sums1 ++ sums2). split; [|by eapply rows_added_trans].
    rewrite !map_app, concat_app, Hk1, Hk2. simpl. by rewrite app_nil_r.
Qed.

Lemma rows_loop_outer (rest : unit -> string -> M G unit)
    (row : gmap string string -> string -> list K) l u (s : state G) u' s' :
  (forall u region, preserves same_config (rest u region)) ->
  (forall u region t u' t',
     rest u region t = (Ok u', t') ->
     exists sums, map key_of sums = row (config t) region /\
                  rows_added f ss srow sums t t') ->
  for_fold l u (fun u region => config_set "region" region ;;; rest u region) s
    = (Ok u', s') ->
  exists sums,
    map key_of sums = concat (map (fun r => row (<["region" := r]> (config s)) r) l) /\
    rows_added f ss srow sums s s'.
Proof.
  intros Hcfg Hrest Hrun.
  apply (for_fold_inv
           (fun done _ st =>
              config st = region_after done (config s) /\
              exists sums,
                map key_of sums =
                  concat (map (fun r => row (<["region" := r]> (config s)) r) done) /\
                rows_added f ss srow sums s st)) in Hrun.
  - by destruct Hrun as (_ & ?).
  - split; [done|]. exists []. split; [done|apply rows_added_refl].
  - intros done x u1 s1 u2 s2 (Hc & sums1 & Hk1 & Hr1) Hb.
    apply bind_ok in Hb as ([] & s0 & Hset & Hb). injection Hset as <-.
    pose proof (preserves_run same_config _ _ _ _ (Hcfg u1 x) Hb) as Hsame.
    apply Hrest in Hb as (sums2 & Hk2 & Hr2). simpl in Hk2.
    assert (Hins : <["region" := x]> (config s1) = <["region" := x]> (config s)).
    { rewrite Hc. unfold region_after.
      destruct (last done); [apply insert_insert_eq|done]. }
    split.
    + unfold same_config in Hsame. rewrite Hsame. simpl.
      unfold region_after at 1. by rewrite last_snoc.
    + exists (sums1 ++ sums2). split.
      * rewrite !map_app, concat_app, Hk1, Hk2, Hins. simpl. by rewrite app_nil_r.
      * eapply rows_added_trans; [exact Hr1|]. intros S HS. by apply Hr2.
Qed.
End ScopeRows.

Lemma ocs_instance_summary_rows cloud :
  summary_rows_by_scope cloud "InstanceSummary" OciCs.instance_summary_row
    (fun g => [VStr "Grand Total"; VStr ""; VInt (OciCs.total_instances g);
               VInt (OciCs.total_instance_sizeGB g);
               VFloat (OciCs.total_instance_sizeTB g)])
    (fun sm => (OciCs.is_region sm, OciCs.is_compartment_id sm))
    (fun cfg r c => has_items (list_instances cloud (<["region" := r]> cfg) c))
    (OciCs.get_instance_info cloud).
Proof.
  intros f regions comps s s' rs cs S Hr Hc H HS.
  unfold OciCs.get_instance_info in H.
  invert_front H rs' cs' Hrs Hcs.
  rewrite Hr in Hrs. injection Hrs as <-. rewrite Hc in Hcs. injection Hcs as <-.
  apply bind_ok in H as ([] & s1 & Hloop & H). unfold for_each in Hloop.
  apply (rows_loop_outer f "InstanceSummary" OciCs.instance_summary_row
           (fun sm => (OciCs.is_region sm, OciCs.is_compartment_id sm)) _
           (fun cfg r =>
              map (fun c => (Some r, Some c))
                (List.filter (fun c => has_items (list_instances cloud cfg c)) cs)))
    in Hloop.
  - destruct Hloop as (sums & Hk & Hrows).
    eapply (ocs_finish _ "InstanceInfo") in H; [|reflexivity|done].
    destruct H as (Hg & _ & Hsum).
    exists sums. split; [done|]. rewrite Hg. apply Hsum. by apply Hrows.
  - intros; preserves_tac.
  - intros [] region t [] t1 Hb.
    apply bind_ok in Hb as (client & t0 & Hc' & Hb). injection Hc' as <- <-.
    unfold for_each in Hb.
    apply (rows_loop_inner f "InstanceSummary" OciCs.instance_summary_row
             (fun sm => (OciCs.is_region sm, OciCs.is_compartment_id sm)) _
             (fun c => if has_items (list_instances cloud (config t) c)
                       then [(Some region, Some c)] else [])) in Hb.
    + destruct Hb as (sums & Hk & Hrows). exists sums. split; [|done].
      rewrite Hk. apply concat_filtered.
    + intros [] c u [] u' Hc2.
      apply bind_ok in Hc2 as (instances & u1 & Hlist & Hc2).
      unfold call in Hlist. injection Hlist as Hlist <-.
      simpl in Hlist. rewrite Hlist.
      destruct (length instances =? 0)%nat eqn:Hlen.
      * injection Hc2 as <-. destruct instances; [|done].
        exists []. split; [done|apply rows_added_refl].
      * apply bind_ok in Hc2 as ([sm lst2] & u1 & Hinner & Hc2).
        destruct (ocs_instance_loop cloud region c instances
                    (OciCs.mkInstanceSummary (Some region) (Some c) 0 0 0) [] u)
          as (recs & _ & _ & Hrun).
        rewrite Hrun in Hinner. injection Hinner as <- <- <-.
        apply bind_ok in Hc2 as ([] & u2 & Hdump & Hc2).
        eapply ocs_dump_info_ok in Hdump; [|reflexivity|reflexivity].
        eapply ocs_dump_summary_ok in Hc2; [|reflexivity|reflexivity].
        eexists [_]. split.
        -- destruct instances; [done|]. simpl.
           by destruct (ocs_instance_add_scope recs
                          (OciCs.mkInstanceSummary (Some region) (Some c) 0 0 0))
             as [-> ->].
        -- intros S0 HS0.
           eapply sheet_changed_this in Hc2; [exact Hc2|].
           destruct Hdump as (I & _ & _ & Ho & _). rewrite Ho by done. exact HS0.
Qed.

Lemma ocs_bucket_summary_rows cloud :
  summary_rows_by_scope cloud "ObjectStorageSummary" OciCs.bucket_summary_row
    (fun g => [VStr "Grand Total"; VStr ""; VInt (OciCs.total_buckets g);
               VFloat (OciCs.total_storageGB g);
               VFloat (OciCs.total_storageTB g)])
    (fun sm => (OciCs.oss_region sm, OciCs.oss_compartment_id sm))
    (fun cfg r c =>
       match get_namespace cloud (<["region" := r]> cfg) with
       | Ok ns => has_items (list_buckets cloud (<["region" := r]> cfg) ns c)
       | Raise _ => false
       end)
    (OciCs.get_object_storage_info cloud).
Proof.
  intros f regions comps s s' rs cs S Hr Hc H HS.
  unfold OciCs.get_object_storage_info in H.
  invert_front H rs' cs' Hrs Hcs.
  rewrite Hr in Hrs. injection Hrs as <-. rewrite Hc in Hcs. injection Hcs as <-.
  apply bind_ok in H as ([] & s1 & Hloop & H). unfold for_each in Hloop.
  apply (rows_loop_outer f "ObjectStorageSummary" OciCs.bucket_summary_row
           (fun sm => (OciCs.oss_region sm, OciCs.oss_compartment_id sm)) _
           (fun cfg r =>
              match get_namespace cloud cfg with
              | Ok ns =>
                  map (fun c => (Some r, Some c))
                    (List.filter (fun c => has_items (list_buckets cloud cfg ns c)) cs)
              | Raise _ => []
              end))
    in Hloop.
  - destruct Hloop as (sums & Hk & Hrows).
    eapply (ocs_finish _ "ObjectStorageInfo") in H; [|reflexivity|done].
    destruct H as (Hg & _ & Hsum).
    exists sums. split; [|rewrite Hg; apply Hsum; by apply Hrows].
    rewrite Hk. unfold listed_scopes. f_equal. apply List.map_ext. intros r.
    destruct (get_namespace cloud _); [done|]. by rewrite filter_none.
  - intros; preserves_tac.
  - intros [] region t [] t1 Hb.
    apply bind_ok in Hb as (client & t0 & Hc' & Hb). injection Hc' as <- <-.
    apply bind_ok in Hb as (fetched & t0 & Hns & Hb).
    rewrite attempt_run in Hns. injection Hns as <- <-.
    destruct (get_namespace cloud (config t)) as [ns|e]; simpl.
    2:{ injection Hb as <-. exists []. split; [done|apply rows_added_refl]. }
    unfold for_each in Hb.
    apply (rows_loop_inner f "ObjectStorageSummary" OciCs.bucket_summary_row
             (fun sm => (OciCs.oss_region sm, OciCs.oss_compartment_id sm)) _
             (fun c => if has_items (list_buckets cloud (config t) ns c)
                       then [(Some region, Some c)] else [])) in Hb.
    + destruct Hb as (sums & Hk & Hrows). exists sums. split; [|done].
      rewrite Hk. apply concat_filtered.
    + intros [] c u [] u' Hc2.
      apply bind_ok in Hc2 as (fetched & u1 & Hlist & Hc2).
      rewrite attempt_run in Hlist. injection Hlist as <- <-.
      destruct (list_buckets cloud (config t) ns c) as [buckets|e]; simpl.
      2:{ injection Hc2 as <-. exists []. split; [done|apply rows_added_refl]. }
      destruct (length buckets =? 0)%nat eqn:Hlen.
      * injection Hc2 as <-. destruct buckets; [|done].
        exists []. split; [done|apply rows_added_refl].
      * apply bind_ok in Hc2 as ([sm lst2] & u1 & Hinner & Hc2).
        destruct (ocs_bucket_loop cloud (config t) region ns c buckets
                    (OciCs.mkObjectStorageSummary (Some region) (Some ns) (Some c)
                       0 0 0) [] u)
          as (recs & _ & _ & Hrun).
        rewrite Hrun in Hinner. injection Hinner as <- <- <-.
        apply bind_ok in Hc2 as ([] & u2 & Hdump & Hc2).
        eapply ocs_dump_info_ok in Hdump; [|reflexivity|reflexivity].
        eapply ocs_dump_summary_ok in Hc2; [|reflexivity|reflexivity].
        eexists [_]. split.
        -- destruct buckets; [done|]. simpl.
           by destruct (ocs_bucket_add_scope recs
                          (OciCs.mkObjectStorageSummary (Some region) (Some ns) (Some c)
                             0 0 0))
             as [-> ->].
        -- intros S0 HS0.
           eapply sheet_changed_this in Hc2; [exact Hc2|].
           destruct Hdump as (I & _ & _ & Ho & _). rewrite Ho by done. exact HS0.
Qed.

(** X17. [oci_cs.py] writes one summary row for each pair of a region and a
    compartment whose listing is not empty, region by region, each row
    carrying its region and its compartment; the grand-total row comes
    after them. A compartment that lists nothing, or whose listing of
    buckets is refused, or of a region whose namespace is refused, has no
    row; a compartment that lists only instances that are terminated, or
    only buckets whose statistics are refused, has one. *)
Theorem summary_row_per_listed_scope (cloud : Cloud) :
  summary_rows_by_scope cloud "InstanceSummary" OciCs.instance_summary_row
    (fun g => [VStr "Grand Total"; VStr ""; VInt (OciCs.total_instances g);
               VInt (OciCs.total_instance_sizeGB g);
               VFloat (OciCs.total_instance_sizeTB g)])
    (fun sm => (OciCs.is_region sm, OciCs.is_compartment_id sm))
    (fun cfg r c => has_items (list_instances cloud (<["region" := r]> cfg) c))
    (OciCs.get_instance_info cloud) /\
  summary_rows_by_scope cloud "ObjectStorageSummary" OciCs.bucket_summary_row
    (fun g => [VStr "Grand Total"; VStr ""; VInt (OciCs.total_buckets g);
               VFloat (OciCs.total_storageGB g);
               VFloat (OciCs.total_storageTB g)])
    (fun sm => (OciCs.oss_region sm, OciCs.oss_compartment_id sm))
    (fun cfg r c =>
       match get_namespace cloud (<["region" := r]> cfg) with
       | Ok ns => has_items (list_buckets cloud (<["region" := r]> cfg) ns c)
       | Raise _ => false
       end)
    (OciCs.get_object_storage_info cloud).
Proof.
  split.
  - apply ocs_instance_summary_rows.
  - apply ocs_bucket_summary_rows.
Qed.

Lemma summary_row_per_listed_scope_witness :
  let s := ocs_ready "instances" in
  let s' := (OciCs.get_instance_info cloud_gone "out.xlsx" [] [] s).2 in
  exists summaries S,
    sheet_of s "out.xlsx" "InstanceSummary" = Some S /\
    map (fun sm => (OciCs.is_region sm, OciCs.is_compartment_id sm)) summaries
      = [(Some "r1", Some "c1")] /\
    sheet_of s' "out.xlsx" "InstanceSummary" =
      Some (OciCs.format_sheet
              ((S ++ plain_rows (map OciCs.instance_summary_row summaries))
               ++ plain_rows [[VStr "Grand Total"; VStr "";
                               VInt (OciCs.total_instances (globals s'));
                               VInt (OciCs.total_instance_sizeGB (globals s'));
                               VFloat (OciCs.total_instance_sizeTB (globals s'))]])).
Proof.
  intros s s'.
  destruct (summary_row_per_listed_scope cloud_gone) as (Hinst & _).
  assert (Hr : resolve_regions cloud_gone (config s) [] s = (Ok ["r1"], s))
    by reflexivity.
  assert (Hc : resolve_compartments cloud_gone (config s) [] s = (Ok ["c1"; "c2"], s))
    by reflexivity.
  assert (Hrun : OciCs.get_instance_info cloud_gone "out.xlsx" [] [] s = (Ok tt, s'))
    by (vm_compute; reflexivity).
  destruct (sheet_of s "out.xlsx" "InstanceSummary") as [S|] eqn:HS;
    [|by vm_compute in HS].
  destruct (Hinst "out.xlsx" [] [] s s' _ _ _ Hr Hc Hrun HS) as (summaries & Hm & Hsh).
  exact (ex_intro _ summaries (ex_intro _ S (conj eq_refl (conj Hm Hsh)))).
Defined.
